(** * SpectraQ agent backend: query pipeline, tool dispatch, sessions

    A shallow embedding of the request pipeline of the backend
    ([app/services/agent_service.py], [agent_service_mvp.py],
    [mcp_manager.py], [mcp_manager_mvp.py], [gemini_client.py],
    [app/schemas/agent.py], [app/core/exceptions.py]).

    Conventions of the embedding.
    - Python [str] is [string]; the text functions ([lower], [strip],
      [in], [startswith]) are given on the ASCII range.
    - Python [float] values that are ratios of small integers (the
      confidence arithmetic) are exact rationals [Q].
    - JSON-like [Any] data is the type [value]; a [dict] is a [gmap].
    - A coroutine that may raise returns [result A]; an async generator
      is the list of values it yields together with the way it ends.
    - External calls (HTTP, the LLM, the clock, uuid4, random) are
      parameters of the functions that perform them. *)

From Stdlib Require Import Ascii QArith Qminmax Lqa.
From stdpp Require Import gmap strings list fin_maps pretty.

Local Open Scope string_scope.
Local Open Scope list_scope.
Set Warnings "-register-all".

(** ** Python values *)

Inductive value : Type :=
  | VNone
  | VBool (b : bool)
  | VInt (z : Z)
  | VStr (s : string)
  | VList (l : list value)
  | VDict (d : gmap string value).

(** Python truthiness, as used by [if x], [not x], [a and b]. *)
Definition truthy (v : value) : bool :=
  match v with
  | VNone => false
  | VBool b => b
  | VInt z => negb (z =? 0)%Z
  | VStr s => negb (String.eqb s "")
  | VList l => match l with [] => false | _ => true end
  | VDict d => negb (bool_decide (d = ∅))
  end.

Definition str_truthy (s : string) : bool := negb (String.eqb s "").

(** ** Exceptions ([app/core/exceptions.py]) and the error monad

    Only subclasses of [Exception] are represented, which is what
    [except Exception] catches. *)

Inductive exn : Type :=
  | MCPServerError (message : string) (server_name : option string)
  | GeminiAPIError (message : string) (status_code : option Z)
  | AgentSessionError (message : string) (session_id : option string)
  | AttributeError (message : string)
  | KeyError (key_repr : string)
  | IndexError (message : string)
  | TypeError (message : string)
  | OtherException (message : string).

(** [str(e)] *)
Definition exn_str (e : exn) : string :=
  match e with
  | MCPServerError m _ => m
  | GeminiAPIError m _ => m
  | AgentSessionError m _ => m
  | AttributeError m => m
  | KeyError k => k
  | IndexError m => m
  | TypeError m => m
  | OtherException m => m
  end.

Inductive result (A : Type) : Type :=
  | Ok (a : A)
  | Raise (e : exn).
Arguments Ok {A} a.
Arguments Raise {A} e.

#[global] Instance result_ret : MRet result := fun _ a => Ok a.
#[global] Instance result_bind : MBind result := fun _ _ k r =>
  match r with
  | Ok a => k a
  | Raise e => Raise e
  end.

Definition is_ok {A} (r : result A) : bool :=
  match r with Ok _ => true | Raise _ => false end.

(** Subscripting [v[k]], [v[i]] and [d.get(k, default)]. *)
Definition getitem (v : value) (k : string) : result value :=
  match v with
  | VDict d => match d !! k with
               | Some x => Ok x
               | None => Raise (KeyError ("'" +:+ k +:+ "'"))
               end
  | _ => Raise (TypeError "object is not subscriptable by str")
  end.

Definition getindex (v : value) (i : nat) : result value :=
  match v with
  | VList l => match l !! i with
               | Some x => Ok x
               | None => Raise (IndexError "list index out of range")
               end
  | VDict _ => Raise (KeyError "0")
  | VStr s => match String.get i s with
              | Some c => Ok (VStr (String c EmptyString))
              | None => Raise (IndexError "string index out of range")
              end
  | _ => Raise (TypeError "object is not subscriptable")
  end.

Definition dict_get (v : value) (k : string) (dflt : value) : result value :=
  match v with
  | VDict d => Ok (default dflt (d !! k))
  | _ => Raise (AttributeError "get")
  end.

(** ** Text functions of [str] used by the classifiers *)

Module Str.

(** [c.lower()] on one character: A..Z are shifted, the rest is kept. *)
Definition lower_ascii (c : ascii) : ascii :=
  let n := nat_of_ascii c in
  if (65 <=? n)%nat && (n <=? 90)%nat then ascii_of_nat (n + 32) else c.

(** [s.lower()] *)
Fixpoint lower (s : string) : string :=
  match s with
  | EmptyString => EmptyString
  | String c s' => String (lower_ascii c) (lower s')
  end.

(** [c.isspace()] : tab, newline, vertical tab, form feed, carriage
    return, the separators 0x1c..0x1f, and the space. *)
Definition isspace (c : ascii) : bool :=
  let n := nat_of_ascii c in
  ((9 <=? n)%nat && (n <=? 13)%nat) || ((28 <=? n)%nat && (n <=? 32)%nat).

(** [s.lstrip()] *)
Fixpoint lstrip (s : string) : string :=
  match s with
  | EmptyString => EmptyString
  | String c s' => if isspace c then lstrip s' else s
  end.

(** [s.rstrip()] *)
Fixpoint rstrip (s : string) : string :=
  match s with
  | EmptyString => EmptyString
  | String c s' =>
      match rstrip s' with
      | EmptyString => if isspace c then EmptyString else String c EmptyString
      | t => String c t
      end
  end.

(** [s.strip()] *)
Definition strip (s : string) : string := rstrip (lstrip s).

(** [s.startswith(p)] *)
Fixpoint startswith (s p : string) : bool :=
  match p with
  | EmptyString => true
  | String a p' =>
      match s with
      | EmptyString => false
      | String b s' => Ascii.eqb a b && startswith s' p'
      end
  end.

(** [w in s] : [w] occurs in [s] as a contiguous substring. *)
Fixpoint contains (w s : string) : bool :=
  startswith s w ||
  match s with
  | EmptyString => false
  | String _ s' => contains w s'
  end.

(** [s[:n]] for [n >= 0] *)
Fixpoint take (n : nat) (s : string) : string :=
  match n, s with
  | S n', String c s' => String c (take n' s')
  | _, _ => EmptyString
  end.

(** [any(w in s for w in ws)] *)
Definition any_in (ws : list string) (s : string) : bool :=
  existsb (fun w => contains w s) ws.

End Str.

(** ** Schemas ([app/schemas/agent.py]) *)

(** [class QueryType(str, Enum)] : the six members the enumeration
    declares. *)
Inductive QueryType : Type :=
  | MARKET_ANALYSIS
  | PRICE_PREDICTION
  | NEWS_SENTIMENT
  | ON_CHAIN_ANALYSIS
  | GENERAL_CRYPTO
  | TRADING_ADVICE.

#[global] Instance QueryType_eq_dec : EqDecision QueryType.
Proof. solve_decision. Defined.

(** [QueryType.value] *)
Definition QueryType_value (q : QueryType) : string :=
  match q with
  | MARKET_ANALYSIS => "market_analysis"
  | PRICE_PREDICTION => "price_prediction"
  | NEWS_SENTIMENT => "news_sentiment"
  | ON_CHAIN_ANALYSIS => "on_chain_analysis"
  | GENERAL_CRYPTO => "general_crypto"
  | TRADING_ADVICE => "trading_advice"
  end.

(** The attribute access [QueryType.<NAME>] : a member of the
    enumeration, or [AttributeError] for a name it does not declare. *)
Definition QueryType_getattr (name : string) : result QueryType :=
  if String.eqb name "MARKET_ANALYSIS" then Ok MARKET_ANALYSIS
  else if String.eqb name "PRICE_PREDICTION" then Ok PRICE_PREDICTION
  else if String.eqb name "NEWS_SENTIMENT" then Ok NEWS_SENTIMENT
  else if String.eqb name "ON_CHAIN_ANALYSIS" then Ok ON_CHAIN_ANALYSIS
  else if String.eqb name "GENERAL_CRYPTO" then Ok GENERAL_CRYPTO
  else if String.eqb name "TRADING_ADVICE" then Ok TRADING_ADVICE
  else Raise (AttributeError name).

(** [class ToolCall(BaseModel)] *)
Record ToolCall : Type := mkToolCall {
  tool_name : string;
  tc_parameters : gmap string value;
  tc_result : option value;
  execution_time_ms : option Z;
  error : option string
}.

(** [class DataSource(BaseModel)]; [last_updated] is a clock reading. *)
Record DataSource : Type := mkDataSource {
  ds_name : string;
  ds_type : string;
  reliability_score : Q
}.

(** A tool-invocation descriptor built by the classifiers:
    [{"server": .., "tool": .., "parameters": {..}}]. *)
Record tool_info : Type := mkToolInfo {
  server : string;
  tool : string;
  parameters : gmap string value
}.

(** The dictionary a classifier returns. *)
Record query_analysis : Type := mkAnalysis {
  qa_type : QueryType;
  qa_tools : list tool_info;
  qa_confidence : Q
}.

(** [class AgentQueryResponse(BaseModel)] *)
Record AgentQueryResponse : Type := mkResponse {
  resp_id : string;
  response : string;
  resp_session_id : option string;
  query_type : option QueryType;
  confidence_score : Q;
  tools_used : list ToolCall;
  data_sources : list DataSource;
  processing_time_ms : Z;
  token_usage : gmap string value;
  follow_up_suggestions : list string
}.

(** ** Confidence estimator *)

(** [not tool.error] : [None] and the empty string are both falsy. *)
Definition no_error (t : ToolCall) : bool :=
  match error t with
  | None => true
  | Some s => negb (str_truthy s)
  end.

(** [sum(1 for tool in tools_used if not tool.error)] *)
Definition successful_tools (used : list ToolCall) : Z :=
  Z.of_nat (length (filter (fun t => no_error t = true) used)).

Module ConfidenceMVP.

(** The table of [agent_service_mvp.py], with [.get(query_type, 0.70)]. *)
Definition type_confidence (q : QueryType) : Q :=
  match q with
  | MARKET_ANALYSIS => 85 # 100
  | PRICE_PREDICTION => 75 # 100
  | NEWS_SENTIMENT => 80 # 100
  | GENERAL_CRYPTO => 70 # 100
  | TRADING_ADVICE => 65 # 100
  | ON_CHAIN_ANALYSIS => 70 # 100
  end.

Definition ceiling : Q := 90 # 100.

Definition _calculate_confidence_score
    (used : list ToolCall) (required_tools : Z) (q : QueryType) : Q :=
  let successful := successful_tools used in
  if (required_tools =? 0)%Z then 7 # 10
  else
    let tool_success_rate :=
      if (0 <? required_tools)%Z
      then (inject_Z successful / inject_Z required_tools)%Q
      else 1%Q in
    Qmin ceiling (tool_success_rate * type_confidence q)%Q.

End ConfidenceMVP.

Module ConfidenceFull.

(** The table of [agent_service.py], with [.get(query_type, 0.7)]. *)
Definition type_confidence (q : QueryType) : Q :=
  match q with
  | MARKET_ANALYSIS => 9 # 10
  | PRICE_PREDICTION => 7 # 10
  | NEWS_SENTIMENT => 85 # 100
  | ON_CHAIN_ANALYSIS => 9 # 10
  | GENERAL_CRYPTO => 8 # 10
  | TRADING_ADVICE => 6 # 10
  end.

Definition ceiling : Q := 95 # 100.

Definition _calculate_confidence_score
    (used : list ToolCall) (required_tools : Z) (q : QueryType) : Q :=
  let successful := successful_tools used in
  if (required_tools =? 0)%Z then 7 # 10
  else
    let tool_success_rate :=
      if (0 <? required_tools)%Z
      then (inject_Z successful / inject_Z required_tools)%Q
      else 1%Q in
    Qmin ceiling (tool_success_rate * type_confidence q)%Q.

End ConfidenceFull.

(** ** Query classifier of the MVP service
    ([AgentServiceMVP._analyze_query]) *)

Module ClassifierMVP.

Definition greetings : list string :=
  ["hi"; "hello"; "hey"; "greetings"; "good morning"; "good afternoon";
   "good evening"; "howdy"; "sup"; "what's up"].

Definition price_words : list string :=
  ["price"; "cost"; "value"; "$"; "bitcoin"; "btc"; "ethereum"; "eth"].
Definition sentiment_words : list string :=
  ["sentiment"; "fear"; "greed"; "mood"; "market"; "feeling"].
Definition news_words : list string :=
  ["news"; "headlines"; "events"; "happening"; "latest"].
Definition analysis_words : list string :=
  ["analysis"; "analyze"; "market"; "trend"; "technical"].

(** [query_lower in greetings or
     any(query_lower.startswith(g) for g in greetings)] *)
Definition is_greeting (query_lower : string) : bool :=
  existsb (String.eqb query_lower) greetings
  || existsb (Str.startswith query_lower) greetings.

Definition coin_price (symbol : string) : tool_info :=
  mkToolInfo "coingecko" "get_coin_price" {[ "symbol" := VStr symbol ]}.
Definition ticker (pair : string) : tool_info :=
  mkToolInfo "ccxt" "get_ticker" {[ "symbol" := VStr pair ]}.
Definition fear_greed : tool_info :=
  mkToolInfo "feargreed" "get_fear_greed_index" ∅.
Definition news (flt : string) : tool_info :=
  mkToolInfo "cryptopanic" "get_news" {[ "filter" := VStr flt ]}.
Definition market_data : tool_info :=
  mkToolInfo "coingecko" "get_market_data" ∅.

(** The tools added when no category matched. *)
Definition fallback_tools : list tool_info :=
  [coin_price "BTC"; fear_greed].

Definition _analyze_query (query : string) : query_analysis :=
  let query_lower := Str.strip (Str.lower query) in
  if is_greeting query_lower then
    mkAnalysis GENERAL_CRYPTO [] (9 # 10)
  else
    let tools : list tool_info := [] in
    let qt := GENERAL_CRYPTO in
    (* Price-related queries *)
    let '(qt, tools) :=
      if Str.any_in price_words query_lower then
        let symbol :=
          if Str.any_in ["ethereum"; "eth"] query_lower then "ETH"
          else if Str.any_in ["cardano"; "ada"] query_lower then "ADA"
          else if Str.any_in ["solana"; "sol"] query_lower then "SOL"
          else "BTC" in
        (PRICE_PREDICTION,
         tools ++ [coin_price symbol; ticker (symbol +:+ "/USDT")])
      else (qt, tools) in
    (* Market sentiment queries *)
    let '(qt, tools) :=
      if Str.any_in sentiment_words query_lower then
        let tools :=
          if Str.any_in ["bitcoin"; "btc"] query_lower
             && Str.any_in ["ethereum"; "eth"] query_lower
          then tools ++ [coin_price "BTC"; coin_price "ETH"; ticker "ETH/USDT"]
          else tools in
        (MARKET_ANALYSIS, tools ++ [fear_greed; news "rising"])
      else (qt, tools) in
    (* News queries *)
    let '(qt, tools) :=
      if Str.any_in news_words query_lower
      then (NEWS_SENTIMENT, tools ++ [news "hot"])
      else (qt, tools) in
    (* Market analysis queries *)
    let '(qt, tools) :=
      if Str.any_in analysis_words query_lower
      then (MARKET_ANALYSIS, tools ++ [market_data; fear_greed])
      else (qt, tools) in
    (* If no specific tools identified, use general market data *)
    let tools :=
      match tools with
      | [] => tools ++ fallback_tools
      | _ => tools
      end in
    mkAnalysis qt tools (8 # 10).

(** The words whose presence selects a category. *)
Definition recognized_keywords : list string :=
  price_words ++ sentiment_words ++ news_words ++ analysis_words.

Definition has_keyword (query : string) : bool :=
  Str.any_in recognized_keywords (Str.strip (Str.lower query)).

End ClassifierMVP.

(** ** Query classifier of the Redis-backed service
    ([AgentService._analyze_query]) *)

Module ClassifierFull.

Definition price_words : list string := ["price"; "cost"; "value"; "$"].
Definition sentiment_words : list string :=
  ["sentiment"; "fear"; "greed"; "mood"].
Definition news_words : list string := ["news"; "headlines"; "events"].
Definition whale_words : list string :=
  ["whale"; "large"; "transactions"; "on-chain"].
Definition compliance_words : list string :=
  ["audit"; "compliance"; "contract"; "smart contract"; "regulatory";
   "aml"; "gdpr"; "kyc"].

(** [_extract_standards] *)
Definition _extract_standards (query : string) : list string :=
  let query_lower := Str.lower query in
  let has w := Str.contains w query_lower in
  let standards :=
    (if has "aml" || has "money laundering" then ["AML"] else [])
    ++ (if has "gdpr" || has "privacy" then ["GDPR"] else [])
    ++ (if has "kyc" || has "know your customer" then ["KYC"] else [])
    ++ (if has "eerc" || has "enhanced erc" || has "avalanche"
        then ["eERC"] else []) in
  match standards with
  | [] => ["AML"; "GDPR"; "KYC"]
  | _ => standards
  end.

Section WithRegex.
(** [_extract_contract_code] searches the query with regular
    expressions; it is a parameter here. *)
Variable _extract_contract_code : string -> option string.

Definition _analyze_query (query : string) : result query_analysis :=
  let query_lower := Str.lower query in
  let tools : list tool_info := [] in
  let qt := GENERAL_CRYPTO in
  let '(qt, tools) :=
    if Str.any_in price_words query_lower
    then (PRICE_PREDICTION,
          tools ++ [mkToolInfo "coingecko" "get_coin_price"
                      {[ "symbol" := VStr "bitcoin" ]}])
    else (qt, tools) in
  let '(qt, tools) :=
    if Str.any_in sentiment_words query_lower
    then (NEWS_SENTIMENT,
          tools ++ [mkToolInfo "feargreed" "get_fear_greed_index" ∅;
                    mkToolInfo "cryptopanic" "get_news"
                      {[ "filter" := VStr "rising" ]}])
    else (qt, tools) in
  let '(qt, tools) :=
    if Str.any_in news_words query_lower
    then (NEWS_SENTIMENT,
          tools ++ [mkToolInfo "cryptopanic" "get_news"
                      {[ "filter" := VStr "hot" ]}])
    else (qt, tools) in
  let '(qt, tools) :=
    if Str.any_in whale_words query_lower
    then (ON_CHAIN_ANALYSIS,
          tools ++ [mkToolInfo "whaletracker" "get_whale_alerts"
                      {[ "min_value" := VInt 1000000 ]}])
    else (qt, tools) in
  '(qt, tools) ←
    (if Str.any_in compliance_words query_lower then
       qt' ← QueryType_getattr "COMPLIANCE_AUDIT";
       let contract_code := _extract_contract_code query in
       let standards := _extract_standards query in
       match contract_code with
       | Some code =>
           mret (qt',
                 tools ++ [mkToolInfo "complai" "compliance_audit"
                             {[ "contract_code" := VStr code;
                                "standards" := VList (VStr <$> standards) ]}])
       | None => mret (qt', tools)
       end
     else mret (qt, tools));
  mret (mkAnalysis qt tools (8 # 10)).

Definition recognized_keywords : list string :=
  price_words ++ sentiment_words ++ news_words ++ whale_words
  ++ compliance_words.

Definition has_keyword (query : string) : bool :=
  Str.any_in recognized_keywords (Str.lower query).

End WithRegex.

End ClassifierFull.

(** ** Tool dispatcher of the Redis-backed service ([MCPManager]) *)

Module MCPManager.

(** A handle on a spawned server process ([subprocess.Popen]). *)
Definition process_handle := nat.

(** [@dataclass class MCPServer] *)
Record MCPServer : Type := mkServer {
  name : string;
  config : gmap string value;
  status : string;
  process : option process_handle;
  error_count : Z
}.

(** The input and output a call performs, in the order it performs it. *)
Inductive io_event : Type :=
  | HttpPost (url : value) (payload : value)
  | ProcessPoll (p : process_handle)
  | ProcessRequest (p : process_handle) (request : value).

(** [{"method": "tools/call",
      "params": {"name": tool_name, "arguments": parameters}}] *)
Definition rpc_payload (tool_name : string) (params : gmap string value) : value :=
  VDict {[ "method" := VStr "tools/call";
           "params" := VDict {[ "name" := VStr tool_name;
                                 "arguments" := VDict params ]} ]}.

Section WithIO.
(** [client.post(url, json=payload)] followed by [raise_for_status]
    and [response.json()]. *)
Variable http_post : value -> value -> result value.
(** [process.poll() is None] : the process is still running. *)
Variable process_running : process_handle -> bool.
(** Writing one request line and reading and parsing one response
    line. *)
Variable process_request : process_handle -> value -> result value.

(** The functions return the trace of the I/O they did next to their
    outcome. *)
Definition _call_http_tool (srv : MCPServer) (tool_name : string)
    (params : gmap string value) : list io_event * result value :=
  let payload := rpc_payload tool_name params in
  match config srv !! "url" with
  | None => ([], Raise (OtherException "HTTP tool call failed: 'url'"))
  | Some url =>
      ([HttpPost url payload],
       match http_post url payload with
       | Ok v => Ok v
       | Raise e =>
           Raise (OtherException ("HTTP tool call failed: " +:+ exn_str e))
       end)
  end.

Definition _call_process_tool (srv : MCPServer) (tool_name : string)
    (params : gmap string value) : list io_event * result value :=
  let not_running :=
    Raise (OtherException
             "Process tool call failed: Process is not running") in
  match process srv with
  | None => ([], not_running)
  | Some p =>
      if process_running p then
        let request := rpc_payload tool_name params in
        (* the second check of the handle *)
        if process_running p then
          ([ProcessPoll p; ProcessPoll p; ProcessRequest p request],
           match process_request p request with
           | Ok v => Ok v
           | Raise e =>
               Raise (OtherException
                        ("Process tool call failed: " +:+ exn_str e))
           end)
        else ([ProcessPoll p; ProcessPoll p], not_running)
      else ([ProcessPoll p], not_running)
  end.

(** [call_tool] : the registry after the call, the I/O done, and the
    value returned or the exception raised. *)
Definition call_tool (servers : gmap string MCPServer)
    (server_name tool_name : string) (params : gmap string value)
    : gmap string MCPServer * list io_event * result value :=
  match servers !! server_name with
  | None =>
      (servers, [],
       Raise (MCPServerError ("Server " +:+ server_name +:+ " not found")
                (Some server_name)))
  | Some srv =>
      if negb (String.eqb (status srv) "running") then
        (servers, [],
         Raise (MCPServerError
                  ("Server " +:+ server_name +:+ " is not running")
                  (Some server_name)))
      else
        let '(io, r) :=
          if bool_decide (is_Some (config srv !! "url"))
          then _call_http_tool srv tool_name params
          else _call_process_tool srv tool_name params in
        match r with
        | Ok v => (servers, io, Ok v)
        | Raise e =>
            let srv' := mkServer (name srv) (config srv) (status srv)
                          (process srv) (error_count srv + 1)%Z in
            (<[server_name := srv']> servers, io,
             Raise (MCPServerError ("Tool call failed: " +:+ exn_str e)
                      (Some server_name)))
        end
  end.

End WithIO.

End MCPManager.

(** ** Tool dispatcher of the MVP service ([MCPManagerMVP]) *)

Module MCPManagerMVP.

(** [@dataclass class MockMCPServer] *)
Record MockMCPServer : Type := mkMock {
  name : string;
  status : string;
  description : string;
  tools : list (string * string)
}.

(** The registry [initialize] installs. *)
Definition initialized_servers : gmap string MockMCPServer :=
  {[ "coingecko" :=
       mkMock "coingecko" "active"
         "Market data and cryptocurrency information"
         [("get_coin_price", "Get current coin price");
          ("get_market_data", "Get market data for coin");
          ("get_price_history", "Get historical price data")];
     "ccxt" :=
       mkMock "ccxt" "active" "Exchange data and trading information"
         [("get_ticker", "Get ticker data from exchange");
          ("get_orderbook", "Get orderbook data");
          ("get_trades", "Get recent trades")];
     "feargreed" :=
       mkMock "feargreed" "active"
         "Crypto Fear & Greed Index sentiment indicator"
         [("get_fear_greed_index", "Get current fear and greed index");
          ("get_fear_greed_history", "Get historical fear and greed data")];
     "cryptopanic" :=
       mkMock "cryptopanic" "available" "Cryptocurrency news aggregation"
         [("get_news", "Get crypto news");
          ("get_sentiment", "Get news sentiment analysis")];
     "firecrawl" :=
       mkMock "firecrawl" "available" "Web crawling and content extraction"
         [("crawl_website", "Crawl and extract website content");
          ("scrape_page", "Scrape specific page content")] ]}.

Section WithMock.
(** [_generate_mock_response] draws random numbers and reads the
    clock; it is a parameter. *)
Variable _generate_mock_response :
  string -> string -> gmap string value -> result (gmap string value).
(** [datetime.utcnow().isoformat()] *)
Variable now : string.

Definition call_tool (servers : gmap string MockMCPServer)
    (server_name tool_name : string) (params : gmap string value)
    : result value :=
  match servers !! server_name with
  | None =>
      Ok (VDict {[ "error" :=
                     VStr ("Server " +:+ server_name +:+ " not available");
                   "mock_response" := VBool true ]})
  | Some _ =>
      match _generate_mock_response server_name tool_name params with
      | Ok resp =>
          (* response.update({...}) *)
          Ok (VDict (<["mock_data" := VBool true]>
                     (<["timestamp" := VStr now]>
                      (<["tool" := VStr tool_name]>
                       (<["server" := VStr server_name]> resp)))))
      | Raise e =>
          Ok (VDict {[ "error" := VStr (exn_str e);
                       "server" := VStr server_name;
                       "tool" := VStr tool_name;
                       "mock_data" := VBool true ]})
      end
  end.

End WithMock.

End MCPManagerMVP.

(** ** Asynchronous generators

    A generator run to its end is the list of the values it yielded and
    the way it stopped: normally, or with an exception. *)

Definition gen (Y A : Type) : Type := (list Y * result A)%type.

Definition gen_ret {Y A} (a : A) : gen Y A := ([], Ok a).

Definition gen_bind {Y A B} (k : A -> gen Y B) (g : gen Y A) : gen Y B :=
  match g with
  | (ys, Ok a) => let '(zs, r) := k a in (ys ++ zs, r)
  | (ys, Raise e) => (ys, Raise e)
  end.

#[global] Instance gen_mret {Y} : MRet (gen Y) := fun _ => gen_ret.
#[global] Instance gen_mbind {Y} : MBind (gen Y) := fun _ _ => gen_bind.

(** [yield y] *)
Definition yield {Y} (y : Y) : gen Y unit := ([y], Ok tt).

(** A call that may raise, made inside a generator. *)
Definition gen_lift {Y A} (r : result A) : gen Y A := ([], r).

(** [try: body  except Exception as e: handler(e)] *)
Definition try_except {Y A} (body : gen Y A) (handler : exn -> gen Y A)
    : gen Y A :=
  match body with
  | (ys, Ok a) => (ys, Ok a)
  | (ys, Raise e) => let '(zs, r) := handler e in (ys ++ zs, r)
  end.

(** [async for y in g: body(y)] *)
Fixpoint for_yielded {Y Z} (ys : list Y) (body : Y -> gen Z unit)
    : gen Z unit :=
  match ys with
  | [] => gen_ret tt
  | y :: ys' => _ ← body y; for_yielded ys' body
  end.

Definition async_for {Y Z} (g : gen Y unit) (body : Y -> gen Z unit)
    : gen Z unit :=
  _ ← for_yielded (fst g) body; gen_lift (snd g).

(** The values a generator yields, and whether it ends without raising. *)
Definition yielded {Y A} (g : gen Y A) : list Y := fst g.
Definition ends_normally {Y A} (g : gen Y A) : bool := is_ok (snd g).

(** ** LLM client ([GeminiClient]) *)

(** One chat message [{"role": .., "content": ..}]. *)
Record message : Type := mkMessage {
  role : string;
  content : value
}.

Module GeminiClient.

Section WithAPI.
(** [chat_completion] posts to the Gemini API; here it is any
    function from the messages to a returned value or a raised
    exception. *)
Variable chat_completion : list message -> result value.

(** The chunk yielded on success. *)
Definition stop_chunk (content usage : value) : value :=
  VDict {[ "choices" :=
             VList [VDict {[ "delta" := VDict {[ "content" := content ]};
                             "finish_reason" := VStr "stop" ]}];
           "usage" := usage ]}.

(** The chunk yielded by the [except Exception] handler. *)
Definition error_chunk (e : exn) : value :=
  VDict {[ "choices" :=
             VList [VDict {[ "delta" := VDict {[ "content" := VStr "" ]};
                             "finish_reason" := VStr "error" ]}];
           "error" := VStr (exn_str e) ]}.

Definition stream_completion (messages : list message) : gen value unit :=
  try_except
    (resp ← gen_lift (chat_completion messages);
     choices ← gen_lift (getitem resp "choices");
     choice ← gen_lift (getindex choices 0);
     msg ← gen_lift (getitem choice "message");
     content ← gen_lift (getitem msg "content");
     usage ← gen_lift (dict_get resp "usage" (VDict ∅));
     yield (stop_chunk content usage))
    (fun e => yield (error_chunk e)).

End WithAPI.

End GeminiClient.

(** [l[-n:]] : the last [n] elements. *)
Definition last_n {A} (n : nat) (l : list A) : list A :=
  drop (length l - n) l.

(** [if session_id:] on an [Optional[str]]. *)
Definition opt_truthy (o : option string) : bool :=
  match o with
  | Some s => str_truthy s
  | None => false
  end.

(** [s.title()] on ASCII letters. *)
Module Title.
Definition is_upper (c : ascii) : bool :=
  let n := nat_of_ascii c in (65 <=? n)%nat && (n <=? 90)%nat.
Definition is_lower (c : ascii) : bool :=
  let n := nat_of_ascii c in (97 <=? n)%nat && (n <=? 122)%nat.
Definition upper_ascii (c : ascii) : ascii :=
  if is_lower c then ascii_of_nat (nat_of_ascii c - 32) else c.

Fixpoint go (prev_cased : bool) (s : string) : string :=
  match s with
  | EmptyString => EmptyString
  | String c s' =>
      let cased := is_upper c || is_lower c in
      String (if prev_cased then Str.lower_ascii c else upper_ascii c)
             (go cased s')
  end.

Definition title (s : string) : string := go false s.
End Title.

(** ** The Redis-backed agent service ([AgentService]) *)

Module AgentService.

(** One entry of a session's history. *)
Record exchange : Type := mkExchange {
  ex_query : string;
  ex_response : value;
  ex_timestamp : Z;
  ex_tools_data : gmap string value
}.

(** [class SessionConfig(BaseModel)] *)
Record SessionConfig : Type := mkConfig {
  model : option string;
  temperature : Q;
  max_tokens : Z;
  context_window : Z;
  tools_enabled : list string;
  personalization : bool;
  risk_tolerance : option string
}.

(** The [context] dictionary of a stored session; [history] is [None]
    while the key is absent. *)
Record session_ctx : Type := mkCtx {
  history : option (list exchange)
}.

(** The document stored under [session:<id>]. *)
Record session_data : Type := mkData {
  sd_session_id : string;
  sd_user_id : option string;
  sd_config : SessionConfig;
  sd_status : string;
  sd_created_at : Z;
  sd_message_count : Z;
  sd_context : option session_ctx;
  sd_last_activity : option Z
}.

(** [class AgentSessionResponse(BaseModel)] *)
Record AgentSessionResponse : Type := mkSession {
  session_id : string;
  user_id : option string;
  session_config : SessionConfig;
  session_status : string;
  created_at : Z;
  last_activity : option Z;
  message_count : Z;
  expires_at : option Z
}.

(** A Redis entry: its time to live in seconds and the stored
    document.  The JSON text written by [json.dumps] and read by
    [json.loads] is represented by the document itself. *)
Record redis_entry : Type := mkEntry {
  ttl : Z;
  payload : session_data
}.

(** [self.redis] : [None] when no client is configured. *)
Abbreviation redis_client := (option (gmap string redis_entry)).

Definition session_key (sid : string) : string := "session:" +:+ sid.

(** [int(timedelta(hours=2).total_seconds())] *)
Definition two_hours : Z := 7200.

Definition default_config (default_model : string) : SessionConfig :=
  mkConfig (Some default_model) (7 # 10) 4096 10 ["all"] true (Some "medium").

Section WithEnvironment.
(** [settings.DEFAULT_MODEL] *)
Variable DEFAULT_MODEL : string.
(** [uuid.uuid4().hex] *)
Variable uuid4_hex : string.
(** [datetime.utcnow()], in seconds. *)
Variable now : Z.
(** Milliseconds between the two clock readings of a request. *)
Variable elapsed_ms : Z.
(** [json.dumps(tool_results, indent=2)] *)
Variable json_dumps : gmap string value -> string.
(** [_extract_contract_code], see [ClassifierFull]. *)
Variable _extract_contract_code : string -> option string.
(** [self.mcp_manager.call_tool], for the k-th call of a request. *)
Variable call_tool :
  nat -> string -> string -> gmap string value -> result value.
(** [self.gemini_client.chat_completion] *)
Variable chat_completion : list message -> result value.

Definition _analyze_query := ClassifierFull._analyze_query _extract_contract_code.

Definition create_session (redis : redis_client)
    (uid : option string) (cfg : option SessionConfig)
    : redis_client * result AgentSessionResponse :=
  let sid := "session_" +:+ Str.take 12 uuid4_hex in
  let cfg := match cfg with
             | Some c => c
             | None => default_config DEFAULT_MODEL
             end in
  let data := mkData sid uid cfg "active" now 0 (Some (mkCtx None)) None in
  let redis' :=
    match redis with
    | Some store =>
        Some (<[session_key sid := mkEntry two_hours data]> store)
    | None => None
    end in
  (redis',
   Ok (mkSession sid uid cfg "active" now None 0 (Some (now + two_hours)%Z))).

Definition get_session (redis : redis_client) (sid : string)
    : result (option AgentSessionResponse) :=
  match redis with
  | None => Ok None
  | Some store =>
      match store !! session_key sid with
      | None => Ok None
      | Some e =>
          let d := payload e in
          Ok (Some (mkSession (sd_session_id d) (sd_user_id d)
                      (sd_config d) (sd_status d) (sd_created_at d)
                      (sd_last_activity d) (sd_message_count d) None))
      end
  end.

Definition delete_session (redis : redis_client) (sid : string)
    : redis_client * result bool :=
  match redis with
  | None => (None, Ok false)
  | Some store =>
      match store !! session_key sid with
      | Some _ => (Some (delete (session_key sid) store), Ok true)
      | None => (Some store, Ok false)
      end
  end.

Definition empty_ctx : session_ctx := mkCtx None.

Definition _get_session_context (redis : redis_client) (sid : string)
    : session_ctx :=
  match redis with
  | None => empty_ctx
  | Some store =>
      match store !! session_key sid with
      | Some e => default empty_ctx (sd_context (payload e))
      | None => empty_ctx
      end
  end.

(** The [session_history] entry of [_prepare_conversation_context],
    for a request without extra context:
    [session_context.get("history", [])[-5:]].  The merge of the
    request's extra context is [ExtraContext._prepare_conversation_context]. *)
Definition _prepare_conversation_context (ctx : session_ctx)
    : list exchange :=
  last_n 5 (default [] (history ctx)).

Definition system_prompt (qt : option QueryType)
    (tool_results : gmap string value) : string :=
  "You are SpectraQ AI Agent, an expert in cryptocurrency markets and trading. 
                
Your capabilities include:
- Market analysis and price predictions
- News sentiment analysis
- On-chain data interpretation
- Trading recommendations with risk assessment

Query type: "
  +:+ match qt with Some q => QueryType_value q | None => "general" end
  +:+ "

Available data from tools:
"
  +:+ (if bool_decide (tool_results = ∅)
       then "No additional data available"
       else json_dumps tool_results)
  +:+ "

Provide accurate, helpful responses. Include confidence levels and cite sources when available.
Always include appropriate risk disclaimers for financial advice.

You are powered by Google Gemini AI infrastructure.".

Definition _build_llm_messages (query : string)
    (session_history : list exchange)
    (tool_results : gmap string value) (qt : option QueryType)
    : list message :=
  [mkMessage "user" (VStr (system_prompt qt tool_results))]
  ++ concat (map (fun ex => [mkMessage "user" (VStr (ex_query ex));
                             mkMessage "assistant" (ex_response ex)])
                 session_history)
  ++ [mkMessage "user" (VStr query)].

Definition _calculate_confidence_score :=
  ConfidenceFull._calculate_confidence_score.

Definition _update_session_context (redis : redis_client)
    (sid : string) (query : string) (resp : value)
    (tool_results : gmap string value) : redis_client :=
  match redis with
  | None => None   (* [self.redis.get] raises; the handler logs it *)
  | Some store =>
      match store !! session_key sid with
      | None => Some store
      | Some e =>
          let d := payload e in
          let ctx := default empty_ctx (sd_context d) in
          let hist := default [] (history ctx) in
          let hist := hist ++ [mkExchange query resp now tool_results] in
          let hist := last_n 20 hist in
          let d' := mkData (sd_session_id d) (sd_user_id d) (sd_config d)
                      (sd_status d) (sd_created_at d)
                      (sd_message_count d + 1)%Z
                      (Some (mkCtx (Some hist))) (Some now) in
          Some (<[session_key sid := mkEntry two_hours d']> store)
      end
  end.

(** The fallback list of [_generate_follow_ups]. *)
Definition default_follow_ups : list string :=
  ["Tell me more about cryptocurrency markets";
   "What should I know about crypto investing?";
   "Show me current market trends"].

(** [_generate_follow_ups] : the dictionary literal evaluates its
    keys, among them [QueryType.COMPLIANCE_AUDIT]. *)
Definition _generate_follow_ups (qt : option QueryType)
    : result (list string) :=
  k1 ← QueryType_getattr "PRICE_PREDICTION";
  k2 ← QueryType_getattr "NEWS_SENTIMENT";
  k3 ← QueryType_getattr "ON_CHAIN_ANALYSIS";
  k4 ← QueryType_getattr "MARKET_ANALYSIS";
  k5 ← QueryType_getattr "COMPLIANCE_AUDIT";
  let follow_ups : list (QueryType * list string) :=
    [(k1, ["What factors are driving this price movement?";
           "How does this compare to other cryptocurrencies?";
           "What's the risk level of this prediction?"]);
     (k2, ["How is this affecting Bitcoin price?";
           "What other coins might be impacted?";
           "Show me the most recent news headlines"]);
     (k3, ["What does this mean for retail investors?";
           "Are there similar patterns in other tokens?";
           "Show me the whale transaction details"]);
     (k4, ["What's your trading recommendation?";
           "How does technical analysis look?";
           "What are the key support levels?"]);
     (k5, ["What are the most critical issues to fix first?";
           "How can I implement these compliance fixes?";
           "Are there any regulatory deadlines I need to meet?"])] in
  mret (match qt with
        | Some q =>
            default default_follow_ups
              (snd <$> find (fun kv => bool_decide (fst kv = q)) follow_ups)
        | None => default_follow_ups
        end).

(** The state of the tool loop of [process_query]. *)
Record tool_state : Type := mkToolState {
  ts_tools_used : list ToolCall;
  ts_data_sources : list DataSource;
  ts_tool_results : gmap string value
}.

Definition tool_state0 : tool_state := mkToolState [] [] ∅.

(** One iteration of [for tool_info in required_tools], for the call
    number [k].  Both handlers ([except MCPServerError] and
    [except Exception]) only [continue]. *)
Definition tool_step (k : nat) (st : tool_state) (ti : tool_info)
    : tool_state :=
  match call_tool k (server ti) (tool ti) (parameters ti) with
  | Ok tool_result =>
      let tc := mkToolCall (server ti +:+ "." +:+ tool ti) (parameters ti)
                  (Some tool_result) (Some 100%Z) None in
      mkToolState
        (ts_tools_used st ++ [tc])
        (ts_data_sources st
         ++ [mkDataSource (Title.title (server ti)) "mcp" (9 # 10)])
        (<[tool ti := tool_result]> (ts_tool_results st))
  | Raise _ => st
  end.

Fixpoint tool_loop (k : nat) (st : tool_state) (tis : list tool_info)
    : tool_state :=
  match tis with
  | [] => st
  | ti :: rest => tool_loop (S k) (tool_step k st ti) rest
  end.

Definition run_tools (required_tools : list tool_info) : tool_state :=
  tool_loop 0 tool_state0 required_tools.

(** The validation of [response: str] by [AgentQueryResponse]. *)
Definition validate_str (v : value) : result string :=
  match v with
  | VStr s => Ok s
  | _ => Raise (TypeError "response: Input should be a valid string")
  end.

Definition is_int (v : value) : bool :=
  match v with VInt _ => true | _ => false end.

(** The validation of [token_usage: Dict[str, int]]. *)
Definition validate_usage (v : value) : result (gmap string value) :=
  match v with
  | VDict d =>
      if bool_decide (map_Forall (fun _ x => is_int x = true) d)
      then Ok d
      else Raise (TypeError "token_usage: Input should be a valid integer")
  | _ => Raise (TypeError "token_usage: Input should be a valid dictionary")
  end.

(** [process_query] with [use_langgraph=False] and no extra context.
    The body runs inside [try]; the handler re-raises every exception
    as [AgentSessionError].  The Redis state is returned as the body
    left it. *)
Definition process_query_body (redis : redis_client) (query : string)
    (sid : option string)
    : redis_client * result AgentQueryResponse :=
  let response_id := "resp_" +:+ Str.take 8 uuid4_hex in
  match _analyze_query query with
  | Raise e => (redis, Raise e)
  | Ok qa =>
      let qt := qa_type qa in
      let required_tools := qa_tools qa in
      let session_context :=
        if opt_truthy sid
        then _get_session_context redis (default "" sid)
        else empty_ctx in
      let conversation := _prepare_conversation_context session_context in
      let st := run_tools required_tools in
      let messages :=
        _build_llm_messages query conversation (ts_tool_results st)
          (Some qt) in
      match
        (llm_response ← chat_completion messages;
         choices ← getitem llm_response "choices";
         choice ← getindex choices 0;
         msg ← getitem choice "message";
         response_content ← getitem msg "content";
         usage ← dict_get llm_response "usage" (VDict ∅);
         mret (response_content, usage))
      with
      | Raise e => (redis, Raise e)
      | Ok (response_content, usage) =>
          let confidence :=
            _calculate_confidence_score (ts_tools_used st)
              (Z.of_nat (length required_tools)) qt in
          let redis' :=
            if opt_truthy sid
            then _update_session_context redis (default "" sid) query
                   response_content (ts_tool_results st)
            else redis in
          (redis',
           follow_ups ← _generate_follow_ups (Some qt);
           resp ← validate_str response_content;
           usage ← validate_usage usage;
           mret (mkResponse response_id resp sid (Some qt) confidence
                   (ts_tools_used st) (ts_data_sources st) elapsed_ms usage
                   follow_ups))
      end
  end.

Definition process_query (redis : redis_client) (query : string)
    (sid : option string)
    : redis_client * result AgentQueryResponse :=
  match process_query_body redis query sid with
  | (redis', Ok r) => (redis', Ok r)
  | (redis', Raise e) =>
      (redis',
       Raise (AgentSessionError
                ("Query processing failed: " +:+ exn_str e) sid))
  end.

(** An event of the streaming response. *)
Record event : Type := mkEvent {
  ev_type : string;
  ev_content : value;
  ev_tool : option string;
  ev_timestamp : Z
}.

Definition ev (ty : string) (c : string) : event :=
  mkEvent ty (VStr c) None now.

(** [str(len(required_tools))], a parameter. *)
Variable str_of_nat : nat -> string.

(** The tool loop of [stream_query_response] : every exception of a
    call is turned into a [tool_error] event. *)
Fixpoint stream_tools (k : nat) (tool_results : gmap string value)
    (tis : list tool_info) : gen event (gmap string value) :=
  match tis with
  | [] => mret tool_results
  | ti :: rest =>
      match call_tool k (server ti) (tool ti) (parameters ti) with
      | Ok tool_result =>
          _ ← yield (mkEvent "tool_result"
                       (VStr ("Retrieved data from " +:+ server ti))
                       (Some (tool ti)) now);
          stream_tools (S k) (<[tool ti := tool_result]> tool_results) rest
      | Raise e =>
          _ ← yield (ev "tool_error"
                       ("Failed to get data from " +:+ server ti +:+ ": "
                        +:+ exn_str e));
          stream_tools (S k) tool_results rest
      end
  end.

(** The body of [async for chunk in stream_completion(..)]. *)
Definition on_chunk (chunk : value) : gen event unit :=
  choices ← gen_lift (dict_get chunk "choices" VNone);
  if truthy choices then
    choice ← gen_lift (getindex choices 0);
    delta ← gen_lift (dict_get choice "delta" (VDict ∅));
    c ← gen_lift (dict_get delta "content" VNone);
    if truthy c then
      c' ← gen_lift (choices' ← getitem chunk "choices";
                     choice' ← getindex choices' 0;
                     delta' ← getitem choice' "delta";
                     getitem delta' "content");
      yield (mkEvent "content" c' None now)
    else mret tt
  else mret tt.

Definition stream_query_response (redis : redis_client) (query : string)
    (sid : option string) : gen event unit :=
  try_except
    (_ ← yield (ev "start" "");
     _ ← yield (ev "analysis" "Analyzing your query...");
     qa ← gen_lift (_analyze_query query);
     let required_tools := qa_tools qa in
     _ ← (match required_tools with
          | [] => mret tt
          | _ => yield (ev "tools"
                          ("Fetching data from "
                           +:+ str_of_nat (length required_tools)
                           +:+ " sources..."))
          end);
     tool_results ← stream_tools 0 ∅ required_tools;
     _ ← yield (ev "generating"
                  "Analyzing data and generating response...");
     let session_context :=
       if opt_truthy sid
       then _get_session_context redis (default "" sid)
       else empty_ctx in
     let conversation := _prepare_conversation_context session_context in
     let messages :=
       _build_llm_messages query conversation tool_results
         (Some (qa_type qa)) in
     _ ← async_for
           (GeminiClient.stream_completion chat_completion messages)
           on_chunk;
     yield (ev "complete" ""))
    (fun e => yield (ev "error" ("Error processing query: " +:+ exn_str e))).

End WithEnvironment.

End AgentService.

(** ** The in-memory agent service ([AgentServiceMVP]) *)

Module AgentServiceMVP.

(** One entry of a session's history. *)
Record exchange : Type := mkExchange {
  ex_query : string;
  ex_response : string;
  ex_timestamp : Z;
  has_tool_data : bool
}.

(** A value of [self.sessions]. *)
Record session_data : Type := mkData {
  session_id : string;
  user_id : option string;
  status : string;
  created_at : Z;
  message_count : Z;
  history : list exchange;
  last_activity : option Z
}.

Section WithEnvironment.
(** [uuid.uuid4().hex] *)
Variable uuid4_hex : string.
(** [datetime.utcnow()], in seconds. *)
Variable now : Z.
(** Milliseconds between the two clock readings of a request. *)
Variable elapsed_ms : Z.
(** [self.mcp_manager.call_tool], for the k-th call of a request. *)
Variable call_tool :
  nat -> string -> string -> gmap string value -> result value.
(** [_generate_mock_response] : the report text built from the tool
    results (number formatting, clock); a parameter. *)
Variable _generate_mock_response :
  string -> QueryType -> gmap string value -> result string.
(** [str(v)] for a list or a dictionary. *)
Variable container_str : value -> string.

(** The text an f-string inserts for a value. *)
Definition fstr (v : value) : string :=
  match v with
  | VStr s => s
  | VInt z => pretty z
  | VBool true => "True"
  | VBool false => "False"
  | VNone => "None"
  | _ => container_str v
  end.

Definition create_session (sessions : gmap string session_data)
    (uid : option string) : gmap string session_data * string :=
  let sid := "session_" +:+ Str.take 12 uuid4_hex in
  (<[sid := mkData sid uid "active" now 0 [] None]> sessions, sid).

Definition get_session (sessions : gmap string session_data)
    (sid : string) : option session_data :=
  sessions !! sid.

Definition _analyze_query := ClassifierMVP._analyze_query.

(** The key under which a result enters [tool_results]. *)
Definition tool_key (ti : tool_info) : string :=
  if String.eqb (tool ti) "get_coin_price" then
    "get_coin_price_"
    +:+ fstr (default (VStr "BTC") (parameters ti !! "symbol"))
  else tool ti.

(** The state of the tool loop of [process_query]. *)
Record tool_state : Type := mkToolState {
  ts_tools_used : list ToolCall;
  ts_data_sources : list DataSource;
  ts_tool_results : gmap string value
}.

Definition tool_state0 : tool_state := mkToolState [] [] ∅.

(** One iteration of [for tool_info in required_tools]. *)
Definition tool_step (k : nat) (st : tool_state) (ti : tool_info)
    : tool_state :=
  match call_tool k (server ti) (tool ti) (parameters ti) with
  | Ok tool_result =>
      let tc := mkToolCall (server ti +:+ "." +:+ tool ti) (parameters ti)
                  (Some tool_result) (Some 50%Z) None in
      mkToolState
        (ts_tools_used st ++ [tc])
        (ts_data_sources st
         ++ [mkDataSource (Title.title (server ti)) "mcp" (9 # 10)])
        (<[tool_key ti := tool_result]> (ts_tool_results st))
  | Raise e =>
      let tc := mkToolCall (server ti +:+ "." +:+ tool ti) (parameters ti)
                  None None (Some (exn_str e)) in
      mkToolState (ts_tools_used st ++ [tc]) (ts_data_sources st)
        (ts_tool_results st)
  end.

Fixpoint tool_loop (k : nat) (st : tool_state) (tis : list tool_info)
    : tool_state :=
  match tis with
  | [] => st
  | ti :: rest => tool_loop (S k) (tool_step k st ti) rest
  end.

Definition run_tools (required_tools : list tool_info) : tool_state :=
  tool_loop 0 tool_state0 required_tools.

Definition _calculate_confidence_score :=
  ConfidenceMVP._calculate_confidence_score.

Definition _update_session_context
    (sessions : gmap string session_data) (sid : string)
    (query : string) (resp : string) (tool_results : gmap string value)
    : gmap string session_data :=
  match sessions !! sid with
  | Some s =>
      let entry :=
        mkExchange query (Str.take 200 resp +:+ "...") now
          (negb (bool_decide (tool_results = ∅))) in
      let hist := last_n 10 (history s ++ [entry]) in
      <[sid := mkData (session_id s) (user_id s) (status s)
                 (created_at s) (message_count s + 1)%Z hist (Some now)]>
        sessions
  | None => sessions
  end.

Definition _generate_follow_ups (qt : option QueryType) : list string :=
  match default GENERAL_CRYPTO qt with
  | PRICE_PREDICTION =>
      ["What factors are driving this price movement?";
       "How does this compare to other cryptocurrencies?";
       "What's the technical analysis looking like?"]
  | NEWS_SENTIMENT =>
      ["How is this affecting Bitcoin price?";
       "What other coins might be impacted?";
       "Show me more detailed market sentiment"]
  | MARKET_ANALYSIS =>
      ["What's your trading recommendation?";
       "Show me the fear and greed index";
       "What are the key support and resistance levels?"]
  | GENERAL_CRYPTO =>
      ["Tell me about Bitcoin price trends";
       "What's the current market sentiment?";
       "Show me recent crypto news"]
  | _ =>
      ["Tell me about Bitcoin's current price";
       "What's the market sentiment right now?";
       "Show me the latest crypto news"]
  end.

(** The mock [token_usage] of a response. *)
Definition mock_usage : gmap string value :=
  {[ "prompt_tokens" := VInt 150; "completion_tokens" := VInt 300;
     "total_tokens" := VInt 450 ]}.

(** [process_query] : the session table after the call and the
    response or the [AgentSessionError] raised. *)
Definition process_query (sessions : gmap string session_data)
    (query : string) (sid : option string)
    : gmap string session_data * result AgentQueryResponse :=
  let response_id := "resp_" +:+ Str.take 8 uuid4_hex in
  let qa := _analyze_query query in
  let qt := qa_type qa in
  let required_tools := qa_tools qa in
  let st := run_tools required_tools in
  match _generate_mock_response query qt (ts_tool_results st) with
  | Raise e =>
      (sessions,
       Raise (AgentSessionError
                ("Query processing failed: " +:+ exn_str e) sid))
  | Ok response_content =>
      let confidence :=
        _calculate_confidence_score (ts_tools_used st)
          (Z.of_nat (length required_tools)) qt in
      let sessions' :=
        if opt_truthy sid
        then _update_session_context sessions (default "" sid) query
               response_content (ts_tool_results st)
        else sessions in
      let follow_ups := _generate_follow_ups (Some qt) in
      (sessions',
       Ok (mkResponse response_id response_content sid (Some qt)
             confidence (ts_tools_used st) (ts_data_sources st)
             elapsed_ms mock_usage follow_ups))
  end.

End WithEnvironment.

End AgentServiceMVP.

(** The chain of getters of [stream_completion], as one function of the
    value [chat_completion] returned. *)
Definition extract_chunk (resp : value) : result value :=
  choices ← getitem resp "choices";
  choice ← getindex choices 0;
  msg ← getitem choice "message";
  c ← getitem msg "content";
  usage ← dict_get resp "usage" (VDict ∅);
  mret (GeminiClient.stop_chunk c usage).

(** The events of the tool loop of the streaming path. *)
Definition tool_event (e : AgentService.event) : Prop :=
  AgentService.ev_type e = "tool_result" \/ AgentService.ev_type e = "tool_error".

(** The record [process_query] of the MVP service appends for the k-th
    call. *)
Definition mvp_record
    (call_tool : nat -> string -> string -> gmap string value -> result value)
    (k : nat) (ti : tool_info) : ToolCall :=
  match call_tool k (server ti) (tool ti) (parameters ti) with
  | Ok r => mkToolCall (server ti +:+ "." +:+ tool ti) (parameters ti)
              (Some r) (Some 50%Z) None
  | Raise e => mkToolCall (server ti +:+ "." +:+ tool ti) (parameters ti)
                 None None (Some (exn_str e))
  end.

(** The records the Redis-backed service appends for a list of calls
    starting at number [k]. *)
Fixpoint full_records
    (call_tool : nat -> string -> string -> gmap string value -> result value)
    (k : nat) (tis : list tool_info) : list ToolCall :=
  match tis with
  | [] => []
  | ti :: rest =>
      match call_tool k (server ti) (tool ti) (parameters ti) with
      | Ok r => [mkToolCall (server ti +:+ "." +:+ tool ti) (parameters ti)
                   (Some r) (Some 100%Z) None]
      | Raise _ => []
      end ++ full_records call_tool (S k) rest
  end.

(** The number of calls of a list that raise. *)
Fixpoint failed_calls
    (call_tool : nat -> string -> string -> gmap string value -> result value)
    (k : nat) (tis : list tool_info) : nat :=
  match tis with
  | [] => 0
  | ti :: rest =>
      (if is_ok (call_tool k (server ti) (tool ti) (parameters ti))
       then 0 else 1)
      + failed_calls call_tool (S k) rest
  end.

(** The dispatcher an MVP service is given: [MCPManagerMVP.call_tool] on
    a registry, with the number of the call ignored. *)
Definition mvp_dispatch
    (mock : string -> string -> gmap string value -> result (gmap string value))
    (now : string) (servers : gmap string MCPManagerMVP.MockMCPServer)
    : nat -> string -> string -> gmap string value -> result value :=
  fun _ s t p => MCPManagerMVP.call_tool mock now servers s t p.

(** The dictionary [MCPManagerMVP.call_tool] returns for a server that is
    not in its registry. *)
Definition unavailable_result (s : string) : value :=
  VDict {[ "error" := VStr ("Server " +:+ s +:+ " not available");
           "mock_response" := VBool true ]}.

(** The bounds [SessionConfig] declares on its numeric fields. *)
Definition valid_config (c : AgentService.SessionConfig) : Prop :=
  (0 <= AgentService.temperature c <= 2)%Q
  /\ (0 < AgentService.max_tokens c <= 8192)%Z
  /\ (0 < AgentService.context_window c <= 50)%Z.

(** ** Further definitions *)

(** A tool descriptor names a server of the registry and a tool that
    server lists. *)
Definition tool_declared (servers : gmap string MCPManagerMVP.MockMCPServer)
    (ti : tool_info) : bool :=
  match servers !! server ti with
  | Some m => existsb (String.eqb (tool ti)) (map fst (MCPManagerMVP.tools m))
  | None => false
  end.

(** The query type the MVP classifier ends with, by precedence of the
    categories. *)
Definition mvp_type_by_precedence (query_lower : string) : QueryType :=
  if Str.any_in ClassifierMVP.analysis_words query_lower then MARKET_ANALYSIS
  else if Str.any_in ClassifierMVP.news_words query_lower then NEWS_SENTIMENT
  else if Str.any_in ClassifierMVP.sentiment_words query_lower then MARKET_ANALYSIS
  else if Str.any_in ClassifierMVP.price_words query_lower then PRICE_PREDICTION
  else GENERAL_CRYPTO.

(** The query type the classifier of the Redis-backed service ends with
    when no compliance word occurs, by precedence of the categories. *)
Definition full_type_by_precedence (query_lower : string) : QueryType :=
  if Str.any_in ClassifierFull.whale_words query_lower then ON_CHAIN_ANALYSIS
  else if Str.any_in ClassifierFull.news_words query_lower then NEWS_SENTIMENT
  else if Str.any_in ClassifierFull.sentiment_words query_lower then NEWS_SENTIMENT
  else if Str.any_in ClassifierFull.price_words query_lower then PRICE_PREDICTION
  else GENERAL_CRYPTO.

(** One exchange handed to [_update_session_context]: the clock reading,
    the query, the response and the tool results. *)
Record mvp_update : Type := mkMvpUpdate {
  mu_now : Z;
  mu_query : string;
  mu_response : string;
  mu_results : gmap string value
}.

(** The history entry the MVP service stores for an exchange. *)
Definition mvp_entry (u : mvp_update) : AgentServiceMVP.exchange :=
  AgentServiceMVP.mkExchange (mu_query u)
    (Str.take 200 (mu_response u) +:+ "...") (mu_now u)
    (negb (bool_decide (mu_results u = ∅))).

(** A sequence of calls of [AgentServiceMVP._update_session_context] on
    one session. *)
Definition mvp_updates (sessions : gmap string AgentServiceMVP.session_data)
    (sid : string) (us : list mvp_update)
    : gmap string AgentServiceMVP.session_data :=
  foldl (fun s u =>
           AgentServiceMVP._update_session_context (mu_now u) s sid
             (mu_query u) (mu_response u) (mu_results u))
        sessions us.

(** One exchange handed to [AgentService._update_session_context]. *)
Record full_update : Type := mkFullUpdate {
  fu_now : Z;
  fu_query : string;
  fu_response : value;
  fu_results : gmap string value
}.

Definition full_entry (u : full_update) : AgentService.exchange :=
  AgentService.mkExchange (fu_query u) (fu_response u) (fu_now u)
    (fu_results u).

(** A sequence of calls of [AgentService._update_session_context] on one
    session. *)
Definition full_updates (redis : option (gmap string AgentService.redis_entry))
    (sid : string) (us : list full_update)
    : option (gmap string AgentService.redis_entry) :=
  foldl (fun r u =>
           AgentService._update_session_context (fu_now u) r sid
             (fu_query u) (fu_response u) (fu_results u))
        redis us.

(** The history stored in a session document. *)
Definition stored_history (d : AgentService.session_data)
    : list AgentService.exchange :=
  default [] (AgentService.history
                (default AgentService.empty_ctx (AgentService.sd_context d))).

(** ** Start-up, health check and tool listing of [MCPManager] *)

Module MCPLifecycle.

(** The fallback configuration of [_load_mcp_config]. *)
Definition fallback_config : list (string * gmap string value) :=
  [("coingecko", {[ "url" := VStr "https://mcp.api.coingecko.com/sse" ]})].

(** [_load_mcp_config] : the servers the manager will start.  The
    argument is the configuration file: [None] when the path does not
    exist, an exception when reading or filtering it fails, and otherwise
    its [mcpServers] entries in file order. *)
Definition _load_mcp_config
    (file : option (result (list (string * gmap string value))))
    : list (string * gmap string value) :=
  match file with
  | Some (Ok entries) =>
      List.filter (fun nc => match nc.2 !! "status" with
                             | Some (VStr st) => String.eqb st "active"
                             | _ => false
                             end)
        entries
  | Some (Raise _) => fallback_config
  | None => fallback_config
  end.

Section WithIO.
(** [client.get(url)] : the status code, or an exception. *)
Variable http_get : value -> result Z.
(** [subprocess.Popen([command] + args, env=..)] on a configuration. *)
Variable spawn : gmap string value -> result MCPManager.process_handle.
(** [process.poll() is None] *)
Variable process_running : MCPManager.process_handle -> bool.
(** [client.post], see [MCPManager]. *)
Variable http_post : value -> value -> result value.
(** One request to a process, see [MCPManager]. *)
Variable process_request : MCPManager.process_handle -> value -> result value.

Definition with_status (srv : MCPManager.MCPServer) (st : string)
    (p : option MCPManager.process_handle) : MCPManager.MCPServer :=
  MCPManager.mkServer (MCPManager.name srv) (MCPManager.config srv) st p
    (MCPManager.error_count srv).

Definition _initialize_http_server (srv : MCPManager.MCPServer)
    : MCPManager.MCPServer :=
  match MCPManager.config srv !! "url" with
  | None => with_status srv "error" (MCPManager.process srv)
  | Some url =>
      match http_get url with
      | Ok code =>
          if (code =? 200)%Z
          then with_status srv "running" (MCPManager.process srv)
          else with_status srv "error" (MCPManager.process srv)
      | Raise _ => with_status srv "error" (MCPManager.process srv)
      end
  end.

Definition _initialize_process_server (srv : MCPManager.MCPServer)
    : MCPManager.MCPServer :=
  match spawn (MCPManager.config srv) with
  | Ok p =>
      if process_running p
      then with_status srv "running" (Some p)
      else with_status srv "error" (MCPManager.process srv)
  | Raise _ => with_status srv "error" (MCPManager.process srv)
  end.

(** [_initialize_server] : the registry after the attempt. *)
Definition _initialize_server (servers : gmap string MCPManager.MCPServer)
    (server_name : string) (cfg : gmap string value)
    : gmap string MCPManager.MCPServer :=
  let srv := MCPManager.mkServer server_name cfg "stopped" None 0 in
  let initialized :=
    if bool_decide (is_Some (cfg !! "url"))
    then Some (_initialize_http_server srv)
    else if bool_decide (is_Some (cfg !! "command"))
    then Some (_initialize_process_server srv)
    else None (* ValueError, logged *) in
  match initialized with
  | Some srv' =>
      if String.eqb (MCPManager.status srv') "running"
      then <[server_name := srv']> servers
      else servers
  | None => servers
  end.

(** [initialize] : load the configuration and start its servers in
    order. *)
Definition initialize (servers : gmap string MCPManager.MCPServer)
    (file : option (result (list (string * gmap string value))))
    : gmap string MCPManager.MCPServer :=
  foldl (fun s nc => _initialize_server s nc.1 nc.2) servers
    (_load_mcp_config file).

(** The per-server entry of the health report. *)
Record server_health : Type := mkHealth {
  sh_status : string;
  sh_error : option string;
  sh_error_count : Z
}.

(** The dictionary [health_check] returns. *)
Record health_report : Type := mkReport {
  healthy : bool;
  report_servers : gmap string server_health;
  total_servers : nat;
  running_servers : nat;
  failed_servers : nat
}.

(** The test of one server inside [health_check] : whether it is
    healthy, or the exception of the probe. *)
Definition probe (srv : MCPManager.MCPServer) : result bool :=
  if String.eqb (MCPManager.status srv) "running" then
    match MCPManager.config srv !! "url" with
    | Some url => code ← http_get url; mret (code =? 200)%Z
    | None =>
        mret match MCPManager.process srv with
             | Some p => process_running p
             | None => false
             end
    end
  else mret false.

(** One iteration of the loop of [health_check]. *)
Definition health_step (server_name : string) (srv : MCPManager.MCPServer)
    (r : health_report) : health_report :=
  match probe srv with
  | Ok true =>
      mkReport (healthy r)
        (<[server_name := mkHealth "healthy" None (MCPManager.error_count srv)]>
           (report_servers r))
        (total_servers r) (running_servers r + 1) (failed_servers r)
  | Ok false =>
      mkReport false
        (<[server_name := mkHealth "unhealthy" None (MCPManager.error_count srv)]>
           (report_servers r))
        (total_servers r) (running_servers r) (failed_servers r + 1)
  | Raise e =>
      mkReport false
        (<[server_name :=
             mkHealth "unhealthy" (Some (exn_str e)) (MCPManager.error_count srv)]>
           (report_servers r))
        (total_servers r) (running_servers r) (failed_servers r + 1)
  end.

Definition health_check (servers : gmap string MCPManager.MCPServer)
    : health_report :=
  map_fold health_step (mkReport true ∅ (size servers) 0 0) servers.

(** [_get_mock_tools] *)
Definition mock_tool (n d : string) : value :=
  VDict {[ "name" := VStr n; "description" := VStr d ]}.

Definition _get_mock_tools (server_name : string) : value :=
  VList
    (if String.eqb server_name "coingecko" then
       [mock_tool "get_coin_price" "Get current coin price";
        mock_tool "get_market_data" "Get market data for coin";
        mock_tool "get_price_history" "Get historical price data"]
     else if String.eqb server_name "ccxt" then
       [mock_tool "get_ticker" "Get ticker data from exchange";
        mock_tool "get_orderbook" "Get orderbook data";
        mock_tool "get_trades" "Get recent trades"]
     else if String.eqb server_name "feargreed" then
       [mock_tool "get_fear_greed_index" "Get current fear and greed index";
        mock_tool "get_fear_greed_history" "Get historical fear and greed data"]
     else if String.eqb server_name "cryptopanic" then
       [mock_tool "get_news" "Get crypto news";
        mock_tool "get_sentiment" "Get news sentiment analysis"]
     else if String.eqb server_name "whaletracker" then
       [mock_tool "get_whale_alerts" "Get whale transaction alerts";
        mock_tool "get_whale_stats" "Get whale statistics"]
     else if String.eqb server_name "firecrawl" then
       [mock_tool "crawl_website" "Crawl and extract website content";
        mock_tool "scrape_page" "Scrape specific page content"]
     else []).

(** [list_tools] : the registry after the call, the I/O done, and the
    tools returned or the exception raised. *)
Definition list_tools (servers : gmap string MCPManager.MCPServer)
    (server_name : string)
    : gmap string MCPManager.MCPServer * list MCPManager.io_event
      * result value :=
  match servers !! server_name with
  | None =>
      (servers, [],
       Raise (MCPServerError ("Server " +:+ server_name +:+ " not found")
                (Some server_name)))
  | Some _ =>
      let '(servers', io, r) :=
        MCPManager.call_tool http_post process_running process_request
          servers server_name "tools/list" ∅ in
      match r with
      | Ok v => (servers', io, Ok v)
      | Raise _ => (servers', io, Ok (_get_mock_tools server_name))
      end
  end.

End WithIO.

End MCPLifecycle.

(** Every server of a registry is in the running state. *)
Definition all_running (servers : gmap string MCPManager.MCPServer) : Prop :=
  map_Forall (fun _ srv => MCPManager.status srv = "running") servers.

(** A registered server is well formed when it is running, carries its
    registry key as name and has counted no error. *)
Definition fresh_running (k : string) (srv : MCPManager.MCPServer) : Prop :=
  MCPManager.status srv = "running"
  /\ MCPManager.name srv = k
  /\ MCPManager.error_count srv = 0%Z.

(** What the loop of [health_check] has established after any number of
    iterations, for a report that started at
    [(healthy, {}, total, 0, 0)]. *)
Definition health_invariant (http_get : value -> result Z)
    (process_running : MCPManager.process_handle -> bool)
    (r : MCPLifecycle.health_report)
    (seen : gmap string MCPManager.MCPServer) : Prop :=
  (MCPLifecycle.running_servers r + MCPLifecycle.failed_servers r = size seen)%nat
  /\ (MCPLifecycle.healthy r = true <-> MCPLifecycle.failed_servers r = 0%nat)
  /\ dom (MCPLifecycle.report_servers r) = dom seen
  /\ forall k srv,
       seen !! k = Some srv ->
       exists h,
         MCPLifecycle.report_servers r !! k = Some h
         /\ MCPLifecycle.sh_error_count h = MCPManager.error_count srv
         /\ (MCPLifecycle.sh_status h = "healthy" <-> MCPLifecycle.probe http_get process_running srv = Ok true)
         /\ (MCPLifecycle.sh_status h = "healthy"
             \/ MCPLifecycle.sh_status h = "unhealthy").

(** The event types that may occur between [analysis] and the final
    event of a stream. *)
Definition inner_event_types : list string :=
  ["tools"; "tool_result"; "tool_error"; "generating"; "content"].

(** The value [chat_completion] returns for a generated text: the shape
    [_convert_gemini_to_openai_format] builds. *)
Definition llm_reply (text usage : value) : value :=
  VDict {[ "choices" :=
             VList [VDict {[ "message" :=
                               VDict {[ "role" := VStr "assistant";
                                        "content" := text ]};
                             "finish_reason" := VStr "stop" ]}];
           "usage" := usage ]}.

(** ** Message conversion of [GeminiClient] *)

Module GeminiConvert.

(** One element of the [contents] of a Gemini request:
    [{"role": .., "parts": [{"text": ..}, ..]}], with the texts of its
    parts. *)
Record gemini_content : Type := mkContent {
  g_role : string;
  g_parts : list value
}.

(** [item.get("type") == name] *)
Definition type_is (d : gmap string value) (name : string) : bool :=
  match d !! "type" with
  | Some (VStr s) => String.eqb s name
  | _ => false
  end.

(** The loop over the items of a list content: a text item gives a part,
    every other dictionary gives none, and anything that is not a
    dictionary has no [get]. *)
Fixpoint convert_items (items : list value) : result (list value) :=
  match items with
  | [] => Ok []
  | VDict d :: rest =>
      parts ← convert_items rest;
      if type_is d "text"
      then mret (default (VStr "") (d !! "text") :: parts)
      else mret parts
  | _ :: _ => Raise (AttributeError "get")
  end.

Section WithStr.
(** [str(content)] for a content that is neither a string nor a list. *)
Variable py_str : value -> string.

(** The Gemini role of a message, [None] for a system message. *)
Definition gemini_role (r : string) : option string :=
  if String.eqb r "system" then None
  else if String.eqb r "assistant" then Some "model"
  else Some "user".

(** The loop of [_convert_messages_to_gemini]. *)
Fixpoint convert_loop (messages : list message)
    : result (list gemini_content) :=
  match messages with
  | [] => Ok []
  | m :: rest =>
      match gemini_role (role m) with
      | None => convert_loop rest
      | Some r =>
          c ← match content m with
              | VStr s => Ok (mkContent r [VStr s])
              | VList items =>
                  parts ← convert_items items; mret (mkContent r parts)
              | other => Ok (mkContent r [VStr (py_str other)])
              end;
          cs ← convert_loop rest;
          mret (c :: cs)
      end
  end.

Definition _convert_messages_to_gemini (messages : list message)
    : result (list gemini_content) :=
  cs ← convert_loop messages;
  match cs with
  | c :: _ =>
      if negb (String.eqb (g_role c) "user")
      then mret (mkContent "user" [VStr "Hello"] :: cs)
      else mret cs
  | [] => mret cs
  end.

End WithStr.

End GeminiConvert.

(** A message whose content cannot make the conversion raise: anything
    but a list with an item that is not a dictionary. *)
Definition convertible (m : message) : Prop :=
  match content m with
  | VList items =>
      Forall (fun v => match v with VDict _ => True | _ => False end) items
  | _ => True
  end.

(** ** Query log and query endpoint of the Redis-backed service *)

Module QueryEndpoint.

(** One entry of the Redis list [query_logs]. *)
Record log_entry : Type := mkLog {
  le_query : string;
  le_response_length : nat;
  le_session_id : option string;
  le_user_id : option string;
  le_timestamp : Z
}.

(** The number of entries [LTRIM 0 10000] keeps: the positions 0 to
    10000. *)
Definition log_limit : nat := Z.to_nat 10001.

(** [AgentService.log_query] on the list [query_logs] : [LPUSH] puts the
    entry in front, [LTRIM 0 10000] keeps the positions 0 to 10000.
    Without a client nothing is written. *)
Definition log_query (now : Z)
    (redis : option (gmap string AgentService.redis_entry))
    (logs : list log_entry) (query resp : string)
    (sid uid : option string) : list log_entry :=
  match redis with
  | None => logs
  | Some _ =>
      take log_limit (mkLog query (String.length resp) sid uid now :: logs)
  end.

(** What a route handler does: it returns a body or raises
    [HTTPException]. *)
Inductive http_result (A : Type) : Type :=
  | Returned (a : A)
  | HTTPException (status_code : Z) (detail : string).
Arguments Returned {A} a.
Arguments HTTPException {A} status_code detail.

Section WithEnvironment.
Variable uuid4_hex : string.
Variable now elapsed_ms : Z.
Variable json_dumps : gmap string value -> string.
Variable _extract_contract_code : string -> option string.
Variable call_tool :
  nat -> string -> string -> gmap string value -> result value.
Variable chat_completion : list message -> result value.

(** [query_agent] of [api/v1/endpoints/agent_mvp.py], for a request
    without extra context: the Redis sessions and the query log after the
    request, and the outcome. *)
Definition query_agent
    (redis : option (gmap string AgentService.redis_entry))
    (logs : list log_entry) (query : string) (sid uid : option string)
    : option (gmap string AgentService.redis_entry) * list log_entry
      * http_result AgentQueryResponse :=
  match AgentService.process_query uuid4_hex now elapsed_ms json_dumps
          _extract_contract_code call_tool chat_completion redis query sid
  with
  | (redis', Ok r) =>
      (redis', log_query now redis' logs query (response r) sid uid,
       Returned r)
  | (redis', Raise e) =>
      (redis', logs,
       match e with
       | GeminiAPIError _ _ =>
           HTTPException 503 ("AI service unavailable: " +:+ exn_str e)
       | AgentSessionError _ _ => HTTPException 400 (exn_str e)
       | _ => HTTPException 500 ("Internal server error: " +:+ exn_str e)
       end)
  end.

End WithEnvironment.

End QueryEndpoint.

(** ** Response conversion of [GeminiClient] *)

Module GeminiReply.

(** The reply built for a response without candidates. *)
Definition empty_reply : value :=
  VDict {[ "choices" :=
             VList [VDict {[ "message" :=
                               VDict {[ "content" := VStr "No response generated" ]};
                             "finish_reason" := VStr "stop" ]}];
           "usage" := VDict {[ "total_tokens" := VInt 0 ]} ]}.

(** The reply built by the [except Exception] handler. *)
Definition error_reply : value :=
  VDict {[ "choices" :=
             VList [VDict {[ "message" :=
                               VDict {[ "content" := VStr "Error processing response" ]};
                             "finish_reason" := VStr "error" ]}];
           "usage" := VDict {[ "total_tokens" := VInt 0 ]} ]}.

(** The reply built from the text of the first candidate. *)
Definition text_reply (text : string) (finish prompt completion total : value)
    : value :=
  VDict {[ "choices" :=
             VList [VDict {[ "message" :=
                               VDict {[ "role" := VStr "assistant";
                                        "content" := VStr text ]};
                             "finish_reason" := finish ]}];
           "usage" := VDict {[ "prompt_tokens" := prompt;
                               "completion_tokens" := completion;
                               "total_tokens" := total ]} ]}.

Definition is_text (v : value) : bool :=
  match v with
  | VStr s => String.eqb s "text"
  | _ => false
  end.

(** The loop [for part in parts] over the elements of a list:
    [if "text" in part: text_content += part["text"]]. *)
Fixpoint collect_text (parts : list value) (acc : string) : result string :=
  match parts with
  | [] => Ok acc
  | VDict d :: rest =>
      match d !! "text" with
      | None => collect_text rest acc
      | Some (VStr t) => collect_text rest (acc +:+ t)
      | Some _ => Raise (TypeError "can only concatenate str to str")
      end
  | VStr s :: rest =>
      if Str.contains "text" s
      then Raise (TypeError "string indices must be integers")
      else collect_text rest acc
  | VList l :: rest =>
      if existsb is_text l
      then Raise (TypeError "list indices must be integers or slices")
      else collect_text rest acc
  | _ :: _ => Raise (TypeError "argument is not iterable")
  end.

(** The same loop over whatever [parts] is: a list gives its elements, a
    dictionary its keys, a string its characters (none of which contains
    "text"); nothing else can be iterated. *)
Definition text_of_parts (parts : value) : result string :=
  match parts with
  | VList l => collect_text l ""
  | VDict d =>
      if existsb (Str.contains "text") (map fst (map_to_list d))
      then Raise (TypeError "string indices must be integers")
      else Ok ""
  | VStr _ => Ok ""
  | _ => Raise (TypeError "object is not iterable")
  end.

(** The body of the [try] block. *)
Definition convert_body (gemini_response : value) : result value :=
  candidates ← dict_get gemini_response "candidates" (VList []);
  if negb (truthy candidates) then mret empty_reply
  else
    candidate ← getindex candidates 0;
    content ← dict_get candidate "content" (VDict ∅);
    parts ← dict_get content "parts" (VList []);
    text ← text_of_parts parts;
    finish ← dict_get candidate "finishReason" (VStr "stop");
    usage ← dict_get gemini_response "usageMetadata" (VDict ∅);
    prompt ← dict_get usage "promptTokenCount" (VInt 0);
    completion ← dict_get usage "candidatesTokenCount" (VInt 0);
    total ← dict_get usage "totalTokenCount" (VInt 0);
    mret (text_reply text finish prompt completion total).

Definition _convert_gemini_to_openai_format (gemini_response : value) : value :=
  match convert_body gemini_response with
  | Ok reply => reply
  | Raise _ => error_reply
  end.

End GeminiReply.

(** The text [process_query] and [stream_completion] read from a reply:
    [reply["choices"][0]["message"]["content"]]. *)
Definition reply_content (reply : value) : result value :=
  choices ← getitem reply "choices";
  choice ← getindex choices 0;
  msg ← getitem choice "message";
  getitem msg "content".

(** A Gemini response with one candidate whose parts are the given
    texts. *)
Definition gemini_response_of (texts : list string) : value :=
  VDict {[ "candidates" :=
             VList [VDict {[ "content" :=
                               VDict {[ "parts" :=
                                          VList ((fun t => VDict {[ "text" := VStr t ]})
                                                 <$> texts) ]} ]}] ]}.

(** ** Fear and greed index of the MVP: label and interpretation *)

Module FearGreed.

(** [MCPManagerMVP._generate_mock_response], tool [get_fear_greed_index]:
    the [classification] stored beside the index. *)
Definition classification (index_value : Z) : string :=
  if (index_value <? 25)%Z then "Extreme Fear"
  else if (index_value <? 45)%Z then "Fear"
  else if (75 <? index_value)%Z then "Extreme Greed"
  else if (55 <? index_value)%Z then "Greed"
  else "Neutral".

(** [AgentServiceMVP._generate_mock_response]: the interpretation line
    of the report, chosen from the same index. *)
Definition interpretation (index : Z) : string :=
  if (75 <=? index)%Z then
    "**Interpretation:** Extreme Greed - Market may be overheated, consider profit-taking."
  else if (55 <=? index)%Z then
    "**Interpretation:** Greed - Bullish sentiment, but watch for corrections."
  else if (45 <=? index)%Z then
    "**Interpretation:** Neutral - Balanced market sentiment."
  else if (25 <=? index)%Z then
    "**Interpretation:** Fear - Bearish sentiment, potential buying opportunities."
  else
    "**Interpretation:** Extreme Fear - Market panic, long-term buying opportunity.".

(** The line of the report that shows the stored label. *)
Definition classification_line (label : string) : string :=
  "**Classification:** " +:+ label.

(** The interpretation names the given label. *)
Definition interprets (label line : string) : bool :=
  Str.startswith line ("**Interpretation:** " +:+ label +:+ " - ").

End FearGreed.

(** ** Conversation context of a request that carries extra context *)

Module ExtraContext.

(** The [session_history] entry of the context dictionary: the exchanges
    read from the session, or the value the request's extra context holds
    under that key. *)
Inductive session_history : Type :=
  | Stored (l : list AgentService.exchange)
  | Supplied (v : value).

(** [_prepare_conversation_context] : [**additional_context] comes last
    in the dictionary literal, so its keys replace the ones written
    before it.  Of the context, [_build_llm_messages] reads only
    [session_history]. *)
Definition _prepare_conversation_context (ctx : AgentService.session_ctx)
    (additional_context : gmap string value) : session_history :=
  match additional_context !! "session_history" with
  | Some v => Supplied v
  | None => Stored (AgentService._prepare_conversation_context ctx)
  end.

(** [for exchange in v] : a list gives its elements, a dictionary its
    keys, a string its characters; nothing else can be iterated. *)
Definition iterate (v : value) : result (list value) :=
  match v with
  | VList l => Ok l
  | VDict d => Ok (VStr <$> map fst (map_to_list d))
  | VStr s =>
      Ok ((fun c => VStr (String c EmptyString)) <$> String.list_ascii_of_string s)
  | _ => Raise (TypeError "object is not iterable")
  end.

(** The body of the loop over the history:
    [messages.extend([{"role": "user", "content": exchange.get("query", "")},
                      {"role": "assistant", "content": exchange.get("response", "")}])]. *)
Fixpoint exchange_messages (l : list value) : result (list message) :=
  match l with
  | [] => Ok []
  | exchange :: rest =>
      q ← dict_get exchange "query" (VStr "");
      r ← dict_get exchange "response" (VStr "");
      ms ← exchange_messages rest;
      mret (mkMessage "user" q :: mkMessage "assistant" r :: ms)
  end.

Section WithJson.
Variable json_dumps : gmap string value -> string.

Definition _build_llm_messages (query : string) (h : session_history)
    (tool_results : gmap string value) (qt : option QueryType)
    : result (list message) :=
  match h with
  | Stored l =>
      Ok (AgentService._build_llm_messages json_dumps query l tool_results qt)
  | Supplied v =>
      items ← iterate v;
      ms ← exchange_messages items;
      mret ([mkMessage "user"
               (VStr (AgentService.system_prompt json_dumps qt tool_results))]
            ++ ms ++ [mkMessage "user" (VStr query)])
  end.

End WithJson.

End ExtraContext.

(** ** Example data *)

(** Scenario 3 of the specification: two required tools, one failed call
    recorded with its error. *)
Definition scenario3_tools : list ToolCall :=
  [mkToolCall "coingecko.get_coin_price" ∅ (Some VNone) (Some 50%Z) None;
   mkToolCall "ccxt.get_ticker" ∅ None None (Some "timeout")].

(** An LLM endpoint that is down. *)
Definition cc_unavailable : list message -> result value :=
  fun _ => Raise (GeminiAPIError "API request failed: 503" (Some 503%Z)).

(** An LLM endpoint that answers. *)
Definition cc_answer : list message -> result value :=
  fun _ =>
    Ok (VDict {[ "choices" :=
                   VList [VDict {[ "message" :=
                                     VDict {[ "role" := VStr "assistant";
                                              "content" := VStr "answer" ]};
                                   "finish_reason" := VStr "stop" ]}];
                 "usage" := VDict {[ "total_tokens" := VInt 12 ]} ]}).

(** A dispatcher whose registry is empty, as [MCPManager()] leaves it
    before [initialize] runs: every call raises [MCPServerError]. *)
Definition fresh_manager_call :
    nat -> string -> string -> gmap string value -> result value :=
  fun _ s t p =>
    (MCPManager.call_tool (fun _ _ => Ok VNone) (fun _ => true)
       (fun _ _ => Ok VNone) ∅ s t p).2.

(** A dispatcher that answers every call. *)
Definition answering_call :
    nat -> string -> string -> gmap string value -> result value :=
  fun k _ t _ => Ok (VDict {[ "tool" := VStr t; "call" := VInt (Z.of_nat k) ]}).

(** The registry of the fallback configuration of [_load_mcp_config]:
    one HTTP server, [coingecko], running. *)
Definition coingecko_only : gmap string MCPManager.MCPServer :=
  {[ "coingecko" :=
       MCPManager.mkServer "coingecko"
         {[ "url" := VStr "https://mcp.api.coingecko.com/sse" ]}
         "running" None 0 ]}.

(** An HTTP endpoint that answers every request. *)
Definition http_answers : value -> value -> result value :=
  fun _ _ => Ok (VDict {[ "price" := VInt 43250 ]}).

(** The dispatcher of a service whose registry is [coingecko_only]. *)
Definition coingecko_only_call :
    nat -> string -> string -> gmap string value -> result value :=
  fun _ s t p =>
    (MCPManager.call_tool http_answers (fun _ => true) (fun _ _ => Ok VNone)
       coingecko_only s t p).2.

(** The two tools the Redis-backed classifier requires for "price news". *)
Definition price_news_tools : list tool_info :=
  [mkToolInfo "coingecko" "get_coin_price" {[ "symbol" := VStr "bitcoin" ]};
   mkToolInfo "cryptopanic" "get_news" {[ "filter" := VStr "hot" ]}].

(** A session table of the MVP service with one fresh session. *)
Definition one_session : gmap string AgentServiceMVP.session_data :=
  {[ "session_0123456789ab" :=
       AgentServiceMVP.mkData "session_0123456789ab" None "active" 0 0 [] None ]}.

(** A Redis store with one fresh session, as [create_session] writes
    it. *)
Definition one_entry : gmap string AgentService.redis_entry :=
  {[ "session:session_0123456789ab" :=
       AgentService.mkEntry 7200
         (AgentService.mkData "session_0123456789ab" None
            (AgentService.default_config "gemini-2.0-flash-exp") "active" 0 0
            (Some (AgentService.mkCtx None)) None) ]}.

(** An extra context whose [session_history] holds six exchanges. *)
Definition six_exchanges : gmap string value :=
  {[ "session_history" :=
       VList (replicate 6 (VDict {[ "query" := VStr "q";
                                    "response" := VStr "r" ]})) ]}.

(** * Properties *)

(** ** Confidence estimator *)

Section ConfidenceFacts.
Local Open Scope Q_scope.

Lemma successful_tools_nonneg (used : list ToolCall) :
  (0 <= successful_tools used)%Z.
Proof. unfold successful_tools. lia. Qed.

Lemma successful_tools_le_length (used : list ToolCall) :
  (successful_tools used <= Z.of_nat (length used))%Z.
Proof.
  unfold successful_tools. apply inj_le. apply length_filter.
Qed.

(** The success rate is never negative, whatever the count passed. *)
Lemma success_rate_nonneg (used : list ToolCall) (required : Z) :
  0 <= (if (0 <? required)%Z
        then inject_Z (successful_tools used) / inject_Z required
        else 1).
Proof.
  destruct (0 <? required)%Z eqn:E; [| discriminate].
  apply Z.ltb_lt in E.
  unfold Qdiv. apply Qmult_le_0_compat.
  - change 0 with (inject_Z 0). rewrite <- Zle_Qle.
    apply successful_tools_nonneg.
  - apply Qinv_le_0_compat. change 0 with (inject_Z 0).
    rewrite <- Zle_Qle. lia.
Qed.

(** A product of non-negative factors capped at a ceiling of the unit
    interval stays in the unit interval. *)
Lemma capped_in_unit (c x w : Q) :
  0 <= c -> c <= 1 -> 0 <= x -> 0 <= w -> 0 <= Qmin c (x * w) <= 1.
Proof.
  intros Hc0 Hc1 Hx Hw. split.
  - apply Q.min_glb; [exact Hc0 | apply Qmult_le_0_compat; assumption].
  - eapply Qle_trans; [apply Q.le_min_l | exact Hc1].
Qed.

Lemma mvp_weight_nonneg (q : QueryType) : 0 <= ConfidenceMVP.type_confidence q.
Proof. destruct q; discriminate. Qed.

Lemma full_weight_nonneg (q : QueryType) : 0 <= ConfidenceFull.type_confidence q.
Proof. destruct q; discriminate. Qed.

Lemma mvp_confidence_in_unit used required q :
  0 <= ConfidenceMVP._calculate_confidence_score used required q <= 1.
Proof.
  unfold ConfidenceMVP._calculate_confidence_score.
  destruct (required =? 0)%Z; [split; discriminate |].
  apply capped_in_unit;
    [discriminate | discriminate | apply success_rate_nonneg
    | apply mvp_weight_nonneg].
Qed.

Lemma full_confidence_in_unit used required q :
  0 <= ConfidenceFull._calculate_confidence_score used required q <= 1.
Proof.
  unfold ConfidenceFull._calculate_confidence_score.
  destruct (required =? 0)%Z; [split; discriminate |].
  apply capped_in_unit;
    [discriminate | discriminate | apply success_rate_nonneg
    | apply full_weight_nonneg].
Qed.

Lemma mvp_confidence_formula used required q :
  (0 < required)%Z ->
  ConfidenceMVP._calculate_confidence_score used required q
  = Qmin (90 # 100)
      (inject_Z (successful_tools used) / inject_Z required
       * ConfidenceMVP.type_confidence q).
Proof.
  intros H. unfold ConfidenceMVP._calculate_confidence_score.
  destruct (Z.eqb_spec required 0) as [-> | _]; [lia |].
  destruct (Z.ltb_spec 0 required); [reflexivity | lia].
Qed.

Lemma full_confidence_formula used required q :
  (0 < required)%Z ->
  ConfidenceFull._calculate_confidence_score used required q
  = Qmin (95 # 100)
      (inject_Z (successful_tools used) / inject_Z required
       * ConfidenceFull.type_confidence q).
Proof.
  intros H. unfold ConfidenceFull._calculate_confidence_score.
  destruct (Z.eqb_spec required 0) as [-> | _]; [lia |].
  destruct (Z.ltb_spec 0 required); [reflexivity | lia].
Qed.

(** C1.  In both services the confidence estimator returns a value of
    the unit interval for every list of tool calls, every required
    count and every query type; it returns exactly 0.7 when the
    required count is 0; and for a positive required count it returns
    the number of calls without error divided by the required count,
    times the weight of the query type, capped at the ceiling (0.90 in
    the MVP service, 0.95 in the Redis-backed one). *)
Theorem confidence_estimator_spec
    (used : list ToolCall) (required : Z) (q : QueryType) :
  (0 <= ConfidenceMVP._calculate_confidence_score used required q <= 1
   /\ 0 <= ConfidenceFull._calculate_confidence_score used required q <= 1)
  /\ (ConfidenceMVP._calculate_confidence_score used 0 q = 7 # 10
      /\ ConfidenceFull._calculate_confidence_score used 0 q = 7 # 10)
  /\ ((0 < required)%Z ->
      ConfidenceMVP._calculate_confidence_score used required q
      = Qmin (90 # 100)
          (inject_Z (successful_tools used) / inject_Z required
           * ConfidenceMVP.type_confidence q)
      /\ ConfidenceFull._calculate_confidence_score used required q
         = Qmin (95 # 100)
             (inject_Z (successful_tools used) / inject_Z required
              * ConfidenceFull.type_confidence q)).
Proof.
  split; [split; [apply mvp_confidence_in_unit
                 | apply full_confidence_in_unit] |].
  split; [split; reflexivity |].
  intros H. split;
    [apply mvp_confidence_formula | apply full_confidence_formula];
    exact H.
Qed.

End ConfidenceFacts.

Lemma confidence_estimator_spec_witness :
  (0 < 2)%Z
  /\ (ConfidenceMVP._calculate_confidence_score scenario3_tools 2
        PRICE_PREDICTION == 375 # 1000)%Q
  /\ (ConfidenceFull._calculate_confidence_score scenario3_tools 2
        PRICE_PREDICTION == 35 # 100)%Q.
Proof.
  split; [lia |].
  destruct (confidence_estimator_spec scenario3_tools 2 PRICE_PREDICTION)
    as (_ & _ & H).
  destruct (H ltac:(lia)) as [-> ->]. split; reflexivity.
Defined.

(** ** Query classifiers *)

Lemma any_in_app (ws1 ws2 : list string) (s : string) :
  Str.any_in (ws1 ++ ws2) s = Str.any_in ws1 s || Str.any_in ws2 s.
Proof. unfold Str.any_in. apply existsb_app. Qed.

Lemma mvp_no_keyword_split (q : string) :
  ClassifierMVP.has_keyword q = false ->
  let ql := Str.strip (Str.lower q) in
  Str.any_in ClassifierMVP.price_words ql = false
  /\ Str.any_in ClassifierMVP.sentiment_words ql = false
  /\ Str.any_in ClassifierMVP.news_words ql = false
  /\ Str.any_in ClassifierMVP.analysis_words ql = false.
Proof.
  unfold ClassifierMVP.has_keyword, ClassifierMVP.recognized_keywords.
  rewrite !any_in_app, !orb_false_iff. tauto.
Qed.

Lemma full_no_keyword_split (q : string) :
  ClassifierFull.has_keyword q = false ->
  let ql := Str.lower q in
  Str.any_in ClassifierFull.price_words ql = false
  /\ Str.any_in ClassifierFull.sentiment_words ql = false
  /\ Str.any_in ClassifierFull.news_words ql = false
  /\ Str.any_in ClassifierFull.whale_words ql = false
  /\ Str.any_in ClassifierFull.compliance_words ql = false.
Proof.
  unfold ClassifierFull.has_keyword, ClassifierFull.recognized_keywords.
  rewrite !any_in_app, !orb_false_iff. tauto.
Qed.

Lemma mvp_classifier_no_keyword (q : string) :
  ClassifierMVP.has_keyword q = false ->
  ClassifierMVP._analyze_query q
  = if ClassifierMVP.is_greeting (Str.strip (Str.lower q))
    then mkAnalysis GENERAL_CRYPTO [] (9 # 10)
    else mkAnalysis GENERAL_CRYPTO ClassifierMVP.fallback_tools (8 # 10).
Proof.
  intros H. apply mvp_no_keyword_split in H.
  destruct H as (Hp & Hs & Hn & Ha).
  unfold ClassifierMVP._analyze_query.
  destruct (ClassifierMVP.is_greeting _); [reflexivity |].
  cbv zeta. rewrite Hp, Hs, Hn, Ha. reflexivity.
Qed.

Lemma full_classifier_no_keyword (rx : string -> option string) (q : string) :
  ClassifierFull.has_keyword q = false ->
  ClassifierFull._analyze_query rx q
  = Ok (mkAnalysis GENERAL_CRYPTO [] (8 # 10)).
Proof.
  intros H. apply full_no_keyword_split in H.
  destruct H as (Hp & Hs & Hn & Hw & Hc).
  unfold ClassifierFull._analyze_query.
  cbv zeta. rewrite Hp, Hs, Hn, Hw, Hc. reflexivity.
Qed.

(** C5, in the form the code satisfies.  A query without recognized
    keyword is classified without failure as general.  The MVP classifier attaches the default
    tool set (the BTC price and the fear and greed index) unless the
    lower-cased, stripped query is or starts with a greeting, in which
    case it attaches no tool; the classifier of the Redis-backed service
    attaches no tool. *)
Theorem classifier_without_keyword (rx : string -> option string) (q : string) :
  (ClassifierMVP.has_keyword q = false ->
   ClassifierMVP._analyze_query q
   = if ClassifierMVP.is_greeting (Str.strip (Str.lower q))
     then mkAnalysis GENERAL_CRYPTO [] (9 # 10)
     else mkAnalysis GENERAL_CRYPTO
            [mkToolInfo "coingecko" "get_coin_price" {[ "symbol" := VStr "BTC" ]};
             mkToolInfo "feargreed" "get_fear_greed_index" ∅]
            (8 # 10))
  /\ (ClassifierFull.has_keyword q = false ->
      ClassifierFull._analyze_query rx q
      = Ok (mkAnalysis GENERAL_CRYPTO [] (8 # 10))).
Proof.
  split.
  - apply mvp_classifier_no_keyword.
  - apply full_classifier_no_keyword.
Qed.

Lemma classifier_without_keyword_witness :
  qa_tools (ClassifierMVP._analyze_query "How are you doing?")
  = ClassifierMVP.fallback_tools
  /\ ClassifierFull._analyze_query (fun _ => None) "How are you doing?"
     = Ok (mkAnalysis GENERAL_CRYPTO [] (8 # 10)).
Proof.
  destruct (classifier_without_keyword (fun _ => None) "How are you doing?")
    as [Hm Hf].
  split.
  - rewrite Hm; [reflexivity | vm_compute; reflexivity].
  - apply Hf. vm_compute. reflexivity.
Defined.

(** C5 as stated fails on a greeting: "hello" contains no recognized
    keyword, and the MVP classifier returns no tool for it instead of
    the default tool set. *)
Lemma classifier_greeting_counterexample :
  ClassifierMVP.has_keyword "hello" = false
  /\ qa_type (ClassifierMVP._analyze_query "hello") = GENERAL_CRYPTO
  /\ qa_tools (ClassifierMVP._analyze_query "hello") = []
  /\ qa_tools (ClassifierMVP._analyze_query "hello")
     <> ClassifierMVP.fallback_tools.
Proof.
  repeat split; try (vm_compute; reflexivity).
  vm_compute. discriminate.
Qed.

(** ** LLM client *)

Lemma stream_completion_unfold (cc : list message -> result value)
    (messages : list message) :
  GeminiClient.stream_completion cc messages
  = match cc messages ≫= extract_chunk with
    | Ok chunk => ([chunk], Ok tt)
    | Raise e => ([GeminiClient.error_chunk e], Ok tt)
    end.
Proof.
  unfold GeminiClient.stream_completion, extract_chunk.
  destruct (cc messages) as [resp | e]; [| reflexivity]. simpl.
  destruct (getitem resp "choices") as [choices | e]; [| reflexivity]. simpl.
  destruct (getindex choices 0) as [choice | e]; [| reflexivity]. simpl.
  destruct (getitem choice "message") as [msg | e]; [| reflexivity]. simpl.
  destruct (getitem msg "content") as [c | e]; [| reflexivity]. simpl.
  destruct (dict_get resp "usage" (VDict ∅)) as [u | e]; reflexivity.
Qed.

(** The three fields of the chunk the handler yields. *)
Lemma error_chunk_fields (e : exn) :
  (choices ← getitem (GeminiClient.error_chunk e) "choices";
   choice ← getindex choices 0;
   delta ← getitem choice "delta";
   getitem delta "content") = Ok (VStr "")
  /\ (choices ← getitem (GeminiClient.error_chunk e) "choices";
      choice ← getindex choices 0;
      getitem choice "finish_reason") = Ok (VStr "error")
  /\ getitem (GeminiClient.error_chunk e) "error" = Ok (VStr (exn_str e)).
Proof.
  split; [| split]; reflexivity.
Qed.

(** C9.  Whatever [chat_completion] does on the messages, the generator
    [stream_completion] ends without raising after yielding exactly one
    chunk; when [chat_completion] raises [e], that chunk is the error
    chunk: its delta content is the empty string, its finish reason is
    "error", and its "error" field holds [str(e)]. *)
Theorem stream_completion_total (cc : list message -> result value)
    (messages : list message) :
  ends_normally (GeminiClient.stream_completion cc messages) = true
  /\ length (yielded (GeminiClient.stream_completion cc messages)) = 1%nat
  /\ forall e : exn,
       cc messages = Raise e ->
       yielded (GeminiClient.stream_completion cc messages)
       = [GeminiClient.error_chunk e]
       /\ (choices ← getitem (GeminiClient.error_chunk e) "choices";
           choice ← getindex choices 0;
           delta ← getitem choice "delta";
           getitem delta "content") = Ok (VStr "")
       /\ (choices ← getitem (GeminiClient.error_chunk e) "choices";
           choice ← getindex choices 0;
           getitem choice "finish_reason") = Ok (VStr "error")
       /\ getitem (GeminiClient.error_chunk e) "error" = Ok (VStr (exn_str e)).
Proof.
  rewrite stream_completion_unfold.
  split; [| split].
  - destruct (cc messages ≫= extract_chunk); reflexivity.
  - destruct (cc messages ≫= extract_chunk); reflexivity.
  - intros e He. rewrite He. simpl. split; [reflexivity |].
    apply error_chunk_fields.
Qed.

Lemma stream_completion_total_witness :
  yielded (GeminiClient.stream_completion cc_unavailable [])
  = [GeminiClient.error_chunk
       (GeminiAPIError "API request failed: 503" (Some 503%Z))].
Proof.
  destruct (stream_completion_total cc_unavailable []) as (_ & _ & H).
  destruct (H (GeminiAPIError "API request failed: 503" (Some 503%Z))
              eq_refl) as [Hy _].
  exact Hy.
Defined.

(** A response that lacks the expected fields is a failure of the same
    kind: the only chunk is again an error chunk. *)
Lemma stream_completion_malformed (messages : list message) :
  exists e,
    GeminiClient.stream_completion (fun _ => Ok (VDict ∅)) messages
    = ([GeminiClient.error_chunk e], Ok tt).
Proof.
  exists (KeyError "'choices'"). reflexivity.
Qed.

(** ** Streaming path *)

Section Streaming.
Variable now : Z.
Variable json_dumps : gmap string value -> string.
Variable rx : string -> option string.
Variable call_tool : nat -> string -> string -> gmap string value -> result value.
Variable str_of_nat : nat -> string.

(** The tool loop of the streaming path never raises and yields only
    [tool_result] and [tool_error] events, one for each call. *)
Lemma stream_tools_yields (tis : list tool_info) :
  forall (k : nat) (tr : gmap string value),
  exists evs tr',
    AgentService.stream_tools now call_tool k tr tis = (evs, Ok tr')
    /\ Forall tool_event evs
    /\ length evs = length tis.
Proof.
  induction tis as [| ti rest IH]; intros k tr.
  - exists [], tr. repeat split. constructor.
  - simpl. destruct (call_tool k (server ti) (tool ti) (parameters ti)) as [v | e].
    + destruct (IH (S k) (<[tool ti := v]> tr)) as (evs & tr' & -> & Hall & Hlen).
      eexists (_ :: evs), tr'. split; [reflexivity |].
      split; [constructor; [left; reflexivity | exact Hall] |].
      simpl. congruence.
    + destruct (IH (S k) tr) as (evs & tr' & -> & Hall & Hlen).
      eexists (_ :: evs), tr'. split; [reflexivity |].
      split; [constructor; [right; reflexivity | exact Hall] |].
      simpl. congruence.
Qed.

(** The consumer of the LLM stream skips the error chunk: its delta
    content is the empty string, which is falsy. *)
Lemma on_chunk_error_chunk (e : exn) :
  AgentService.on_chunk now (GeminiClient.error_chunk e) = ([], Ok tt).
Proof. reflexivity. Qed.

Lemma async_for_failed_llm (cc : list message -> result value)
    (messages : list message) (e : exn) :
  cc messages = Raise e ->
  async_for (GeminiClient.stream_completion cc messages)
    (AgentService.on_chunk now) = ([], Ok tt).
Proof.
  intros H. rewrite stream_completion_unfold, H. reflexivity.
Qed.

(** C3, what the code does.  When the classifier succeeds and the LLM
    call raises, the streaming generator ends normally and its events are
    [start], [analysis], the tool events, [generating] and then
    [complete]: no [error] event is emitted. *)
Theorem stream_llm_failure_completes (cc : list message -> result value)
    (redis : option (gmap string AgentService.redis_entry))
    (query : string) (sid : option string) (qa : query_analysis) (e : exn) :
  ClassifierFull._analyze_query rx query = Ok qa ->
  (forall messages, cc messages = Raise e) ->
  let g := AgentService.stream_query_response now json_dumps rx call_tool cc
             str_of_nat redis query sid in
  ends_normally g = true
  /\ (exists mid,
        map AgentService.ev_type (yielded g)
        = ["start"; "analysis"] ++ mid ++ ["generating"; "complete"]
        /\ Forall (fun t => t = "tools" \/ t = "tool_result" \/ t = "tool_error") mid)
  /\ ~ In "error" (map AgentService.ev_type (yielded g)).
Proof.
  intros Hqa Hcc g.
  assert (Hg : exists mid,
             g = ([AgentService.ev now "start" "";
                   AgentService.ev now "analysis" "Analyzing your query..."]
                  ++ mid
                  ++ [AgentService.ev now "generating"
                        "Analyzing data and generating response...";
                      AgentService.ev now "complete" ""], Ok tt)
             /\ Forall (fun ev => AgentService.ev_type ev = "tools"
                                  \/ tool_event ev) mid).
  { subst g. unfold AgentService.stream_query_response, AgentService._analyze_query.
    rewrite Hqa.
    cbn [mbind gen_mbind gen_bind yield gen_lift try_except].
    destruct (qa_tools qa) as [| ti rest] eqn:Etools.
    - exists [].
      cbn [mbind gen_mbind gen_bind yield gen_lift try_except
           AgentService.stream_tools mret gen_mret gen_ret app].
      rewrite (async_for_failed_llm cc _ e) by apply Hcc.
      split; [reflexivity | constructor].
    - destruct (stream_tools_yields (ti :: rest) 0 ∅)
        as (evs & tr' & Hst & Hall & _).
      eexists (_ :: evs).
      cbn [mbind gen_mbind gen_bind yield gen_lift try_except].
      rewrite Hst. cbn [mbind gen_mbind gen_bind yield gen_lift try_except].
      rewrite (async_for_failed_llm cc _ e) by apply Hcc.
      cbn [mbind gen_mbind gen_bind yield gen_lift try_except app].
      split; [reflexivity |].
      constructor; [left; reflexivity |].
      eapply Forall_impl; [exact Hall |]. intros ? ?. right. assumption. }
  destruct Hg as (mid & -> & Hmid).
  rewrite List.Forall_forall in Hmid.
  split; [reflexivity |]. split.
  - exists (map AgentService.ev_type mid). split.
    + unfold yielded. simpl. rewrite map_app. reflexivity.
    + apply List.Forall_forall. intros t Ht. apply in_map_iff in Ht.
      destruct Ht as (ev & <- & Hev).
      destruct (Hmid ev Hev) as [H | [H | H]]; tauto.
  - unfold yielded. simpl. rewrite map_app. simpl.
    intros [H | [H | H]]; try discriminate.
    apply in_app_or in H. destruct H as [H | H].
    + apply in_map_iff in H. destruct H as (ev & Hty & Hev).
      destruct (Hmid ev Hev) as [H | [H | H]];
        rewrite Hty in H; discriminate.
    + simpl in H. destruct H as [H | [H | H]]; try discriminate. exact H.
Qed.

End Streaming.

Lemma stream_llm_failure_completes_witness :
  let g := AgentService.stream_query_response 0%Z (fun _ => "") (fun _ => None)
             fresh_manager_call cc_unavailable pretty None
             "what is the btc price" None in
  ends_normally g = true
  /\ (exists mid,
        map AgentService.ev_type (yielded g)
        = ["start"; "analysis"] ++ mid ++ ["generating"; "complete"]
        /\ Forall (fun t => t = "tools" \/ t = "tool_result" \/ t = "tool_error") mid)
  /\ ~ In "error" (map AgentService.ev_type (yielded g)).
Proof.
  apply (stream_llm_failure_completes 0%Z (fun _ => "") (fun _ => None)
           fresh_manager_call pretty cc_unavailable None
           "what is the btc price" None
           (mkAnalysis PRICE_PREDICTION
              [mkToolInfo "coingecko" "get_coin_price"
                 {[ "symbol" := VStr "bitcoin" ]}] (8 # 10))
           (GeminiAPIError "API request failed: 503" (Some 503%Z))).
  - vm_compute. reflexivity.
  - intros messages. reflexivity.
Defined.

(** The whole event sequence of that request: the failed tool call is
    reported, the failed LLM call is not. *)
Lemma stream_llm_failure_trace :
  map AgentService.ev_type
    (yielded (AgentService.stream_query_response 0%Z (fun _ => "")
                (fun _ => None) fresh_manager_call cc_unavailable pretty None
                "what is the btc price" None))
  = ["start"; "analysis"; "tools"; "tool_error"; "generating"; "complete"].
Proof. vm_compute. reflexivity. Qed.

(** A failure of the classifier, by contrast, reaches the handler of the
    generator: one [error] event ends the sequence. *)
Lemma stream_classifier_failure_trace :
  map AgentService.ev_type
    (yielded (AgentService.stream_query_response 0%Z (fun _ => "")
                (fun _ => None) fresh_manager_call cc_answer pretty None
                "audit my token" None))
  = ["start"; "analysis"; "error"].
Proof. vm_compute. reflexivity. Qed.

(** ** Tool loops of [process_query] *)

Section ToolLoops.
Variable call_tool : nat -> string -> string -> gmap string value -> result value.
Variable container_str : value -> string.

(** The MVP loop appends one record per required tool, in order. *)
Lemma mvp_tool_loop_used (tis : list tool_info) :
  forall (k : nat) (st : AgentServiceMVP.tool_state),
    AgentServiceMVP.ts_tools_used
      (AgentServiceMVP.tool_loop call_tool container_str k st tis)
    = AgentServiceMVP.ts_tools_used st
      ++ imap (fun j ti => mvp_record call_tool (k + j) ti) tis.
Proof.
  induction tis as [| ti rest IH]; intros k st; simpl.
  - rewrite app_nil_r. reflexivity.
  - rewrite IH. unfold AgentServiceMVP.tool_step, mvp_record at 2.
    rewrite Nat.add_0_r.
    destruct (call_tool k (server ti) (tool ti) (parameters ti)); simpl;
      rewrite <- app_assoc; simpl; do 2 f_equal;
      apply imap_ext; intros j x _; simpl; f_equal; lia.
Qed.

Lemma mvp_run_tools_used (tis : list tool_info) :
  AgentServiceMVP.ts_tools_used
    (AgentServiceMVP.run_tools call_tool container_str tis)
  = imap (mvp_record call_tool) tis.
Proof.
  unfold AgentServiceMVP.run_tools. rewrite mvp_tool_loop_used. reflexivity.
Qed.

(** In the MVP service every required tool has its record, and the record
    carries an error exactly when the call raised. *)
Lemma mvp_tools_used_complete (tis : list tool_info) :
  let used := AgentServiceMVP.ts_tools_used
                (AgentServiceMVP.run_tools call_tool container_str tis) in
  length used = length tis
  /\ forall (i : nat) (ti : tool_info),
       tis !! i = Some ti ->
       exists tc,
         used !! i = Some tc
         /\ tool_name tc = server ti +:+ "." +:+ tool ti
         /\ (is_Some (error tc)
             <-> is_ok (call_tool i (server ti) (tool ti) (parameters ti)) = false).
Proof.
  cbv zeta. rewrite mvp_run_tools_used. split.
  - apply length_imap.
  - intros i ti Hi. exists (mvp_record call_tool i ti).
    rewrite list_lookup_imap, Hi. split; [reflexivity |].
    unfold mvp_record.
    destruct (call_tool i (server ti) (tool ti) (parameters ti)); simpl.
    + split; [reflexivity |]. split; [intros [? ?]; discriminate | discriminate].
    + split; [reflexivity |]. split; [reflexivity | eauto].
Qed.

(** In the MVP service a result enters the mapping only from a call that
    returned it. *)
Lemma mvp_tool_results_from_successes (tis : list tool_info) :
  forall (k : nat) (st : AgentServiceMVP.tool_state) (key : string) (v : value),
    AgentServiceMVP.ts_tool_results
      (AgentServiceMVP.tool_loop call_tool container_str k st tis) !! key
    = Some v ->
    AgentServiceMVP.ts_tool_results st !! key = Some v
    \/ exists j ti,
         tis !! j = Some ti
         /\ call_tool (k + j) (server ti) (tool ti) (parameters ti) = Ok v
         /\ AgentServiceMVP.tool_key container_str ti = key.
Proof.
  induction tis as [| ti rest IH]; intros k st key v H; simpl in H.
  - left. exact H.
  - apply IH in H. destruct H as [H | (j & tj & Hj & Hc & Hk)].
    + unfold AgentServiceMVP.tool_step in H.
      destruct (call_tool k (server ti) (tool ti) (parameters ti)) as [r | e] eqn:E;
        simpl in H.
      * destruct (decide (AgentServiceMVP.tool_key container_str ti = key)) as [Heq | Hne].
        -- rewrite Heq, lookup_insert_eq in H. injection H as ->.
           right. exists 0%nat, ti. rewrite Nat.add_0_r. auto.
        -- rewrite lookup_insert_ne in H by exact Hne. left. exact H.
      * left. exact H.
    + right. exists (S j), tj. split; [exact Hj |].
      split; [| exact Hk]. rewrite <- Hc. f_equal. lia.
Qed.

(** The loop of the Redis-backed service appends a record only for a call
    that returned. *)
Lemma full_tool_loop_used (tis : list tool_info) :
  forall (k : nat) (st : AgentService.tool_state),
    AgentService.ts_tools_used (AgentService.tool_loop call_tool k st tis)
    = AgentService.ts_tools_used st ++ full_records call_tool k tis.
Proof.
  induction tis as [| ti rest IH]; intros k st; simpl.
  - rewrite app_nil_r. reflexivity.
  - rewrite IH. unfold AgentService.tool_step.
    destruct (call_tool k (server ti) (tool ti) (parameters ti)); simpl.
    + rewrite <- app_assoc. reflexivity.
    + reflexivity.
Qed.

Lemma full_records_length (tis : list tool_info) :
  forall k : nat,
    (length (full_records call_tool k tis) + failed_calls call_tool k tis
     = length tis)%nat.
Proof.
  induction tis as [| ti rest IH]; intros k; simpl; [reflexivity |].
  rewrite length_app.
  destruct (call_tool k (server ti) (tool ti) (parameters ti)); simpl;
    specialize (IH (S k)); lia.
Qed.

Lemma full_records_no_error (tis : list tool_info) :
  forall k : nat, Forall (fun tc => error tc = None) (full_records call_tool k tis).
Proof.
  induction tis as [| ti rest IH]; intros k; simpl; [constructor |].
  apply Forall_app. split; [| apply IH].
  destruct (call_tool k (server ti) (tool ti) (parameters ti));
    repeat constructor.
Qed.

(** In the Redis-backed service the list of tool calls misses one entry
    for each call that raised, and none of its entries carries an
    error. *)
Lemma full_tools_used_incomplete (tis : list tool_info) :
  let used := AgentService.ts_tools_used (AgentService.run_tools call_tool tis) in
  (length used + failed_calls call_tool 0 tis = length tis)%nat
  /\ Forall (fun tc => error tc = None) used.
Proof.
  cbv zeta. unfold AgentService.run_tools. rewrite full_tool_loop_used. simpl.
  split; [apply full_records_length | apply full_records_no_error].
Qed.

End ToolLoops.

(** When the report builder returns, [process_query] of the MVP service
    returns a response whose tool list has one entry per required
    tool. *)
Lemma mvp_process_query_returns
    (uuid4_hex : string) (now elapsed_ms : Z)
    (call_tool : nat -> string -> string -> gmap string value -> result value)
    (report : string -> QueryType -> gmap string value -> result string)
    (container_str : value -> string)
    (sessions : gmap string AgentServiceMVP.session_data)
    (query : string) (sid : option string) (text : string) :
  let qa := ClassifierMVP._analyze_query query in
  report query (qa_type qa)
    (AgentServiceMVP.ts_tool_results
       (AgentServiceMVP.run_tools call_tool container_str (qa_tools qa)))
  = Ok text ->
  exists r,
    (AgentServiceMVP.process_query uuid4_hex now elapsed_ms call_tool report
       container_str sessions query sid).2 = Ok r
    /\ response r = text
    /\ tools_used r = imap (mvp_record call_tool) (qa_tools qa)
    /\ length (tools_used r) = length (qa_tools qa).
Proof.
  intros qa H. unfold AgentServiceMVP.process_query.
  unfold AgentServiceMVP._analyze_query. fold qa. rewrite H.
  eexists. split; [reflexivity |]. simpl.
  rewrite mvp_run_tools_used. split; [reflexivity |].
  split; [reflexivity | apply length_imap].
Qed.

(** [_generate_follow_ups] of the Redis-backed service raises for every
    argument: its table names a member the enumeration does not have. *)
Lemma full_generate_follow_ups_raises (qt : option QueryType) :
  AgentService._generate_follow_ups qt
  = Raise (AttributeError "COMPLIANCE_AUDIT").
Proof. reflexivity. Qed.

(** Hence [process_query] of the Redis-backed service never returns a
    response on this path. *)
Lemma full_process_query_raises
    (uuid4_hex : string) (now elapsed_ms : Z)
    (json_dumps : gmap string value -> string)
    (rx : string -> option string)
    (call_tool : nat -> string -> string -> gmap string value -> result value)
    (cc : list message -> result value)
    (redis : option (gmap string AgentService.redis_entry))
    (query : string) (sid : option string) :
  exists m,
    (AgentService.process_query uuid4_hex now elapsed_ms json_dumps rx
       call_tool cc redis query sid).2
    = Raise (AgentSessionError m sid).
Proof.
  unfold AgentService.process_query, AgentService.process_query_body.
  destruct (AgentService._analyze_query rx query) as [qa | e];
    [| eexists; reflexivity].
  match goal with
  | |- context [match ?c with Ok _ => _ | Raise _ => _ end] =>
      destruct c as [[rc us] | e]
  end; eexists; reflexivity.
Qed.

(** C2, on the Redis-backed service.  The query "price news" requires two
    tools; with a registry that knows only [coingecko] the second call
    raises.  The tool list then has one entry, not two, no entry carries
    an error, and [process_query] raises instead of returning. *)
Theorem full_service_drops_failed_call :
  ClassifierFull._analyze_query (fun _ => None) "price news"
  = Ok (mkAnalysis NEWS_SENTIMENT price_news_tools (8 # 10))
  /\ is_ok (coingecko_only_call 0 "coingecko" "get_coin_price"
              {[ "symbol" := VStr "bitcoin" ]}) = true
  /\ coingecko_only_call 1 "cryptopanic" "get_news" {[ "filter" := VStr "hot" ]}
     = Raise (MCPServerError "Server cryptopanic not found" (Some "cryptopanic"))
  /\ map tool_name
       (AgentService.ts_tools_used
          (AgentService.run_tools coingecko_only_call price_news_tools))
     = ["coingecko.get_coin_price"]
  /\ map error
       (AgentService.ts_tools_used
          (AgentService.run_tools coingecko_only_call price_news_tools))
     = [None]
  /\ is_ok (AgentService.process_query "0123456789abcdef" 0 0 (fun _ => "{}")
              (fun _ => None) coingecko_only_call cc_answer None
              "price news" None).2 = false.
Proof.
  repeat split; vm_compute; reflexivity.
Qed.

(** The same two calls in the MVP loop: both are recorded, the failed one
    with its error. *)
Lemma mvp_records_failed_call :
  map error
    (AgentServiceMVP.ts_tools_used
       (AgentServiceMVP.run_tools coingecko_only_call (fun _ => "")
          price_news_tools))
  = [None; Some "Server cryptopanic not found"].
Proof. vm_compute. reflexivity. Qed.

(** ** Keys of the tool-result mapping *)

(** The MVP service builds a composite key for [get_coin_price] only. *)
Lemma mvp_tool_key_coin_price (container_str : value -> string) (symbol : string) :
  AgentServiceMVP.tool_key container_str (ClassifierMVP.coin_price symbol)
  = "get_coin_price_" +:+ symbol.
Proof.
  unfold AgentServiceMVP.tool_key, ClassifierMVP.coin_price. simpl.
  rewrite lookup_singleton_eq. reflexivity.
Qed.

Lemma mvp_tool_key_other (container_str : value -> string) (ti : tool_info) :
  tool ti <> "get_coin_price" ->
  AgentServiceMVP.tool_key container_str ti = tool ti.
Proof.
  intros H. unfold AgentServiceMVP.tool_key.
  destruct (String.eqb_spec (tool ti) "get_coin_price"); [contradiction | reflexivity].
Qed.

(** C8, what the code does.  The MVP classifier requires [get_news] twice
    for "market news", with the filters "rising" and "hot".  Both calls
    get the key "get_news": when both return, the mapping holds the
    result of the second under that key, whatever the first returned. *)
Theorem mvp_get_news_results_collide
    (call_tool : nat -> string -> string -> gmap string value -> result value)
    (container_str : value -> string) (r1 r2 : value) :
  call_tool 1%nat "cryptopanic" "get_news" {[ "filter" := VStr "rising" ]} = Ok r1 ->
  call_tool 2%nat "cryptopanic" "get_news" {[ "filter" := VStr "hot" ]} = Ok r2 ->
  let tis := qa_tools (ClassifierMVP._analyze_query "market news") in
  tis !! 1%nat = Some (ClassifierMVP.news "rising")
  /\ tis !! 2%nat = Some (ClassifierMVP.news "hot")
  /\ AgentServiceMVP.tool_key container_str (ClassifierMVP.news "rising")
     = AgentServiceMVP.tool_key container_str (ClassifierMVP.news "hot")
  /\ AgentServiceMVP.ts_tool_results
       (AgentServiceMVP.run_tools call_tool container_str tis) !! "get_news"
     = Some r2.
Proof.
  intros H1 H2 tis.
  assert (Htis : tis = [ClassifierMVP.fear_greed; ClassifierMVP.news "rising";
                        ClassifierMVP.news "hot"; ClassifierMVP.market_data;
                        ClassifierMVP.fear_greed])
    by (vm_compute; reflexivity).
  rewrite Htis. split; [reflexivity |]. split; [reflexivity |].
  split; [reflexivity |].
  unfold AgentServiceMVP.run_tools.
  cbn [AgentServiceMVP.tool_loop].
  set (st0 := AgentServiceMVP.tool_step _ _ 0 _ _).
  set (st1 := AgentServiceMVP.tool_step _ _ 1 _ _).
  set (st2 := AgentServiceMVP.tool_step _ _ 2 _ _).
  assert (E2 : AgentServiceMVP.ts_tool_results st2 !! "get_news" = Some r2).
  { subst st2. unfold AgentServiceMVP.tool_step.
    change (server (ClassifierMVP.news "hot")) with "cryptopanic".
    change (tool (ClassifierMVP.news "hot")) with "get_news".
    change (parameters (ClassifierMVP.news "hot"))
      with ({[ "filter" := VStr "hot" ]} : gmap string value).
    rewrite H2. cbn [AgentServiceMVP.ts_tool_results].
    change (AgentServiceMVP.tool_key container_str
              {| server := "cryptopanic"; tool := "get_news";
                 parameters := {[ "filter" := VStr "hot" ]} |}) with "get_news".
    apply lookup_insert_eq. }
  unfold AgentServiceMVP.tool_step at 1 2.
  destruct (call_tool 3%nat _ _ _); destruct (call_tool 4%nat _ _ _);
    cbn [AgentServiceMVP.ts_tool_results];
    rewrite ?lookup_insert_ne by (vm_compute; discriminate);
    exact E2.
Qed.

Lemma mvp_get_news_results_collide_witness :
  AgentServiceMVP.ts_tool_results
    (AgentServiceMVP.run_tools answering_call (fun _ => "")
       (qa_tools (ClassifierMVP._analyze_query "market news"))) !! "get_news"
  = Some (VDict {[ "tool" := VStr "get_news"; "call" := VInt 2 ]}).
Proof.
  apply (mvp_get_news_results_collide answering_call (fun _ => "")
           (VDict {[ "tool" := VStr "get_news"; "call" := VInt 1 ]})
           (VDict {[ "tool" := VStr "get_news"; "call" := VInt 2 ]})
           eq_refl eq_refl).
Defined.

(** In that run the result of the first [get_news] call is under no key
    of the mapping, and four distinct invocations leave three entries. *)
Lemma mvp_get_news_first_result_lost :
  let results :=
    AgentServiceMVP.ts_tool_results
      (AgentServiceMVP.run_tools answering_call (fun _ => "")
         (qa_tools (ClassifierMVP._analyze_query "market news"))) in
  size results = 3%nat
  /\ forall key : string,
       results !! key
       <> Some (VDict {[ "tool" := VStr "get_news"; "call" := VInt 1 ]}).
Proof.
  cbv zeta.
  assert (E : AgentServiceMVP.ts_tool_results
                (AgentServiceMVP.run_tools answering_call (fun _ => "")
                   (qa_tools (ClassifierMVP._analyze_query "market news")))
              = <["get_fear_greed_index" :=
                    VDict {[ "tool" := VStr "get_fear_greed_index"; "call" := VInt 4 ]}]>
                (<["get_market_data" :=
                     VDict {[ "tool" := VStr "get_market_data"; "call" := VInt 3 ]}]>
                 (<["get_news" :=
                      VDict {[ "tool" := VStr "get_news"; "call" := VInt 2 ]}]> ∅)))
    by (vm_compute; reflexivity).
  rewrite E. split.
  - vm_compute. reflexivity.
  - intros key.
    destruct (decide (key = "get_fear_greed_index")) as [-> | N1];
      [rewrite lookup_insert_eq; intros [= H]; vm_compute in H; discriminate |].
    rewrite lookup_insert_ne by congruence.
    destruct (decide (key = "get_market_data")) as [-> | N2];
      [rewrite lookup_insert_eq; intros [= H]; vm_compute in H; discriminate |].
    rewrite lookup_insert_ne by congruence.
    destruct (decide (key = "get_news")) as [-> | N3];
      [rewrite lookup_insert_eq; intros [= H]; vm_compute in H; discriminate |].
    rewrite lookup_insert_ne by congruence.
    rewrite lookup_empty. discriminate.
Qed.

(** ** Unknown servers in the MVP pipeline *)

Section UnknownServerMVP.
Variable mock : string -> string -> gmap string value -> result (gmap string value).
Variable now : string.
Variable servers : gmap string MCPManagerMVP.MockMCPServer.
Variable container_str : value -> string.

Lemma mvp_call_tool_unknown (s t : string) (p : gmap string value) :
  servers !! s = None ->
  MCPManagerMVP.call_tool mock now servers s t p = Ok (unavailable_result s).
Proof. intros H. unfold MCPManagerMVP.call_tool. rewrite H. reflexivity. Qed.

(** [MCPManagerMVP.call_tool] returns for every argument. *)
Lemma mvp_call_tool_never_raises (s t : string) (p : gmap string value) :
  is_ok (MCPManagerMVP.call_tool mock now servers s t p) = true.
Proof.
  unfold MCPManagerMVP.call_tool.
  destruct (servers !! s); [| reflexivity].
  destruct (mock s t p); reflexivity.
Qed.

Lemma mvp_record_unknown (k : nat) (ti : tool_info) :
  servers !! server ti = None ->
  mvp_record (mvp_dispatch mock now servers) k ti
  = mkToolCall (server ti +:+ "." +:+ tool ti) (parameters ti)
      (Some (unavailable_result (server ti))) (Some 50%Z) None.
Proof.
  intros H. unfold mvp_record, mvp_dispatch.
  rewrite mvp_call_tool_unknown by exact H. reflexivity.
Qed.

Lemma successful_tools_all_ok (used : list ToolCall) :
  Forall (fun tc => error tc = None) used ->
  successful_tools used = Z.of_nat (length used).
Proof.
  intros H. unfold successful_tools. f_equal.
  induction H as [| tc l Hx _ IH]; [reflexivity |].
  rewrite filter_cons_True; [simpl; congruence |].
  unfold no_error. rewrite Hx. reflexivity.
Qed.

(** C10.  For a server that is not in the registry [call_tool] of the MVP
    dispatcher returns a dictionary with an "error" key instead of
    raising; the tool loop of [process_query] records the call with that
    dictionary as result and with no error; and when every required tool
    names such a server the confidence computation counts every call as
    successful. *)
Theorem mvp_unknown_server_counts_as_success :
  (forall (s t : string) (p : gmap string value),
     servers !! s = None ->
     exists d,
       MCPManagerMVP.call_tool mock now servers s t p = Ok (VDict d)
       /\ is_Some (d !! "error"))
  /\ (forall (tis : list tool_info) (i : nat) (ti : tool_info),
        tis !! i = Some ti ->
        servers !! server ti = None ->
        exists tc,
          AgentServiceMVP.ts_tools_used
            (AgentServiceMVP.run_tools (mvp_dispatch mock now servers)
               container_str tis) !! i = Some tc
          /\ error tc = None
          /\ tc_result tc = Some (unavailable_result (server ti))
          /\ no_error tc = true)
  /\ (forall (tis : list tool_info) (q : QueryType),
        tis <> [] ->
        Forall (fun ti => servers !! server ti = None) tis ->
        let used := AgentServiceMVP.ts_tools_used
                      (AgentServiceMVP.run_tools
                         (mvp_dispatch mock now servers) container_str tis) in
        successful_tools used = Z.of_nat (length tis)
        /\ (AgentServiceMVP._calculate_confidence_score used
              (Z.of_nat (length tis)) q
            == Qmin (90 # 100) (ConfidenceMVP.type_confidence q))%Q).
Proof.
  split; [| split].
  - intros s t p H. eexists. rewrite mvp_call_tool_unknown by exact H.
    split; [reflexivity |]. rewrite lookup_insert_eq. eauto.
  - intros tis i ti Hi Hs. rewrite mvp_run_tools_used.
    eexists. rewrite list_lookup_imap, Hi. simpl.
    rewrite mvp_record_unknown by exact Hs. repeat split.
  - intros tis q Hne Hall used.
    assert (Hused : Forall (fun tc => error tc = None) used).
    { subst used. rewrite mvp_run_tools_used.
      apply Forall_lookup. intros i tc Hi.
      rewrite list_lookup_imap in Hi.
      destruct (tis !! i) as [ti |] eqn:E; [| discriminate].
      simpl in Hi. injection Hi as <-.
      rewrite mvp_record_unknown; [reflexivity |].
      rewrite Forall_lookup in Hall. exact (Hall i ti E). }
    assert (Hlen : length used = length tis).
    { subst used. rewrite mvp_run_tools_used. apply length_imap. }
    assert (Hsucc : successful_tools used = Z.of_nat (length tis)).
    { rewrite successful_tools_all_ok by exact Hused. congruence. }
    split; [exact Hsucc |].
    unfold AgentServiceMVP._calculate_confidence_score.
    rewrite mvp_confidence_formula
      by (destruct tis; [contradiction | simpl; lia]).
    rewrite Hsucc.
    assert (Hpos : ~ (inject_Z (Z.of_nat (length tis)) == 0)%Q).
    { destruct tis; [contradiction |]. simpl length.
      unfold Qeq, inject_Z. simpl. lia. }
    assert (E : (inject_Z (Z.of_nat (length tis)) / inject_Z (Z.of_nat (length tis))
                 * ConfidenceMVP.type_confidence q
                 == ConfidenceMVP.type_confidence q)%Q)
      by (field; exact Hpos).
    rewrite E. reflexivity.
Qed.

End UnknownServerMVP.

Lemma mvp_unknown_server_counts_as_success_witness :
  successful_tools
    (AgentServiceMVP.ts_tools_used
       (AgentServiceMVP.run_tools
          (mvp_dispatch (fun _ _ _ => Ok ∅) "2025-01-01T00:00:00" ∅)
          (fun _ => "") ClassifierMVP.fallback_tools))
  = 2%Z.
Proof.
  destruct (mvp_unknown_server_counts_as_success
              (fun _ _ _ => Ok ∅) "2025-01-01T00:00:00" ∅ (fun _ => ""))
    as (_ & _ & H).
  destruct (H ClassifierMVP.fallback_tools GENERAL_CRYPTO) as [Hs _].
  - discriminate.
  - repeat constructor.
  - exact Hs.
Defined.

(** ** Tool dispatchers *)

Section Dispatch.
Variable http_post : value -> value -> result value.
Variable process_running : MCPManager.process_handle -> bool.
Variable process_request : MCPManager.process_handle -> value -> result value.

Abbreviation call_tool :=
  (MCPManager.call_tool http_post process_running process_request).

(** An unknown server: typed error, no I/O, registry untouched. *)
Lemma call_tool_unknown (servers : gmap string MCPManager.MCPServer)
    (s t : string) (p : gmap string value) :
  servers !! s = None ->
  call_tool servers s t p
  = (servers, [],
     Raise (MCPServerError ("Server " +:+ s +:+ " not found") (Some s))).
Proof. intros H. unfold MCPManager.call_tool. rewrite H. reflexivity. Qed.

(** A server that is not running: typed error, no I/O, registry
    untouched. *)
Lemma call_tool_not_running (servers : gmap string MCPManager.MCPServer)
    (s t : string) (p : gmap string value) (srv : MCPManager.MCPServer) :
  servers !! s = Some srv ->
  MCPManager.status srv <> "running" ->
  call_tool servers s t p
  = (servers, [],
     Raise (MCPServerError ("Server " +:+ s +:+ " is not running") (Some s))).
Proof.
  intros H Hst. unfold MCPManager.call_tool. rewrite H.
  destruct (String.eqb_spec (MCPManager.status srv) "running");
    [contradiction | reflexivity].
Qed.

(** Every exception of [call_tool] is an [MCPServerError] that carries
    the name of the server the call was for. *)
Lemma call_tool_typed_error (servers : gmap string MCPManager.MCPServer)
    (s t : string) (p : gmap string value) (e : exn) :
  (call_tool servers s t p).2 = Raise e ->
  exists m, e = MCPServerError m (Some s).
Proof.
  unfold MCPManager.call_tool.
  destruct (servers !! s) as [srv |]; [| simpl; intros [= <-]; eauto].
  destruct (negb _); [simpl; intros [= <-]; eauto |].
  destruct (if bool_decide _ then _ else _) as [io [v | e']]; simpl.
  - discriminate.
  - intros [= <-]. eauto.
Qed.

(** A running server with a URL: one POST of the request to that URL,
    whose answer is the result. *)
Lemma call_tool_http_running (servers : gmap string MCPManager.MCPServer)
    (s t : string) (p : gmap string value) (srv : MCPManager.MCPServer)
    (url : value) :
  servers !! s = Some srv ->
  MCPManager.status srv = "running" ->
  MCPManager.config srv !! "url" = Some url ->
  let request := MCPManager.rpc_payload t p in
  let out := call_tool servers s t p in
  out.1.2 = [MCPManager.HttpPost url request]
  /\ match http_post url request with
     | Ok v => out.2 = Ok v /\ out.1.1 = servers
     | Raise e =>
         out.2 = Raise (MCPServerError
                          ("Tool call failed: HTTP tool call failed: "
                           +:+ exn_str e) (Some s))
     end.
Proof.
  intros H Hst Hurl. cbv zeta. unfold MCPManager.call_tool. rewrite H, Hst.
  cbn [String.eqb Ascii.eqb Bool.eqb negb].
  rewrite bool_decide_eq_true_2 by (rewrite Hurl; eauto).
  unfold MCPManager._call_http_tool. rewrite Hurl.
  destruct (http_post url (MCPManager.rpc_payload t p)) as [v | e];
    cbn; auto.
Qed.

(** A running server without URL whose process is alive: the handle is
    checked twice, one request is written, and its answer is the
    result. *)
Lemma call_tool_process_running (servers : gmap string MCPManager.MCPServer)
    (s t : string) (p : gmap string value) (srv : MCPManager.MCPServer)
    (h : MCPManager.process_handle) :
  servers !! s = Some srv ->
  MCPManager.status srv = "running" ->
  MCPManager.config srv !! "url" = None ->
  MCPManager.process srv = Some h ->
  process_running h = true ->
  let request := MCPManager.rpc_payload t p in
  let out := call_tool servers s t p in
  out.1.2 = [MCPManager.ProcessPoll h; MCPManager.ProcessPoll h;
             MCPManager.ProcessRequest h request]
  /\ match process_request h request with
     | Ok v => out.2 = Ok v /\ out.1.1 = servers
     | Raise e =>
         out.2 = Raise (MCPServerError
                          ("Tool call failed: Process tool call failed: "
                           +:+ exn_str e) (Some s))
     end.
Proof.
  intros H Hst Hurl Hp Hr. cbv zeta. unfold MCPManager.call_tool.
  rewrite H, Hst. cbn [String.eqb Ascii.eqb Bool.eqb negb].
  rewrite bool_decide_eq_false_2
    by (rewrite Hurl; intros [? ?]; discriminate).
  unfold MCPManager._call_process_tool. rewrite Hp, Hr.
  destruct (process_request h (MCPManager.rpc_payload t p)) as [v | e];
    cbn; auto.
Qed.

(** A running server without URL whose process is missing or has ended:
    no request is written, and the typed error is raised. *)
Lemma call_tool_process_ended (servers : gmap string MCPManager.MCPServer)
    (s t : string) (p : gmap string value) (srv : MCPManager.MCPServer) :
  servers !! s = Some srv ->
  MCPManager.status srv = "running" ->
  MCPManager.config srv !! "url" = None ->
  (MCPManager.process srv = None
   \/ exists h, MCPManager.process srv = Some h /\ process_running h = false) ->
  let out := call_tool servers s t p in
  out.2 = Raise (MCPServerError
                   "Tool call failed: Process tool call failed: Process is not running"
                   (Some s))
  /\ Forall (fun ev => exists h, ev = MCPManager.ProcessPoll h) out.1.2.
Proof.
  intros H Hst Hurl Hp. cbv zeta. unfold MCPManager.call_tool.
  rewrite H, Hst. cbn [String.eqb Ascii.eqb Bool.eqb negb].
  rewrite bool_decide_eq_false_2
    by (rewrite Hurl; intros [? ?]; discriminate).
  unfold MCPManager._call_process_tool.
  destruct Hp as [-> | (h & -> & ->)]; cbn; split; auto.
  constructor; [eauto | constructor].
Qed.

End Dispatch.

(** [MCPManagerMVP.call_tool] reads of the registry only whether the
    server name is a key: the stored server, and so its status, has no
    influence. *)
Lemma mvp_call_tool_registration_only
    (mock : string -> string -> gmap string value -> result (gmap string value))
    (now : string) (servers servers' : gmap string MCPManagerMVP.MockMCPServer)
    (s t : string) (p : gmap string value) :
  (is_Some (servers' !! s) <-> is_Some (servers !! s)) ->
  MCPManagerMVP.call_tool mock now servers' s t p
  = MCPManagerMVP.call_tool mock now servers s t p.
Proof.
  intros [H1 H2]. unfold MCPManagerMVP.call_tool.
  destruct (servers' !! s) as [m' |], (servers !! s) as [m |]; try reflexivity.
  - destruct H1 as [? ?]; [eauto | discriminate].
  - destruct H2 as [? ?]; [eauto | discriminate].
Qed.

(** C6, in the form the code satisfies.  [MCPManager.call_tool] raises
    [MCPServerError] carrying the server name, without any I/O and without
    touching the registry, when the server is unknown or not running.
    Otherwise it attempts the call: for a server with a URL it posts the
    request once to that URL, for a server with a live process it writes
    the request once to that process; it returns the value the call
    gives, with the registry unchanged, or raises the same typed error
    when the call fails or the process has ended.  Every exception it
    raises is of that type and carries the server name.
    [MCPManagerMVP.call_tool] returns for every argument: for an unknown
    server a dictionary with an "error" key, for a registered one the
    mock response with its metadata, or a dictionary with an "error" key
    when generating it fails; its result is the same for any two
    registries that agree on whether the name is registered, so the
    server status is not consulted. *)
Theorem dispatcher_contract
    (http_post : value -> value -> result value)
    (process_running : MCPManager.process_handle -> bool)
    (process_request : MCPManager.process_handle -> value -> result value)
    (servers : gmap string MCPManager.MCPServer)
    (mock : string -> string -> gmap string value -> result (gmap string value))
    (now : string) (mvp_servers : gmap string MCPManagerMVP.MockMCPServer)
    (s t : string) (p : gmap string value) :
  let out := MCPManager.call_tool http_post process_running process_request
               servers s t p in
  let request := MCPManager.rpc_payload t p in
  let mvp := MCPManagerMVP.call_tool mock now mvp_servers s t p in
  ((servers !! s = None
    \/ exists srv, servers !! s = Some srv /\ MCPManager.status srv <> "running") ->
   out.1.2 = []
   /\ out.1.1 = servers
   /\ exists m, out.2 = Raise (MCPServerError m (Some s)))
  /\ (forall srv, servers !! s = Some srv -> MCPManager.status srv = "running" ->
      (forall url, MCPManager.config srv !! "url" = Some url ->
         out.1.2 = [MCPManager.HttpPost url request]
         /\ match http_post url request with
            | Ok v => out.2 = Ok v /\ out.1.1 = servers
            | Raise e =>
                out.2 = Raise (MCPServerError
                                 ("Tool call failed: HTTP tool call failed: "
                                  +:+ exn_str e) (Some s))
            end)
      /\ (forall h, MCPManager.config srv !! "url" = None ->
            MCPManager.process srv = Some h -> process_running h = true ->
            out.1.2 = [MCPManager.ProcessPoll h; MCPManager.ProcessPoll h;
                       MCPManager.ProcessRequest h request]
            /\ match process_request h request with
               | Ok v => out.2 = Ok v /\ out.1.1 = servers
               | Raise e =>
                   out.2 = Raise (MCPServerError
                                    ("Tool call failed: Process tool call failed: "
                                     +:+ exn_str e) (Some s))
               end)
      /\ (MCPManager.config srv !! "url" = None ->
          (MCPManager.process srv = None
           \/ exists h, MCPManager.process srv = Some h
                        /\ process_running h = false) ->
          out.2 = Raise (MCPServerError
                           "Tool call failed: Process tool call failed: Process is not running"
                           (Some s))
          /\ Forall (fun ev => exists h, ev = MCPManager.ProcessPoll h) out.1.2))
  /\ (forall e, out.2 = Raise e -> exists m, e = MCPServerError m (Some s))
  /\ is_ok mvp = true
  /\ (mvp_servers !! s = None -> mvp = Ok (unavailable_result s))
  /\ (is_Some (mvp_servers !! s) ->
      mvp = match mock s t p with
            | Ok resp =>
                Ok (VDict (<["mock_data" := VBool true]>
                           (<["timestamp" := VStr now]>
                            (<["tool" := VStr t]>
                             (<["server" := VStr s]> resp)))))
            | Raise e =>
                Ok (VDict {[ "error" := VStr (exn_str e);
                             "server" := VStr s;
                             "tool" := VStr t;
                             "mock_data" := VBool true ]})
            end)
  /\ (forall servers' : gmap string MCPManagerMVP.MockMCPServer,
      (is_Some (servers' !! s) <-> is_Some (mvp_servers !! s)) ->
      MCPManagerMVP.call_tool mock now servers' s t p = mvp).
Proof.
  cbv zeta. split; [| split; [| split; [| split; [| split; [| split]]]]].
  - intros [H | (srv & H & Hst)].
    + rewrite call_tool_unknown by exact H. simpl. eauto.
    + rewrite (call_tool_not_running _ _ _ _ _ _ _ srv) by assumption.
      simpl. eauto.
  - intros srv H Hst. split; [| split].
    + intros url Hurl.
      exact (call_tool_http_running _ _ _ _ _ _ _ _ _ H Hst Hurl).
    + intros h Hurl Hp Hr.
      exact (call_tool_process_running _ _ _ _ _ _ _ _ _ H Hst Hurl Hp Hr).
    + intros Hurl Hp.
      exact (call_tool_process_ended _ _ _ _ _ _ _ _ H Hst Hurl Hp).
  - intros e. apply call_tool_typed_error.
  - apply mvp_call_tool_never_raises.
  - apply mvp_call_tool_unknown.
  - intros [m Hm]. unfold MCPManagerMVP.call_tool. rewrite Hm. reflexivity.
  - intros servers'. apply mvp_call_tool_registration_only.
Qed.

Lemma dispatcher_contract_witness :
  (MCPManager.call_tool http_answers (fun _ => true) (fun _ _ => Ok VNone)
     coingecko_only "cryptopanic" "get_news" ∅).1.2 = []
  /\ (MCPManager.call_tool http_answers (fun _ => true) (fun _ _ => Ok VNone)
        coingecko_only "coingecko" "get_coin_price" ∅).2
     = Ok (VDict {[ "price" := VInt 43250 ]})
  /\ MCPManagerMVP.call_tool (fun _ _ _ => Ok ∅) "2025-01-01T00:00:00"
       MCPManagerMVP.initialized_servers "whaletracker" "get_whale_alerts" ∅
     = Ok (unavailable_result "whaletracker").
Proof.
  destruct (dispatcher_contract http_answers (fun _ => true)
              (fun _ _ => Ok VNone) coingecko_only (fun _ _ _ => Ok ∅)
              "2025-01-01T00:00:00" MCPManagerMVP.initialized_servers
              "cryptopanic" "get_news" ∅) as (H & _).
  destruct (dispatcher_contract http_answers (fun _ => true)
              (fun _ _ => Ok VNone) coingecko_only (fun _ _ _ => Ok ∅)
              "2025-01-01T00:00:00" MCPManagerMVP.initialized_servers
              "coingecko" "get_coin_price" ∅) as (_ & Hrun & _).
  destruct (dispatcher_contract http_answers (fun _ => true)
              (fun _ _ => Ok VNone) coingecko_only (fun _ _ _ => Ok ∅)
              "2025-01-01T00:00:00" MCPManagerMVP.initialized_servers
              "whaletracker" "get_whale_alerts" ∅) as (_ & _ & _ & _ & H' & _).
  split; [| split].
  - apply H. left. vm_compute. reflexivity.
  - assert (Hsrv : coingecko_only !! "coingecko"
                   = Some (MCPManager.mkServer "coingecko"
                             {[ "url" := VStr "https://mcp.api.coingecko.com/sse" ]}
                             "running" None 0))
      by (vm_compute; reflexivity).
    destruct (Hrun _ Hsrv eq_refl) as (Hhttp & _).
    assert (Hurl : ({[ "url" := VStr "https://mcp.api.coingecko.com/sse" ]}
                      : gmap string value) !! "url"
                   = Some (VStr "https://mcp.api.coingecko.com/sse"))
      by (vm_compute; reflexivity).
    destruct (Hhttp _ Hurl) as (_ & Hv). apply Hv.
  - apply H'. vm_compute. reflexivity.
Defined.

(** C6 as stated fails on the MVP dispatcher: for "whaletracker", which
    its registry does not contain, it returns a dictionary instead of
    raising. *)
Lemma mvp_dispatcher_counterexample :
  MCPManagerMVP.initialized_servers !! "whaletracker" = None
  /\ is_ok (MCPManagerMVP.call_tool (fun _ _ _ => Ok ∅) "2025-01-01T00:00:00"
              MCPManagerMVP.initialized_servers "whaletracker"
              "get_whale_alerts" ∅) = true.
Proof. split; vm_compute; reflexivity. Qed.

(** On the other branch of the claim, a running server whose endpoint
    fails makes [MCPManager.call_tool] raise after the I/O. *)
Lemma full_dispatcher_io_failure :
  let out := MCPManager.call_tool (fun _ _ => Raise (OtherException "503"))
               (fun _ => true) (fun _ _ => Ok VNone) coingecko_only
               "coingecko" "get_coin_price" ∅ in
  length out.1.2 = 1%nat
  /\ out.2 = Raise (MCPServerError
                      "Tool call failed: HTTP tool call failed: 503"
                      (Some "coingecko"))
  /\ MCPManager.error_count <$> (out.1.1 !! "coingecko") = Some 1%Z.
Proof. repeat split; vm_compute; reflexivity. Qed.

(** ** Sessions *)

Lemma length_last_n {A} (n : nat) (l : list A) :
  length (last_n n l) = min n (length l).
Proof. unfold last_n. rewrite length_drop. lia. Qed.

Lemma last_n_snoc {A} (n : nat) (l : list A) (x : A) :
  (0 < n)%nat -> last (last_n n (l ++ [x])) = Some x.
Proof.
  intros Hn. unfold last_n. rewrite length_app. simpl.
  rewrite drop_app_le by lia. apply last_snoc.
Qed.

(** Below the bound nothing is dropped. *)
Lemma last_n_all {A} (n : nat) (l : list A) :
  (length l <= n)%nat -> last_n n l = l.
Proof.
  intros H. unfold last_n. replace (length l - n)%nat with 0%nat by lia.
  reflexivity.
Qed.

(** An empty history gives an empty slice. *)
Lemma last_n_nil {A} (n : nat) : last_n n (@nil A) = [].
Proof. unfold last_n. apply drop_nil. Qed.

Lemma full_update_then_read (now : Z)
    (store : gmap string AgentService.redis_entry) (sid : string)
    (e : AgentService.redis_entry) (query : string) (resp : value)
    (tool_results : gmap string value) :
  store !! AgentService.session_key sid = Some e ->
  AgentService.history
    (AgentService._get_session_context
       (AgentService._update_session_context now (Some store) sid query resp
          tool_results) sid)
  = Some (last_n 20
            (default []
               (AgentService.history
                  (default AgentService.empty_ctx
                     (AgentService.sd_context (AgentService.payload e))))
             ++ [AgentService.mkExchange query resp now tool_results])).
Proof.
  intros H. unfold AgentService._update_session_context. rewrite H.
  unfold AgentService._get_session_context. rewrite lookup_insert_eq.
  reflexivity.
Qed.

Lemma mvp_update_then_read (now : Z)
    (sessions : gmap string AgentServiceMVP.session_data) (sid : string)
    (s : AgentServiceMVP.session_data) (query resp : string)
    (tool_results : gmap string value) :
  sessions !! sid = Some s ->
  AgentServiceMVP.history
  <$> AgentServiceMVP.get_session
        (AgentServiceMVP._update_session_context now sessions sid query resp
           tool_results) sid
  = Some (last_n 10
            (AgentServiceMVP.history s
             ++ [AgentServiceMVP.mkExchange query
                   (Str.take 200 resp +:+ "...") now
                   (negb (bool_decide (tool_results = ∅)))])).
Proof.
  intros H. unfold AgentServiceMVP._update_session_context. rewrite H.
  unfold AgentServiceMVP.get_session. rewrite lookup_insert_eq.
  reflexivity.
Qed.

(** C4, in the form the code satisfies.  After an exchange is appended
    to an existing session, the history read back is the old history with the new entry
    at its end, cut to its most recent entries: 20 in the Redis-backed
    service, which stores the response unchanged, and 10 in the MVP
    service, which stores the first 200 characters of the response
    followed by "...". *)
Theorem append_then_read (now : Z)
    (store : gmap string AgentService.redis_entry)
    (sessions : gmap string AgentServiceMVP.session_data)
    (sid : string) (e : AgentService.redis_entry)
    (s : AgentServiceMVP.session_data)
    (query : string) (resp : value) (resp_text : string)
    (tool_results : gmap string value) :
  store !! AgentService.session_key sid = Some e ->
  sessions !! sid = Some s ->
  (exists hist,
     AgentService.history
       (AgentService._get_session_context
          (AgentService._update_session_context now (Some store) sid query
             resp tool_results) sid) = Some hist
     /\ hist
        = last_n 20
            (default []
               (AgentService.history
                  (default AgentService.empty_ctx
                     (AgentService.sd_context (AgentService.payload e))))
             ++ [AgentService.mkExchange query resp now tool_results])
     /\ last hist = Some (AgentService.mkExchange query resp now tool_results)
     /\ (length hist <= 20)%nat)
  /\ (exists hist,
        AgentServiceMVP.history
        <$> AgentServiceMVP.get_session
              (AgentServiceMVP._update_session_context now sessions sid query
                 resp_text tool_results) sid = Some hist
        /\ hist
           = last_n 10
               (AgentServiceMVP.history s
                ++ [AgentServiceMVP.mkExchange query
                      (Str.take 200 resp_text +:+ "...") now
                      (negb (bool_decide (tool_results = ∅)))])
        /\ last hist
           = Some (AgentServiceMVP.mkExchange query
                     (Str.take 200 resp_text +:+ "...") now
                     (negb (bool_decide (tool_results = ∅))))
        /\ (length hist <= 10)%nat).
Proof.
  intros Hfull Hmvp. split.
  - eexists. split; [apply full_update_then_read; exact Hfull |].
    split; [reflexivity |]. split.
    + apply last_n_snoc. lia.
    + rewrite length_last_n. lia.
  - eexists. split; [apply mvp_update_then_read; exact Hmvp |].
    split; [reflexivity |]. split.
    + apply last_n_snoc. lia.
    + rewrite length_last_n. lia.
Qed.

Lemma append_then_read_witness :
  (exists hist,
     AgentService.history
       (AgentService._get_session_context
          (AgentService._update_session_context 5 (Some one_entry)
             "session_0123456789ab" "btc?" (VStr "ok") ∅)
          "session_0123456789ab") = Some hist
     /\ last hist = Some (AgentService.mkExchange "btc?" (VStr "ok") 5 ∅))
  /\ (exists hist,
        AgentServiceMVP.history
        <$> AgentServiceMVP.get_session
              (AgentServiceMVP._update_session_context 5 one_session
                 "session_0123456789ab" "btc?" "ok" ∅)
              "session_0123456789ab" = Some hist
        /\ last hist = Some (AgentServiceMVP.mkExchange "btc?" "ok..." 5 false)).
Proof.
  destruct (append_then_read 5 one_entry one_session "session_0123456789ab"
              (AgentService.mkEntry 7200
                 (AgentService.mkData "session_0123456789ab" None
                    (AgentService.default_config "gemini-2.0-flash-exp")
                    "active" 0 0 (Some (AgentService.mkCtx None)) None))
              (AgentServiceMVP.mkData "session_0123456789ab" None "active"
                 0 0 [] None)
              "btc?" (VStr "ok") "ok" ∅)
    as [(h1 & E1 & _ & L1 & _) (h2 & E2 & _ & L2 & _)].
  - vm_compute. reflexivity.
  - vm_compute. reflexivity.
  - split; [exists h1 | exists h2]; split; assumption.
Defined.

(** C4 as stated fails on the MVP service: the response read back after
    appending "ok" is "ok...", not "ok". *)
Lemma mvp_round_trip_counterexample :
  (fun s => AgentServiceMVP.ex_response <$> AgentServiceMVP.history s)
  <$> AgentServiceMVP.get_session
        (AgentServiceMVP._update_session_context 5 one_session
           "session_0123456789ab" "btc?" "ok" ∅)
        "session_0123456789ab"
  = Some ["ok..."]
  /\ "ok..." <> "ok".
Proof. split; [vm_compute; reflexivity | discriminate]. Qed.

(** C7.  Without a Redis client, [create_session] returns an active
    session with a fresh identifier, no message, the requested or the
    default configuration and a two-hour expiry, and stores nothing;
    [get_session] for that identifier (and for any other) returns [None];
    [delete_session] returns [False]; the session context read is empty;
    and [_update_session_context] changes nothing.  None of them
    raises. *)
Theorem session_store_unavailable
    (DEFAULT_MODEL uuid4_hex : string) (now : Z) (uid : option string)
    (cfg : option AgentService.SessionConfig) (sid query : string)
    (resp : value) (tool_results : gmap string value) :
  let out := AgentService.create_session DEFAULT_MODEL uuid4_hex now None uid cfg in
  let new_id := "session_" +:+ Str.take 12 uuid4_hex in
  out.1 = None
  /\ out.2
     = Ok (AgentService.mkSession new_id uid
             (default (AgentService.default_config DEFAULT_MODEL) cfg)
             "active" now None 0 (Some (now + 7200)%Z))
  /\ valid_config (AgentService.default_config DEFAULT_MODEL)
  /\ AgentService.get_session out.1 new_id = Ok None
  /\ AgentService.get_session None sid = Ok None
  /\ AgentService.delete_session None sid = (None, Ok false)
  /\ AgentService._get_session_context None sid = AgentService.empty_ctx
  /\ AgentService._prepare_conversation_context
       (AgentService._get_session_context None sid) = []
  /\ AgentService._update_session_context now None sid query resp tool_results
     = None.
Proof.
  cbv zeta. split; [reflexivity |].
  split; [destruct cfg; reflexivity |].
  split; [repeat split; (discriminate || lia) |].
  repeat split.
Qed.

(** With a client, by contrast, the session is stored for two hours and
    can be read back. *)
Lemma create_then_get_session
    (DEFAULT_MODEL uuid4_hex : string) (now : Z) (uid : option string)
    (store : gmap string AgentService.redis_entry) :
  let out := AgentService.create_session DEFAULT_MODEL uuid4_hex now
               (Some store) uid None in
  let new_id := "session_" +:+ Str.take 12 uuid4_hex in
  (AgentService.ttl
   <$> (default ∅ out.1 !! AgentService.session_key new_id)) = Some 7200%Z
  /\ exists s,
       AgentService.get_session out.1 new_id = Ok (Some s)
       /\ AgentService.session_id s = new_id
       /\ AgentService.message_count s = 0%Z.
Proof.
  cbv zeta. unfold AgentService.create_session. simpl. split.
  - rewrite lookup_insert_eq. reflexivity.
  - rewrite lookup_insert_eq. eexists. repeat split.
Qed.

(** * Further properties *)

(** ** Classifiers *)

(** Splits the goal on every keyword test of the MVP classifier. *)
Ltac split_mvp_tests ql :=
  destruct (Str.any_in ClassifierMVP.price_words ql);
  destruct (Str.any_in ["ethereum"; "eth"] ql);
  destruct (Str.any_in ["cardano"; "ada"] ql);
  destruct (Str.any_in ["solana"; "sol"] ql);
  destruct (Str.any_in ClassifierMVP.sentiment_words ql);
  destruct (Str.any_in ["bitcoin"; "btc"] ql);
  destruct (Str.any_in ClassifierMVP.news_words ql);
  destruct (Str.any_in ClassifierMVP.analysis_words ql).

(** X1.  Every tool the MVP classifier requires, for any query, names a
    server that [initialize] registers and a tool that server lists. *)
Theorem mvp_classifier_tools_declared (q : string) (ti : tool_info) :
  In ti (qa_tools (ClassifierMVP._analyze_query q)) ->
  tool_declared MCPManagerMVP.initialized_servers ti = true.
Proof.
  revert ti. apply forallb_forall.
  unfold ClassifierMVP._analyze_query.
  destruct (ClassifierMVP.is_greeting _); [reflexivity |].
  cbv zeta.
  split_mvp_tests (Str.strip (Str.lower q)); vm_compute; reflexivity.
Qed.

Lemma mvp_classifier_tools_declared_witness :
  tool_declared MCPManagerMVP.initialized_servers
    (ClassifierMVP.ticker "ETH/USDT") = true.
Proof.
  apply (mvp_classifier_tools_declared "Is ethereum a good buy?").
  vm_compute. right. left. reflexivity.
Defined.

(** Names the pair a stage of the classifier computes. *)
Ltac name_stage :=
  match goal with
  | |- context [let '(_, _) := ?e in _] =>
      let qt := fresh "qt" in
      let tools := fresh "tools" in
      destruct e as [qt tools]; cbv beta iota
  end.

(** X2.  The MVP classifier requires no tool exactly for the greetings:
    every other query gets at least one tool. *)
Theorem mvp_classifier_no_tools_iff_greeting (q : string) :
  qa_tools (ClassifierMVP._analyze_query q) = []
  <-> ClassifierMVP.is_greeting (Str.strip (Str.lower q)) = true.
Proof.
  unfold ClassifierMVP._analyze_query.
  destruct (ClassifierMVP.is_greeting _); [split; reflexivity |].
  cbv zeta. do 4 name_stage.
  match goal with
  | |- context [match ?l with [] => _ | _ => _ end] => destruct l
  end; split; discriminate.
Qed.

(** X3.  The query type of the MVP classifier follows a fixed precedence:
    a greeting is general; otherwise an analysis word gives market
    analysis, else a news word gives news sentiment, else a sentiment
    word gives market analysis, else a price word gives price
    prediction, else the query is general. *)
Theorem mvp_classifier_type_precedence (q : string) :
  qa_type (ClassifierMVP._analyze_query q)
  = if ClassifierMVP.is_greeting (Str.strip (Str.lower q))
    then GENERAL_CRYPTO
    else mvp_type_by_precedence (Str.strip (Str.lower q)).
Proof.
  unfold ClassifierMVP._analyze_query, mvp_type_by_precedence.
  destruct (ClassifierMVP.is_greeting _); [reflexivity |].
  cbv zeta.
  destruct (Str.any_in ClassifierMVP.price_words _);
    destruct (Str.any_in ClassifierMVP.sentiment_words _);
    destruct (Str.any_in ClassifierMVP.news_words _);
    destruct (Str.any_in ClassifierMVP.analysis_words _);
    reflexivity.
Qed.

(** X4.  The classifier of the Redis-backed service raises exactly for
    the queries that contain a compliance word, and then with the
    [AttributeError] of the missing enumeration member; for every other
    query it returns, with the type given by the precedence whale, news,
    sentiment, price. *)
Theorem full_classifier_fails_iff_compliance
    (rx : string -> option string) (q : string) :
  match ClassifierFull._analyze_query rx q with
  | Ok qa =>
      Str.any_in ClassifierFull.compliance_words (Str.lower q) = false
      /\ qa_type qa = full_type_by_precedence (Str.lower q)
  | Raise e =>
      Str.any_in ClassifierFull.compliance_words (Str.lower q) = true
      /\ e = AttributeError "COMPLIANCE_AUDIT"
  end.
Proof.
  unfold ClassifierFull._analyze_query, full_type_by_precedence.
  cbv zeta.
  destruct (Str.any_in ClassifierFull.compliance_words _);
    destruct (Str.any_in ClassifierFull.price_words _);
    destruct (Str.any_in ClassifierFull.sentiment_words _);
    destruct (Str.any_in ClassifierFull.news_words _);
    destruct (Str.any_in ClassifierFull.whale_words _);
    split; reflexivity.
Qed.

(** X5.  [_extract_standards] never returns an empty list: it returns
    the standards the query names, in the order AML, GDPR, KYC, eERC and
    without repetition, and the three default standards when the query
    names none. *)
Theorem extract_standards_shape (q : string) :
  ClassifierFull._extract_standards q <> []
  /\ sublist (ClassifierFull._extract_standards q) ["AML"; "GDPR"; "KYC"; "eERC"]
  /\ (Str.contains "aml" (Str.lower q) = false ->
      Str.contains "money laundering" (Str.lower q) = false ->
      Str.contains "gdpr" (Str.lower q) = false ->
      Str.contains "privacy" (Str.lower q) = false ->
      Str.contains "kyc" (Str.lower q) = false ->
      Str.contains "know your customer" (Str.lower q) = false ->
      Str.contains "eerc" (Str.lower q) = false ->
      Str.contains "enhanced erc" (Str.lower q) = false ->
      Str.contains "avalanche" (Str.lower q) = false ->
      ClassifierFull._extract_standards q = ["AML"; "GDPR"; "KYC"]).
Proof.
  unfold ClassifierFull._extract_standards. cbv zeta.
  split; [| split].
  - destruct (_ || _); destruct (_ || _); destruct (_ || _);
      destruct (_ || _ || _); discriminate.
  - destruct (_ || _); destruct (_ || _); destruct (_ || _);
      destruct (_ || _ || _); simpl; repeat constructor.
  - intros -> -> -> -> -> -> -> -> ->. reflexivity.
Qed.

Lemma extract_standards_shape_witness :
  ClassifierFull._extract_standards "Is this token safe?"
  = ["AML"; "GDPR"; "KYC"].
Proof.
  destruct (extract_standards_shape "Is this token safe?") as (_ & _ & H).
  apply H; vm_compute; reflexivity.
Defined.

(** ** Session histories *)

(** Cutting before appending does not change the result of cutting
    after appending. *)
Lemma last_n_last_n_snoc {A} (n : nat) (l : list A) (x : A) :
  (0 < n)%nat -> last_n n (last_n n l ++ [x]) = last_n n (l ++ [x]).
Proof.
  intros Hn. destruct (decide (length l <= n)%nat) as [Hle | Hgt].
  - rewrite (last_n_all n l) by exact Hle. reflexivity.
  - unfold last_n. rewrite !length_app, length_drop. simpl.
    rewrite !drop_app_le by (rewrite ?length_drop; lia).
    rewrite drop_drop. do 2 f_equal. lia.
Qed.

Lemma mvp_update_step
    (sessions : gmap string AgentServiceMVP.session_data) (sid : string)
    (s : AgentServiceMVP.session_data) (u : mvp_update) :
  sessions !! sid = Some s ->
  AgentServiceMVP._update_session_context (mu_now u) sessions sid
    (mu_query u) (mu_response u) (mu_results u) !! sid
  = Some (AgentServiceMVP.mkData
            (AgentServiceMVP.session_id s) (AgentServiceMVP.user_id s)
            (AgentServiceMVP.status s) (AgentServiceMVP.created_at s)
            (AgentServiceMVP.message_count s + 1)%Z
            (last_n 10 (AgentServiceMVP.history s ++ [mvp_entry u]))
            (Some (mu_now u))).
Proof.
  intros H. unfold AgentServiceMVP._update_session_context. rewrite H.
  apply lookup_insert_eq.
Qed.

(** X6.  After any sequence of exchanges on an existing session of the
    MVP service, the message count has grown by the number of exchanges
    and, once there is at least one exchange, the history is the old
    history followed by the new entries, cut to its last ten; identity,
    owner, status and creation time are unchanged. *)
Theorem mvp_history_after_updates (us : list mvp_update) :
  forall (sessions : gmap string AgentServiceMVP.session_data)
         (sid : string) (s : AgentServiceMVP.session_data),
    sessions !! sid = Some s ->
    exists s',
      mvp_updates sessions sid us !! sid = Some s'
      /\ AgentServiceMVP.message_count s'
         = (AgentServiceMVP.message_count s + Z.of_nat (length us))%Z
      /\ AgentServiceMVP.history s'
         = match us with
           | [] => AgentServiceMVP.history s
           | _ => last_n 10 (AgentServiceMVP.history s ++ map mvp_entry us)
           end
      /\ AgentServiceMVP.session_id s' = AgentServiceMVP.session_id s
      /\ AgentServiceMVP.user_id s' = AgentServiceMVP.user_id s
      /\ AgentServiceMVP.status s' = AgentServiceMVP.status s
      /\ AgentServiceMVP.created_at s' = AgentServiceMVP.created_at s.
Proof.
  induction us as [| u us IH] using rev_ind; intros sessions sid s Hs.
  - exists s. simpl. split; [exact Hs |]. split; [lia |]. repeat split.
  - destruct (IH sessions sid s Hs)
      as (s1 & Hs1 & Hc & Hh & Hi & Hu & Hst & Hcr).
    unfold mvp_updates. rewrite foldl_app. simpl.
    fold (mvp_updates sessions sid us).
    eexists. split; [apply mvp_update_step; exact Hs1 |].
    simpl. rewrite length_app, map_app. simpl.
    split; [lia |]. split; [| repeat split; assumption].
    rewrite Hh. destruct us as [| u0 us0].
    + simpl. reflexivity.
    + rewrite last_n_last_n_snoc by lia. rewrite <- app_assoc. reflexivity.
Qed.

Lemma mvp_history_after_updates_witness :
  AgentServiceMVP.message_count
  <$> (mvp_updates one_session "session_0123456789ab"
         [mkMvpUpdate 1 "btc?" "up" ∅; mkMvpUpdate 2 "eth?" "down" ∅]
       !! "session_0123456789ab")
  = Some 2%Z.
Proof.
  destruct (mvp_history_after_updates
              [mkMvpUpdate 1 "btc?" "up" ∅; mkMvpUpdate 2 "eth?" "down" ∅]
              one_session "session_0123456789ab"
              (AgentServiceMVP.mkData "session_0123456789ab" None "active"
                 0 0 [] None))
    as (s' & -> & Hc & _).
  - vm_compute. reflexivity.
  - simpl. rewrite Hc. reflexivity.
Defined.

(** X7.  [_update_session_context] of the MVP service never creates a
    session and never touches another one: the set of session ids is
    unchanged, and so is every session but the one named. *)
Theorem mvp_update_frame (now : Z)
    (sessions : gmap string AgentServiceMVP.session_data)
    (sid other : string) (query resp : string)
    (tool_results : gmap string value) :
  let sessions' :=
    AgentServiceMVP._update_session_context now sessions sid query resp
      tool_results in
  dom sessions' = dom sessions
  /\ (sessions !! sid = None -> sessions' = sessions)
  /\ (other <> sid -> sessions' !! other = sessions !! other).
Proof.
  cbv zeta. unfold AgentServiceMVP._update_session_context.
  destruct (sessions !! sid) as [s |] eqn:E.
  - split; [| split].
    + apply dom_insert_lookup_L. eauto.
    + discriminate.
    + intros H. apply lookup_insert_ne. congruence.
  - repeat split.
Qed.

Lemma mvp_update_frame_witness :
  AgentServiceMVP._update_session_context 5 one_session "session_unknown"
    "btc?" "ok" ∅ = one_session.
Proof.
  destruct (mvp_update_frame 5 one_session "session_unknown"
              "session_0123456789ab" "btc?" "ok" ∅) as (_ & H & _).
  apply H. vm_compute. reflexivity.
Defined.

Lemma full_update_step
    (store : gmap string AgentService.redis_entry) (sid : string)
    (e : AgentService.redis_entry) (u : full_update) :
  store !! AgentService.session_key sid = Some e ->
  exists store',
    AgentService._update_session_context (fu_now u) (Some store) sid
      (fu_query u) (fu_response u) (fu_results u) = Some store'
    /\ store' !! AgentService.session_key sid
       = Some (AgentService.mkEntry 7200
                 (AgentService.mkData
                    (AgentService.sd_session_id (AgentService.payload e))
                    (AgentService.sd_user_id (AgentService.payload e))
                    (AgentService.sd_config (AgentService.payload e))
                    (AgentService.sd_status (AgentService.payload e))
                    (AgentService.sd_created_at (AgentService.payload e))
                    (AgentService.sd_message_count (AgentService.payload e) + 1)%Z
                    (Some (AgentService.mkCtx
                             (Some (last_n 20
                                      (stored_history (AgentService.payload e)
                                       ++ [full_entry u])))))
                    (Some (fu_now u)))).
Proof.
  intros H. unfold AgentService._update_session_context. rewrite H.
  eexists. split; [reflexivity |]. apply lookup_insert_eq.
Qed.

(** X8.  After any sequence of exchanges on a stored session of the
    Redis-backed service, the message count has grown by the number of
    exchanges and, once there is at least one exchange, the history is the
    old history followed by the new entries, cut to its last twenty, and
    the entry expires two hours after the last write. *)
Theorem full_history_after_updates (us : list full_update) :
  forall (store : gmap string AgentService.redis_entry) (sid : string)
         (e : AgentService.redis_entry),
    store !! AgentService.session_key sid = Some e ->
    exists store' e',
      full_updates (Some store) sid us = Some store'
      /\ store' !! AgentService.session_key sid = Some e'
      /\ AgentService.sd_message_count (AgentService.payload e')
         = (AgentService.sd_message_count (AgentService.payload e)
            + Z.of_nat (length us))%Z
      /\ stored_history (AgentService.payload e')
         = match us with
           | [] => stored_history (AgentService.payload e)
           | _ => last_n 20 (stored_history (AgentService.payload e)
                             ++ map full_entry us)
           end
      /\ AgentService.ttl e'
         = match us with
           | [] => AgentService.ttl e
           | _ => 7200%Z
           end.
Proof.
  induction us as [| u us IH] using rev_ind; intros store sid e He.
  - exists store, e. simpl. repeat split; [exact He | lia].
  - destruct (IH store sid e He) as (s1 & e1 & Hs1 & He1 & Hc & Hh & _).
    destruct (full_update_step s1 sid e1 u He1) as (s2 & Hs2 & He2).
    exists s2. eexists. unfold full_updates. rewrite foldl_app. simpl.
    fold (full_updates (Some store) sid us). rewrite Hs1.
    split; [exact Hs2 |]. split; [exact He2 |].
    simpl. rewrite length_app, map_app. simpl.
    split; [lia |]. split.
    + unfold stored_history at 1. simpl. rewrite Hh.
      destruct us as [| u0 us0].
      * simpl. reflexivity.
      * rewrite last_n_last_n_snoc by lia. rewrite <- app_assoc. reflexivity.
    + destruct us; reflexivity.
Qed.

Lemma full_history_after_updates_witness :
  exists store',
    full_updates (Some one_entry) "session_0123456789ab"
      [mkFullUpdate 1 "btc?" (VStr "up") ∅] = Some store'
    /\ (AgentService.ttl <$> store' !! "session:session_0123456789ab")
       = Some 7200%Z.
Proof.
  destruct (full_history_after_updates [mkFullUpdate 1 "btc?" (VStr "up") ∅]
              one_entry "session_0123456789ab"
              (AgentService.mkEntry 7200
                 (AgentService.mkData "session_0123456789ab" None
                    (AgentService.default_config "gemini-2.0-flash-exp")
                    "active" 0 0 (Some (AgentService.mkCtx None)) None)))
    as (store' & e' & Hs & He & _ & _ & Ht).
  - vm_compute. reflexivity.
  - exists store'. split; [exact Hs |].
    change (AgentService.session_key "session_0123456789ab")
      with "session:session_0123456789ab" in He.
    rewrite He. simpl. rewrite Ht. reflexivity.
Defined.

Lemma delete_session_present
    (store : gmap string AgentService.redis_entry) (sid : string) :
  is_Some (store !! AgentService.session_key sid) ->
  AgentService.delete_session (Some store) sid
  = (Some (delete (AgentService.session_key sid) store), Ok true).
Proof.
  intros [e H]. unfold AgentService.delete_session. rewrite H. reflexivity.
Qed.

Lemma delete_session_absent
    (store : gmap string AgentService.redis_entry) (sid : string) :
  store !! AgentService.session_key sid = None ->
  AgentService.delete_session (Some store) sid = (Some store, Ok false).
Proof.
  intros H. unfold AgentService.delete_session. rewrite H. reflexivity.
Qed.

Lemma create_session_stores
    (DEFAULT_MODEL uuid4_hex : string) (now : Z) (uid : option string)
    (cfg : option AgentService.SessionConfig)
    (store : gmap string AgentService.redis_entry) :
  exists e,
    (AgentService.create_session DEFAULT_MODEL uuid4_hex now (Some store)
       uid cfg).1
    = Some (<[AgentService.session_key ("session_" +:+ Str.take 12 uuid4_hex)
              := e]> store)
    /\ AgentService.ttl e = 7200%Z.
Proof. eexists. split; reflexivity. Qed.

(** X9.  In the Redis-backed service a session that was just created can
    be deleted once: [delete_session] then returns [True] and removes the
    key, a later [get_session] returns [None], and a second
    [delete_session] returns [False] and changes nothing. *)
Theorem full_create_delete_get
    (DEFAULT_MODEL uuid4_hex : string) (now : Z) (uid : option string)
    (cfg : option AgentService.SessionConfig)
    (store : gmap string AgentService.redis_entry) :
  let sid := "session_" +:+ Str.take 12 uuid4_hex in
  let created := (AgentService.create_session DEFAULT_MODEL uuid4_hex now
                    (Some store) uid cfg).1 in
  let deleted := AgentService.delete_session created sid in
  deleted = (Some (delete (AgentService.session_key sid) store), Ok true)
  /\ AgentService.get_session deleted.1 sid = Ok None
  /\ AgentService.delete_session deleted.1 sid = (deleted.1, Ok false).
Proof.
  cbv zeta.
  destruct (create_session_stores DEFAULT_MODEL uuid4_hex now uid cfg store)
    as (e & -> & _).
  rewrite delete_session_present by (rewrite lookup_insert_eq; eauto).
  rewrite delete_insert_eq. cbn [fst].
  split; [reflexivity |]. split.
  - unfold AgentService.get_session. rewrite lookup_delete_eq. reflexivity.
  - apply delete_session_absent. apply lookup_delete_eq.
Qed.

Lemma exchange_messages_dicts (l : list value) :
  Forall (fun e => exists d, e = VDict d) l ->
  exists ms, ExtraContext.exchange_messages l = Ok ms
             /\ length ms = (2 * length l)%nat.
Proof.
  induction 1 as [| e l [d ->] _ (ms & IH & Hlen)].
  - exists []. split; reflexivity.
  - eexists. cbn [ExtraContext.exchange_messages dict_get mbind result_bind].
    rewrite IH. cbn [mbind result_bind mret result_ret].
    split; [reflexivity |]. cbn [length]. lia.
Qed.

Lemma exchange_messages_roles (l : list value) (ms : list message) :
  ExtraContext.exchange_messages l = Ok ms ->
  Forall (fun m => role m = "user" \/ role m = "assistant") ms.
Proof.
  revert ms. induction l as [| e l IH]; intros ms.
  - intros [= <-]. constructor.
  - cbn [ExtraContext.exchange_messages].
    destruct (dict_get e "query" (VStr "")) as [q | x]; [| discriminate].
    destruct (dict_get e "response" (VStr "")) as [r | x]; [| discriminate].
    cbn [mbind result_bind].
    destruct (ExtraContext.exchange_messages l) as [ms' | x]; [| discriminate].
    intros [= <-].
    constructor; [left; reflexivity |].
    constructor; [right; reflexivity | now apply IH].
Qed.

Lemma stored_messages_length (l : list AgentService.exchange) :
  length (concat (map (fun ex =>
            [mkMessage "user" (VStr (AgentService.ex_query ex));
             mkMessage "assistant" (AgentService.ex_response ex)]) l))
  = (2 * length l)%nat.
Proof. induction l as [| x l IH]; simpl; [reflexivity | rewrite IH; lia]. Qed.

Lemma stored_messages_roles (l : list AgentService.exchange) :
  Forall (fun m => role m = "user" \/ role m = "assistant")
    (concat (map (fun ex =>
            [mkMessage "user" (VStr (AgentService.ex_query ex));
             mkMessage "assistant" (AgentService.ex_response ex)]) l)).
Proof.
  induction l as [| x l IH]; simpl; [constructor |].
  constructor; [left; reflexivity |].
  constructor; [right; reflexivity | exact IH].
Qed.

(** X10.  The messages sent to the LLM.  When the request's extra
    context has no [session_history] key (in particular when the request
    has no extra context), the list is built from the stored history: the
    framing prompt, one user and one assistant message for each of the at
    most five most recent exchanges, and the current query, which makes
    [2 + 2 * min(5, n)] messages, at most twelve.  A [session_history]
    supplied with the request replaces the stored one: for a list of [k]
    dictionaries there are [2 + 2 * k] messages, whatever the session
    holds.  Whenever the list is built it starts with the framing prompt,
    ends with the current query, and no message has the role "system". *)
Theorem llm_messages_shape (json_dumps : gmap string value -> string)
    (query : string) (ctx : AgentService.session_ctx)
    (additional_context : gmap string value)
    (tool_results : gmap string value) (qt : option QueryType) :
  let built :=
    ExtraContext._build_llm_messages json_dumps query
      (ExtraContext._prepare_conversation_context ctx additional_context)
      tool_results qt in
  let n := length (default [] (AgentService.history ctx)) in
  (additional_context !! "session_history" = None ->
   exists msgs,
     built = Ok msgs
     /\ msgs = AgentService._build_llm_messages json_dumps query
                 (last_n 5 (default [] (AgentService.history ctx)))
                 tool_results qt
     /\ length msgs = (2 + 2 * min 5 n)%nat
     /\ (length msgs <= 12)%nat)
  /\ (forall l, additional_context !! "session_history" = Some (VList l) ->
      Forall (fun e => exists d, e = VDict d) l ->
      exists msgs, built = Ok msgs /\ length msgs = (2 + 2 * length l)%nat)
  /\ (forall msgs, built = Ok msgs ->
      head msgs
      = Some (mkMessage "user"
                (VStr (AgentService.system_prompt json_dumps qt tool_results)))
      /\ last msgs = Some (mkMessage "user" (VStr query))
      /\ Forall (fun m => role m = "user" \/ role m = "assistant") msgs).
Proof.
  cbv zeta. unfold ExtraContext._prepare_conversation_context.
  split; [| split].
  - intros ->. eexists. split; [reflexivity |]. split; [reflexivity |].
    unfold AgentService._build_llm_messages,
      AgentService._prepare_conversation_context.
    rewrite !length_app, stored_messages_length, length_last_n.
    simpl length. lia.
  - intros l -> Hl.
    destruct (exchange_messages_dicts l Hl) as (ms & Hms & Hlen).
    eexists. cbn [ExtraContext._build_llm_messages ExtraContext.iterate
                  mbind result_bind].
    rewrite Hms. cbn [mbind result_bind mret result_ret].
    split; [reflexivity |].
    rewrite !length_app, Hlen. simpl length. lia.
  - intros msgs.
    destruct (additional_context !! "session_history") as [v |].
    + cbn [ExtraContext._build_llm_messages].
      destruct (ExtraContext.iterate v) as [items | x]; [| discriminate].
      cbn [mbind result_bind].
      destruct (ExtraContext.exchange_messages items) as [ms | x] eqn:Hms;
        [| discriminate].
      intros [= <-]. split; [reflexivity |]. split.
      * simpl. rewrite app_comm_cons. apply last_snoc.
      * simpl. constructor; [left; reflexivity |].
        apply Forall_app. split; [exact (exchange_messages_roles _ _ Hms) |].
        constructor; [left; reflexivity | constructor].
    + intros [= <-]. unfold AgentService._build_llm_messages.
      split; [reflexivity |]. split.
      * simpl. rewrite app_comm_cons. apply last_snoc.
      * simpl. constructor; [left; reflexivity |].
        apply Forall_app. split; [apply stored_messages_roles |].
        constructor; [left; reflexivity | constructor].
Qed.

Lemma llm_messages_shape_witness :
  (exists msgs,
     ExtraContext._build_llm_messages (fun _ => "{}") "price?"
       (ExtraContext._prepare_conversation_context (AgentService.mkCtx None) ∅)
       ∅ None = Ok msgs
     /\ length msgs = 2%nat)
  /\ (exists msgs,
        ExtraContext._build_llm_messages (fun _ => "{}") "price?"
          (ExtraContext._prepare_conversation_context (AgentService.mkCtx None)
             six_exchanges)
          ∅ None = Ok msgs
        /\ length msgs = 14%nat).
Proof.
  split.
  - destruct (llm_messages_shape (fun _ => "{}") "price?" (AgentService.mkCtx None)
                ∅ ∅ None) as (H & _).
    destruct H as (msgs & Hb & _ & Hlen & _); [apply lookup_empty |].
    exists msgs. split; [exact Hb | exact Hlen].
  - destruct (llm_messages_shape (fun _ => "{}") "price?" (AgentService.mkCtx None)
                six_exchanges ∅ None) as (_ & H & _).
    destruct (H (replicate 6 (VDict {[ "query" := VStr "q";
                                       "response" := VStr "r" ]})))
      as (msgs & Hb & Hlen).
    + apply lookup_singleton_eq.
    + repeat constructor; eexists; reflexivity.
    + exists msgs. split; [exact Hb | exact Hlen].
Defined.

(** ** Registry of [MCPManager] *)

Section Registry.
Variable http_get : value -> result Z.
Variable spawn : gmap string value -> result MCPManager.process_handle.
Variable process_running : MCPManager.process_handle -> bool.
Variable http_post : value -> value -> result value.
Variable process_request : MCPManager.process_handle -> value -> result value.

(** The two ways [call_tool] leaves the registry. *)
Lemma call_tool_registry (servers : gmap string MCPManager.MCPServer)
    (s t : string) (p : gmap string value) :
  let out := MCPManager.call_tool http_post process_running process_request
               servers s t p in
  (out.1.1 = servers
   /\ (is_ok out.2 = true
       \/ servers !! s = None
       \/ exists srv, servers !! s = Some srv
                      /\ MCPManager.status srv <> "running"))
  \/ (exists srv,
        servers !! s = Some srv
        /\ MCPManager.status srv = "running"
        /\ is_ok out.2 = false
        /\ out.1.1
           = <[s := MCPManager.mkServer (MCPManager.name srv)
                      (MCPManager.config srv) (MCPManager.status srv)
                      (MCPManager.process srv)
                      (MCPManager.error_count srv + 1)%Z]> servers).
Proof.
  cbv zeta. unfold MCPManager.call_tool.
  destruct (servers !! s) as [srv |] eqn:E; [| left; simpl; auto].
  destruct (String.eqb_spec (MCPManager.status srv) "running") as [Hr | Hr]; simpl.
  - destruct (if bool_decide _ then _ else _) as [io [v | e]]; simpl.
    + left. auto.
    + right. exists srv. auto.
  - left. split; [reflexivity |]. right. right. eauto.
Qed.

(** X11.  [call_tool] changes nothing in the registry but the error
    count of the server it was called for: the set of names is kept,
    every other server is untouched, name, configuration, status and
    process of the called server are kept, and its error count grows by
    one exactly when a running server's call fails. *)
Theorem call_tool_frame (servers : gmap string MCPManager.MCPServer)
    (s t : string) (p : gmap string value)
    (k : string) (srv : MCPManager.MCPServer) :
  servers !! k = Some srv ->
  let out := MCPManager.call_tool http_post process_running process_request
               servers s t p in
  dom out.1.1 = dom servers
  /\ exists srv',
       out.1.1 !! k = Some srv'
       /\ MCPManager.name srv' = MCPManager.name srv
       /\ MCPManager.config srv' = MCPManager.config srv
       /\ MCPManager.status srv' = MCPManager.status srv
       /\ MCPManager.process srv' = MCPManager.process srv
       /\ MCPManager.error_count srv'
          = (MCPManager.error_count srv
             + if bool_decide (k = s)
                  && String.eqb (MCPManager.status srv) "running"
                  && negb (is_ok out.2)
               then 1 else 0)%Z.
Proof.
  intros Hk. cbv zeta.
  destruct (call_tool_registry servers s t p)
    as [[-> Hcase] | (srv0 & Hs & Hrun & Hfail & ->)].
  - split; [reflexivity |]. exists srv. split; [exact Hk |].
    repeat split.
    destruct Hcase as [Hok | [Hnone | (srv0 & Hs & Hst)]].
    + rewrite Hok, andb_false_r. lia.
    + case_bool_decide as Hks; [subst k; congruence | simpl; lia].
    + case_bool_decide as Hks; [| simpl; lia].
      subst k. assert (srv0 = srv) by congruence. subst srv0.
      destruct (String.eqb_spec (MCPManager.status srv) "running");
        [contradiction | simpl; lia].
  - split; [apply dom_insert_lookup_L; eauto |].
    destruct (decide (k = s)) as [-> | Hne].
    + assert (srv0 = srv) by congruence. subst srv0.
      rewrite lookup_insert_eq. eexists. split; [reflexivity |]. simpl.
      repeat split.
      rewrite bool_decide_true by reflexivity. rewrite Hrun, Hfail.
      reflexivity.
    + rewrite lookup_insert_ne by congruence.
      exists srv. split; [exact Hk |]. repeat split.
      rewrite bool_decide_false by exact Hne. simpl. lia.
Qed.

(** [_initialize_server] adds at most the named server, and only in the
    running state. *)
Lemma initialize_server_result (servers : gmap string MCPManager.MCPServer)
    (n : string) (cfg : gmap string value) :
  let servers' :=
    MCPLifecycle._initialize_server http_get spawn process_running servers
      n cfg in
  servers' = servers
  \/ exists p,
       servers' = <[n := MCPManager.mkServer n cfg "running" p 0]> servers.
Proof.
  cbv zeta. unfold MCPLifecycle._initialize_server.
  destruct (bool_decide (is_Some (cfg !! "url"))).
  - unfold MCPLifecycle._initialize_http_server. simpl.
    destruct (cfg !! "url") as [url |]; [| left; reflexivity].
    destruct (http_get url) as [code | e]; [| left; reflexivity].
    destruct (code =? 200)%Z; [right; eexists; reflexivity | left; reflexivity].
  - destruct (bool_decide (is_Some (cfg !! "command"))); [| left; reflexivity].
    unfold MCPLifecycle._initialize_process_server. simpl.
    destruct (spawn cfg) as [p | e]; [| left; reflexivity].
    destruct (process_running p);
      [right; eexists; reflexivity | left; reflexivity].
Qed.

Lemma initialize_server_keeps (servers : gmap string MCPManager.MCPServer)
    (n : string) (cfg : gmap string value) :
  map_Forall fresh_running servers ->
  map_Forall fresh_running
    (MCPLifecycle._initialize_server http_get spawn process_running servers
       n cfg).
Proof.
  intros H. destruct (initialize_server_result servers n cfg) as [-> | [p ->]].
  - exact H.
  - apply map_Forall_insert_2; [repeat split | exact H].
Qed.

(** X12.  Whatever the configuration file holds and whatever the servers
    answer, every server [initialize] registers from an empty registry is
    in the running state, is registered under its own name, has an error
    count of zero, and is named in the loaded configuration. *)
Theorem initialize_registers_running
    (file : option (result (list (string * gmap string value))))
    (k : string) (srv : MCPManager.MCPServer) :
  MCPLifecycle.initialize http_get spawn process_running ∅ file !! k
  = Some srv ->
  MCPManager.status srv = "running"
  /\ MCPManager.name srv = k
  /\ MCPManager.error_count srv = 0%Z
  /\ In k (map fst (MCPLifecycle._load_mcp_config file)).
Proof.
  unfold MCPLifecycle.initialize.
  generalize (MCPLifecycle._load_mcp_config file). intros cfgs.
  assert (G : forall (l : list (string * gmap string value))
                     (s0 : gmap string MCPManager.MCPServer),
             map_Forall fresh_running s0 ->
             (forall k', is_Some (s0 !! k') -> In k' (map fst cfgs)) ->
             (forall x, In x l -> In x cfgs) ->
             let s1 := foldl (fun s nc =>
                                MCPLifecycle._initialize_server http_get spawn
                                  process_running s nc.1 nc.2) s0 l in
             map_Forall fresh_running s1
             /\ forall k', is_Some (s1 !! k') -> In k' (map fst cfgs)).
  { induction l as [| [n c] l IH]; intros s0 H0 Hd Hl; simpl.
    - split; assumption.
    - apply IH.
      + apply initialize_server_keeps. exact H0.
      + intros k' Hk'.
        destruct (initialize_server_result s0 n c) as [E | [p E]];
          simpl in E; rewrite E in Hk'.
        * apply Hd. exact Hk'.
        * destruct (decide (k' = n)) as [-> | Hne].
          -- apply in_map_iff. exists (n, c). split; [reflexivity |].
             apply Hl. left. reflexivity.
          -- rewrite lookup_insert_ne in Hk' by congruence. apply Hd. exact Hk'.
      + intros x Hx. apply Hl. right. exact Hx. }
  intros Hk.
  destruct (G cfgs ∅) as [Hall Hdom].
  - apply map_Forall_empty.
  - intros k' [x Hx]. rewrite lookup_empty in Hx. discriminate.
  - auto.
  - destruct (Hall k srv Hk) as (H1 & H2 & H3).
    repeat split; try assumption. apply Hdom. eauto.
Qed.

End Registry.

Lemma call_tool_frame_witness :
  exists srv',
    (MCPManager.call_tool (fun _ _ => Raise (OtherException "503"))
       (fun _ => true) (fun _ _ => Ok VNone) coingecko_only
       "coingecko" "get_coin_price" ∅).1.1 !! "coingecko" = Some srv'
    /\ MCPManager.status srv' = "running"
    /\ MCPManager.error_count srv' = 1%Z.
Proof.
  destruct (call_tool_frame (fun _ => true)
              (fun _ _ => Raise (OtherException "503")) (fun _ _ => Ok VNone)
              coingecko_only "coingecko" "get_coin_price" ∅ "coingecko"
              (MCPManager.mkServer "coingecko"
                 {[ "url" := VStr "https://mcp.api.coingecko.com/sse" ]}
                 "running" None 0))
    as (_ & srv' & H & _ & _ & Hst & _ & Hc).
  - vm_compute. reflexivity.
  - exists srv'. split; [exact H |]. split; [exact Hst |].
    rewrite Hc. vm_compute. reflexivity.
Defined.

Lemma initialize_registers_running_witness :
  MCPManager.status
    (MCPManager.mkServer "coingecko"
       {[ "url" := VStr "https://mcp.api.coingecko.com/sse" ]}
       "running" None 0) = "running"
  /\ In "coingecko" (map fst (MCPLifecycle._load_mcp_config None)).
Proof.
  destruct (initialize_registers_running (fun _ => Ok 200%Z)
              (fun _ => Raise (OtherException "no such file"))
              (fun _ => false) None "coingecko"
              (MCPManager.mkServer "coingecko"
                 {[ "url" := VStr "https://mcp.api.coingecko.com/sse" ]}
                 "running" None 0))
    as (H1 & _ & _ & H4).
  - vm_compute. reflexivity.
  - split; assumption.
Defined.

Section Health.
Variable http_get : value -> result Z.
Variable process_running : MCPManager.process_handle -> bool.

Abbreviation probe := (MCPLifecycle.probe http_get process_running).
Abbreviation health_step := (MCPLifecycle.health_step http_get process_running).

Abbreviation hinv := (health_invariant http_get process_running).

Lemma health_step_invariant (k : string) (srv : MCPManager.MCPServer)
    (r : MCPLifecycle.health_report) (seen : gmap string MCPManager.MCPServer) :
  seen !! k = None ->
  hinv r seen ->
  hinv (health_step k srv r) (<[k := srv]> seen).
Proof.
  intros Hk (Hcount & Hhealthy & Hdom & Hall).
  assert (Hentry : forall h : MCPLifecycle.server_health,
             MCPLifecycle.sh_error_count h = MCPManager.error_count srv ->
             (MCPLifecycle.sh_status h = "healthy" <-> probe srv = Ok true) ->
             (MCPLifecycle.sh_status h = "healthy"
              \/ MCPLifecycle.sh_status h = "unhealthy") ->
             forall k' srv',
               <[k := srv]> seen !! k' = Some srv' ->
               exists h',
                 <[k := h]> (MCPLifecycle.report_servers r) !! k' = Some h'
                 /\ MCPLifecycle.sh_error_count h' = MCPManager.error_count srv'
                 /\ (MCPLifecycle.sh_status h' = "healthy" <-> probe srv' = Ok true)
                 /\ (MCPLifecycle.sh_status h' = "healthy"
                     \/ MCPLifecycle.sh_status h' = "unhealthy")).
  { intros h H1 H2 H3 k' srv' Hk'.
    destruct (decide (k' = k)) as [-> | Hne].
    - rewrite lookup_insert_eq in Hk'. injection Hk' as <-.
      exists h. rewrite lookup_insert_eq. auto.
    - rewrite lookup_insert_ne in Hk' by congruence.
      rewrite lookup_insert_ne by congruence. apply Hall. exact Hk'. }
  unfold health_invariant, MCPLifecycle.health_step.
  rewrite map_size_insert_None by exact Hk.
  destruct (probe srv) as [[|] | e] eqn:Ep; simpl.
  - split; [lia |]. split; [exact Hhealthy |].
    split; [rewrite !dom_insert_L, Hdom; reflexivity |].
    apply Hentry; simpl; [reflexivity | tauto | auto].
  - split; [lia |]. split; [split; [discriminate | lia] |].
    split; [rewrite !dom_insert_L, Hdom; reflexivity |].
    apply Hentry; simpl;
      [reflexivity | split; [discriminate | discriminate] | auto].
  - split; [lia |]. split; [split; [discriminate | lia] |].
    split; [rewrite !dom_insert_L, Hdom; reflexivity |].
    apply Hentry; simpl;
      [reflexivity | split; [discriminate | discriminate] | auto].
Qed.

Lemma health_fold (total : nat) (servers : gmap string MCPManager.MCPServer) :
  let r := map_fold health_step (MCPLifecycle.mkReport true ∅ total 0 0)
             servers in
  MCPLifecycle.total_servers r = total /\ hinv r servers.
Proof.
  cbv zeta.
  apply (map_fold_weak_ind
           (fun r seen => MCPLifecycle.total_servers r = total
                          /\ hinv r seen)).
  - split; [reflexivity |]. unfold health_invariant. simpl.
    rewrite map_size_empty, !dom_empty_L.
    split; [reflexivity |]. split; [tauto |]. split; [reflexivity |].
    intros k srv Hk. rewrite lookup_empty in Hk. discriminate.
  - intros k srv seen r Hk [Ht Hinv]. split.
    + unfold MCPLifecycle.health_step.
      destruct (probe srv) as [[|] | e]; simpl; exact Ht.
    + apply health_step_invariant; assumption.
Qed.

(** X13.  The report of [health_check] is consistent: the total is the
    size of the registry, every server is counted once as running or as
    failed, the report is healthy exactly when no server failed, and it
    has one entry per registered server, marked healthy exactly when the
    probe of that server succeeded. *)
Theorem health_check_consistent (servers : gmap string MCPManager.MCPServer) :
  let r := MCPLifecycle.health_check http_get process_running servers in
  MCPLifecycle.total_servers r = size servers
  /\ (MCPLifecycle.running_servers r + MCPLifecycle.failed_servers r
      = MCPLifecycle.total_servers r)%nat
  /\ (MCPLifecycle.healthy r = true <-> MCPLifecycle.failed_servers r = 0%nat)
  /\ dom (MCPLifecycle.report_servers r) = dom servers
  /\ forall k srv,
       servers !! k = Some srv ->
       exists h,
         MCPLifecycle.report_servers r !! k = Some h
         /\ MCPLifecycle.sh_error_count h = MCPManager.error_count srv
         /\ (MCPLifecycle.sh_status h = "healthy" <-> probe srv = Ok true).
Proof.
  cbv zeta. unfold MCPLifecycle.health_check.
  pose proof (health_fold (size servers) servers) as H. cbv zeta in H.
  destruct H as [Ht (Hcount & Hhealthy & Hdom & Hall)].
  split; [exact Ht |]. split; [rewrite Ht; lia |].
  split; [exact Hhealthy |]. split; [exact Hdom |].
  intros k srv Hk. destruct (Hall k srv Hk) as (h & H1 & H2 & H3 & _).
  exists h. auto.
Qed.

End Health.

Section Listing.
Variable process_running : MCPManager.process_handle -> bool.
Variable http_post : value -> value -> result value.
Variable process_request : MCPManager.process_handle -> value -> result value.

(** X14.  [list_tools] raises only for a server that is not registered,
    and then without I/O; for a registered server it returns the tools
    the server reported, or the built-in list for that server name when
    the call failed, which is the empty list for a name outside the six
    built-in ones. *)
Theorem list_tools_fallback (servers : gmap string MCPManager.MCPServer)
    (s : string) :
  let out := MCPLifecycle.list_tools process_running http_post
               process_request servers s in
  let call := MCPManager.call_tool http_post process_running process_request
                servers s "tools/list" ∅ in
  match servers !! s with
  | None =>
      out = (servers, [],
             Raise (MCPServerError ("Server " +:+ s +:+ " not found") (Some s)))
  | Some _ =>
      out.1 = call.1
      /\ out.2 = Ok match call.2 with
                    | Ok v => v
                    | Raise _ => MCPLifecycle._get_mock_tools s
                    end
  end
  /\ (~ In s ["coingecko"; "ccxt"; "feargreed"; "cryptopanic";
               "whaletracker"; "firecrawl"] ->
      MCPLifecycle._get_mock_tools s = VList []).
Proof.
  cbv zeta. split.
  - unfold MCPLifecycle.list_tools.
    destruct (servers !! s) as [srv |]; [| reflexivity].
    destruct (MCPManager.call_tool _ _ _ _ _ _ _) as [[s' io] [v | e]];
      split; reflexivity.
  - intros H. unfold MCPLifecycle._get_mock_tools.
    repeat match goal with
           | |- context [String.eqb s ?n] =>
               destruct (String.eqb_spec s n) as [-> | _];
               [exfalso; apply H; simpl; tauto |]
           end.
    reflexivity.
Qed.

End Listing.

Lemma list_tools_fallback_witness :
  MCPLifecycle._get_mock_tools "complai" = VList [].
Proof.
  destruct (list_tools_fallback (fun _ => true) (fun _ _ => Ok VNone)
              (fun _ _ => Ok VNone) ∅ "complai") as [_ H].
  apply H. simpl. intros [H' | [H' | [H' | [H' | [H' | [H' | []]]]]]];
    discriminate H'.
Defined.


Lemma health_check_consistent_witness :
  exists h,
    MCPLifecycle.report_servers
      (MCPLifecycle.health_check (fun _ => Ok 200%Z) (fun _ => true)
         coingecko_only) !! "coingecko" = Some h
    /\ MCPLifecycle.sh_status h = "healthy".
Proof.
  destruct (health_check_consistent (fun _ => Ok 200%Z) (fun _ => true)
              coingecko_only) as (_ & _ & _ & _ & H).
  destruct (H "coingecko"
              (MCPManager.mkServer "coingecko"
                 {[ "url" := VStr "https://mcp.api.coingecko.com/sse" ]}
                 "running" None 0)) as (h & Hh & _ & Hs).
  - vm_compute. reflexivity.
  - exists h. split; [exact Hh |]. apply Hs. vm_compute. reflexivity.
Defined.

(** A query without tools is a greeting, and a greeting is general. *)
Lemma mvp_classifier_no_tools_greeting (q : string) :
  qa_tools (ClassifierMVP._analyze_query q) = [] ->
  qa_type (ClassifierMVP._analyze_query q) = GENERAL_CRYPTO.
Proof.
  unfold ClassifierMVP._analyze_query.
  destruct (ClassifierMVP.is_greeting _); [reflexivity |].
  cbv zeta. do 4 name_stage.
  match goal with
  | |- context [match ?l with [] => _ | _ => _ end] => destruct l
  end; discriminate.
Qed.

(** ** The MVP pipeline on its own dispatcher *)

Section MvpPipeline.
Variable uuid4_hex : string.
Variable now elapsed_ms : Z.
Variable mock : string -> string -> gmap string value -> result (gmap string value).
Variable clock : string.
Variable servers : gmap string MCPManagerMVP.MockMCPServer.
Variable report : string -> QueryType -> gmap string value -> result string.
Variable container_str : value -> string.

Abbreviation dispatch := (mvp_dispatch mock clock servers).
Abbreviation mvp_process :=
  (AgentServiceMVP.process_query uuid4_hex now elapsed_ms dispatch report
     container_str).

(** On [MCPManagerMVP] no call raises, so no record carries an error. *)
Lemma mvp_record_dispatch_no_error (k : nat) (ti : tool_info) :
  error (mvp_record dispatch k ti) = None.
Proof.
  unfold mvp_record, mvp_dispatch.
  pose proof (mvp_call_tool_never_raises mock clock servers
                (server ti) (tool ti) (parameters ti)) as H.
  destruct (MCPManagerMVP.call_tool mock clock servers _ _ _);
    [reflexivity | discriminate].
Qed.

Lemma mvp_dispatch_all_ok (tis : list tool_info) :
  Forall (fun tc => error tc = None)
    (AgentServiceMVP.ts_tools_used
       (AgentServiceMVP.run_tools dispatch container_str tis)).
Proof.
  rewrite mvp_run_tools_used. apply Forall_lookup. intros i tc Hi.
  rewrite list_lookup_imap in Hi.
  destruct (tis !! i) as [ti |]; [| discriminate].
  simpl in Hi. injection Hi as <-. apply mvp_record_dispatch_no_error.
Qed.

Lemma mvp_weight_below_ceiling (q : QueryType) :
  (ConfidenceMVP.type_confidence q <= 90 # 100)%Q.
Proof. destruct q; discriminate. Qed.

(** X15.  When the MVP service runs on [MCPManagerMVP], the confidence of
    every response is the weight of its query type, whatever the tools
    returned: every call is recorded without error, so the success rate
    is always one (and the base value 0.7 of a greeting equals the weight
    of the general type). *)
Theorem mvp_confidence_is_type_weight
    (sessions : gmap string AgentServiceMVP.session_data)
    (query : string) (sid : option string) (r : AgentQueryResponse) :
  (mvp_process sessions query sid).2 = Ok r ->
  (confidence_score r
   == ConfidenceMVP.type_confidence
        (qa_type (ClassifierMVP._analyze_query query)))%Q
  /\ Forall (fun tc => error tc = None) (tools_used r)
  /\ length (tools_used r)
     = length (qa_tools (ClassifierMVP._analyze_query query)).
Proof.
  unfold AgentServiceMVP.process_query, AgentServiceMVP._analyze_query.
  set (qa := ClassifierMVP._analyze_query query).
  destruct (report query (qa_type qa) _) as [text | e]; [| discriminate].
  simpl. intros [= <-]. simpl.
  split; [| split; [apply mvp_dispatch_all_ok |
                    rewrite mvp_run_tools_used; apply length_imap]].
  unfold AgentServiceMVP._calculate_confidence_score.
  destruct (qa_tools qa) as [| ti tis] eqn:Etools.
  - (* no tool: only a greeting, whose type is general *)
    assert (Hg : qa_type qa = GENERAL_CRYPTO).
    { pose proof (mvp_classifier_no_tools_greeting query) as Hgreet.
      fold qa in Hgreet. apply Hgreet. exact Etools. }
    rewrite Hg. reflexivity.
  - rewrite mvp_confidence_formula by (simpl; lia).
    rewrite (successful_tools_all_ok _ (mvp_dispatch_all_ok (ti :: tis))).
    rewrite mvp_run_tools_used, length_imap.
    assert (Hpos : ~ (inject_Z (Z.of_nat (length (ti :: tis))) == 0)%Q).
    { simpl length. unfold Qeq, inject_Z. simpl. lia. }
    assert (E : (inject_Z (Z.of_nat (length (ti :: tis)))
                 / inject_Z (Z.of_nat (length (ti :: tis)))
                 * ConfidenceMVP.type_confidence (qa_type qa)
                 == ConfidenceMVP.type_confidence (qa_type qa))%Q)
      by (field; exact Hpos).
    rewrite E. apply Q.min_r. apply mvp_weight_below_ceiling.
Qed.

End MvpPipeline.

Lemma mvp_confidence_is_type_weight_witness :
  exists r,
    (AgentServiceMVP.process_query "0123456789abcdef" 0 1
       (mvp_dispatch (fun _ _ _ => Ok ∅) "2025-01-01T00:00:00"
          MCPManagerMVP.initialized_servers)
       (fun _ _ _ => Ok "report") (fun _ => "") ∅
       "what is the btc price" None).2 = Ok r
    /\ (confidence_score r == 75 # 100)%Q.
Proof.
  eexists. split; [reflexivity |].
  match goal with
  | |- (confidence_score ?r == _)%Q =>
      destruct (mvp_confidence_is_type_weight "0123456789abcdef" 0 1
                  (fun _ _ _ => Ok ∅) "2025-01-01T00:00:00"
                  MCPManagerMVP.initialized_servers
                  (fun _ _ _ => Ok "report") (fun _ => "") ∅
                  "what is the btc price" None r eq_refl) as [Hc _]
  end.
  rewrite Hc. vm_compute. reflexivity.
Defined.

(** [_update_session_context] of the MVP service keeps the set of session
    ids and every session but the one named. *)
Lemma mvp_update_untouched (now : Z)
    (sessions : gmap string AgentServiceMVP.session_data)
    (sid other : string) (query resp : string)
    (tool_results : gmap string value) :
  let sessions' :=
    AgentServiceMVP._update_session_context now sessions sid query resp
      tool_results in
  dom sessions' = dom sessions
  /\ (other <> sid -> sessions' !! other = sessions !! other).
Proof.
  cbv zeta. unfold AgentServiceMVP._update_session_context.
  destruct (sessions !! sid) as [s |] eqn:E; [| split; reflexivity].
  split; [apply dom_insert_lookup_L; eauto |].
  intros H. apply lookup_insert_ne. congruence.
Qed.

(** X16.  [process_query] of the MVP service never creates a session.
    When the report builder raises, the call raises [AgentSessionError]
    with the session id it was given and leaves all sessions as they
    were; when it returns and names an existing session, that session has
    one more message and the exchange as last history entry; every other
    session is untouched in all cases. *)
Theorem mvp_process_query_sessions
    (uuid4_hex : string) (now elapsed_ms : Z)
    (call_tool : nat -> string -> string -> gmap string value -> result value)
    (report : string -> QueryType -> gmap string value -> result string)
    (container_str : value -> string)
    (sessions : gmap string AgentServiceMVP.session_data)
    (query : string) (sid : option string) :
  let out := AgentServiceMVP.process_query uuid4_hex now elapsed_ms call_tool
               report container_str sessions query sid in
  dom out.1 = dom sessions
  /\ (forall other, sid <> Some other -> out.1 !! other = sessions !! other)
  /\ match out.2 with
     | Raise e =>
         out.1 = sessions
         /\ exists m, e = AgentSessionError m sid
     | Ok r =>
         resp_session_id r = sid
         /\ forall id s,
              sid = Some id -> id <> "" -> sessions !! id = Some s ->
              exists s',
                out.1 !! id = Some s'
                /\ AgentServiceMVP.message_count s'
                   = (AgentServiceMVP.message_count s + 1)%Z
                /\ last (AgentServiceMVP.history s')
                   = Some (AgentServiceMVP.mkExchange query
                             (Str.take 200 (response r) +:+ "...") now
                             (negb (bool_decide
                                      (AgentServiceMVP.ts_tool_results
                                         (AgentServiceMVP.run_tools call_tool
                                            container_str
                                            (qa_tools
                                               (ClassifierMVP._analyze_query
                                                  query))) = ∅))))
     end.
Proof.
  cbv zeta. unfold AgentServiceMVP.process_query, AgentServiceMVP._analyze_query.
  set (qa := ClassifierMVP._analyze_query query).
  set (st := AgentServiceMVP.run_tools call_tool container_str (qa_tools qa)).
  destruct (report query (qa_type qa) (AgentServiceMVP.ts_tool_results st))
    as [text | e]; cbn [fst snd].
  - destruct (opt_truthy sid) eqn:Etruthy.
    + destruct sid as [id |]; [| discriminate]. cbn [default].
      destruct (mvp_update_untouched now sessions id id query text
                  (AgentServiceMVP.ts_tool_results st)) as (Hdom & _).
      split; [exact Hdom |]. split.
      * intros other Hne.
        destruct (mvp_update_untouched now sessions id other query text
                    (AgentServiceMVP.ts_tool_results st)) as (_ & Hother).
        apply Hother. congruence.
      * split; [reflexivity |]. intros id' s [= <-] _ Hs. simpl.
        unfold AgentServiceMVP._update_session_context. rewrite Hs.
        rewrite lookup_insert_eq. eexists. split; [reflexivity |]. simpl.
        split; [reflexivity |]. apply last_n_snoc. lia.
    + split; [reflexivity |]. split; [reflexivity |].
      split; [reflexivity |]. intros id s -> Hid Hs.
      simpl in Etruthy. unfold str_truthy in Etruthy.
      destruct (String.eqb_spec id ""); [contradiction | discriminate].
  - split; [reflexivity |]. split; [reflexivity |].
    split; [reflexivity | eauto].
Qed.

Lemma mvp_process_query_sessions_witness :
  exists s',
    (AgentServiceMVP.process_query "0123456789abcdef" 7 1 answering_call
       (fun _ _ _ => Ok "report") (fun _ => "") one_session "hello"
       (Some "session_0123456789ab")).1 !! "session_0123456789ab" = Some s'
    /\ AgentServiceMVP.message_count s' = 1%Z.
Proof.
  pose proof (mvp_process_query_sessions "0123456789abcdef" 7 1 answering_call
                (fun _ _ _ => Ok "report") (fun _ => "") one_session "hello"
                (Some "session_0123456789ab")) as H.
  cbv zeta in H. destruct H as (_ & _ & H).
  destruct (AgentServiceMVP.process_query _ _ _ _ _ _ _ _ _).2 as [r | e] eqn:E.
  - destruct H as [_ H].
    destruct (H "session_0123456789ab"
                (AgentServiceMVP.mkData "session_0123456789ab" None "active"
                   0 0 [] None) eq_refl) as (s' & Hs & Hc & _).
    + discriminate.
    + vm_compute. reflexivity.
    + exists s'. split; [exact Hs | exact Hc].
  - vm_compute in E. discriminate E.
Defined.

(** ** Shape of the event stream *)

Section StreamShape.
Variable now : Z.
Variable json_dumps : gmap string value -> string.
Variable rx : string -> option string.
Variable call_tool : nat -> string -> string -> gmap string value -> result value.
Variable cc : list message -> result value.
Variable str_of_nat : nat -> string.

(** A generator that yields one value hands exactly that value to the
    loop body. *)
Lemma async_for_single {Y Z} (y : Y) (body : Y -> gen Z unit) :
  async_for ([y], Ok tt) body = body y.
Proof.
  unfold async_for. simpl.
  destruct (body y) as [zs [[] | e]]; simpl; rewrite ?app_nil_r; reflexivity.
Qed.

(** The consumer of one chunk yields nothing or one [content] event, or
    raises before yielding. *)
Lemma on_chunk_cases (chunk : value) :
  AgentService.on_chunk now chunk = ([], Ok tt)
  \/ (exists c, AgentService.on_chunk now chunk
                = ([AgentService.mkEvent "content" c None now], Ok tt))
  \/ (exists e, AgentService.on_chunk now chunk = ([], Raise e)).
Proof.
  unfold AgentService.on_chunk.
  destruct (dict_get chunk "choices" VNone) as [choices | e];
    [| right; right; eexists; reflexivity].
  cbn [mbind gen_mbind gen_bind gen_lift app].
  destruct (truthy choices); [| left; reflexivity].
  destruct (getindex choices 0) as [choice | e];
    [| right; right; eexists; reflexivity].
  cbn [mbind gen_mbind gen_bind gen_lift app].
  destruct (dict_get choice "delta" (VDict ∅)) as [delta | e];
    [| right; right; eexists; reflexivity].
  cbn [mbind gen_mbind gen_bind gen_lift app].
  destruct (dict_get delta "content" VNone) as [c | e];
    [| right; right; eexists; reflexivity].
  cbn [mbind gen_mbind gen_bind gen_lift app].
  destruct (truthy c); [| left; reflexivity].
  destruct (getitem chunk "choices" ≫= _) as [c' | e];
    [right; left; eexists; reflexivity | right; right; eexists; reflexivity].
Qed.

(** The part of the stream that consumes the LLM. *)
Lemma llm_part_cases (messages : list message) :
  async_for (GeminiClient.stream_completion cc messages)
    (AgentService.on_chunk now) = ([], Ok tt)
  \/ (exists c,
        async_for (GeminiClient.stream_completion cc messages)
          (AgentService.on_chunk now)
        = ([AgentService.mkEvent "content" c None now], Ok tt))
  \/ (exists e,
        async_for (GeminiClient.stream_completion cc messages)
          (AgentService.on_chunk now) = ([], Raise e)).
Proof.
  rewrite stream_completion_unfold.
  destruct (cc messages ≫= extract_chunk) as [chunk | e];
    rewrite async_for_single; apply on_chunk_cases.
Qed.

(** X17.  Every run of [stream_query_response] ends without raising, and
    its events are [start], [analysis], then events of the types tools,
    tool_result, tool_error, generating and content only, and then
    exactly one final event, which is [complete] or [error]; when the
    classifier raises, [error] follows [analysis] at once. *)
Theorem stream_has_one_final_event
    (redis : option (gmap string AgentService.redis_entry))
    (query : string) (sid : option string) :
  let g := AgentService.stream_query_response now json_dumps rx call_tool cc
             str_of_nat redis query sid in
  ends_normally g = true
  /\ exists inner final,
       map AgentService.ev_type (yielded g)
       = ["start"; "analysis"] ++ inner ++ [final]
       /\ (final = "complete" \/ final = "error")
       /\ Forall (fun t => In t inner_event_types) inner
       /\ (is_ok (ClassifierFull._analyze_query rx query) = false ->
           inner = [] /\ final = "error").
Proof.
  cbv zeta.
  unfold AgentService.stream_query_response, AgentService._analyze_query.
  destruct (ClassifierFull._analyze_query rx query) as [qa | e0].
  2:{ split; [reflexivity |]. exists [], "error".
      repeat split; [right; reflexivity | constructor]. }
  cbn [mbind gen_mbind gen_bind yield gen_lift try_except].
  set (msgs := fun tr =>
         AgentService._build_llm_messages json_dumps query
           (AgentService._prepare_conversation_context
              (if opt_truthy sid
               then AgentService._get_session_context redis (default "" sid)
               else AgentService.empty_ctx)) tr (Some (qa_type qa))).
  assert (Hevs : forall evs : list AgentService.event,
             Forall tool_event evs ->
             Forall (fun t => In t inner_event_types)
               (map AgentService.ev_type evs)).
  { intros evs Hall. apply List.Forall_forall. intros t Ht.
    apply in_map_iff in Ht. destruct Ht as (ev0 & <- & Hev).
    rewrite List.Forall_forall in Hall.
    destruct (Hall ev0 Hev) as [-> | ->]; simpl; tauto. }
  destruct (qa_tools qa) as [| ti rest] eqn:Etools;
    [ destruct (stream_tools_yields now call_tool [] 0 ∅)
        as (evs & tr & Hst & Hall & _)
    | destruct (stream_tools_yields now call_tool (ti :: rest) 0 ∅)
        as (evs & tr & Hst & Hall & _) ];
    cbn [mbind gen_mbind gen_bind yield gen_lift try_except mret gen_mret
         gen_ret app];
    rewrite Hst;
    cbn [mbind gen_mbind gen_bind yield gen_lift try_except app];
    fold (msgs tr);
    (destruct (llm_part_cases (msgs tr)) as [E | [[c E] | [e E]]]; rewrite E;
     cbn [mbind gen_mbind gen_bind yield gen_lift try_except app fst snd
          ends_normally yielded is_ok];
     (split; [reflexivity |])).
  - exists (map AgentService.ev_type evs ++ ["generating"]), "complete".
    split; [simpl; rewrite !map_app, <- !app_assoc; reflexivity |].
    split; [left; reflexivity |]. split; [| discriminate].
    apply Forall_app. split; [apply Hevs, Hall |].
    constructor; [simpl; tauto | constructor].
  - exists (map AgentService.ev_type evs ++ ["generating"; "content"]), "complete".
    split; [simpl; rewrite !map_app, <- !app_assoc; reflexivity |].
    split; [left; reflexivity |]. split; [| discriminate].
    apply Forall_app. split; [apply Hevs, Hall |].
    constructor; [simpl; tauto |]. constructor; [simpl; tauto | constructor].
  - exists (map AgentService.ev_type evs ++ ["generating"]), "error".
    split; [simpl; rewrite !map_app, <- !app_assoc; reflexivity |].
    split; [right; reflexivity |]. split; [| discriminate].
    apply Forall_app. split; [apply Hevs, Hall |].
    constructor; [simpl; tauto | constructor].
  - exists ("tools" :: map AgentService.ev_type evs ++ ["generating"]), "complete".
    split; [simpl; rewrite !map_app, <- !app_assoc; reflexivity |].
    split; [left; reflexivity |]. split; [| discriminate].
    constructor; [simpl; tauto |].
    apply Forall_app. split; [apply Hevs, Hall |].
    constructor; [simpl; tauto | constructor].
  - exists ("tools" :: map AgentService.ev_type evs ++ ["generating"; "content"]),
      "complete".
    split; [simpl; rewrite !map_app, <- !app_assoc; reflexivity |].
    split; [left; reflexivity |]. split; [| discriminate].
    constructor; [simpl; tauto |].
    apply Forall_app. split; [apply Hevs, Hall |].
    constructor; [simpl; tauto |]. constructor; [simpl; tauto | constructor].
  - exists ("tools" :: map AgentService.ev_type evs ++ ["generating"]), "error".
    split; [simpl; rewrite !map_app, <- !app_assoc; reflexivity |].
    split; [right; reflexivity |]. split; [| discriminate].
    constructor; [simpl; tauto |].
    apply Forall_app. split; [apply Hevs, Hall |].
    constructor; [simpl; tauto | constructor].
Qed.

End StreamShape.

Lemma stream_has_one_final_event_witness :
  map AgentService.ev_type
    (yielded (AgentService.stream_query_response 0%Z (fun _ => "")
                (fun _ => None) fresh_manager_call cc_answer pretty None
                "is this contract compliant" None))
  = ["start"; "analysis"; "error"].
Proof.
  destruct (stream_has_one_final_event 0%Z (fun _ => "") (fun _ => None)
              fresh_manager_call cc_answer pretty None
              "is this contract compliant" None)
    as (_ & inner & final & Heq & _ & _ & H).
  rewrite Heq. destruct H as [-> ->]; [vm_compute; reflexivity |].
  reflexivity.
Defined.

(** ** Side effects of a failing request *)

Lemma opt_truthy_some (id : string) : id <> "" -> opt_truthy (Some id) = true.
Proof.
  intros H. simpl. unfold str_truthy.
  destruct (String.eqb_spec id ""); [contradiction | reflexivity].
Qed.

(** X18.  In the Redis-backed service a request on a stored session
    changes the session although the request fails: when the classifier
    and the LLM succeed, [process_query] appends the exchange to the
    history, counts the message and refreshes the expiry, and then raises
    [AgentSessionError]. *)
Theorem full_failed_request_updates_session
    (uuid4_hex : string) (now elapsed_ms : Z)
    (json_dumps : gmap string value -> string)
    (rx : string -> option string)
    (call_tool : nat -> string -> string -> gmap string value -> result value)
    (cc : list message -> result value)
    (store : gmap string AgentService.redis_entry)
    (query id : string) (qa : query_analysis) (text usage : value)
    (e : AgentService.redis_entry) :
  ClassifierFull._analyze_query rx query = Ok qa ->
  (forall messages, cc messages = Ok (llm_reply text usage)) ->
  id <> "" ->
  store !! AgentService.session_key id = Some e ->
  let out := AgentService.process_query uuid4_hex now elapsed_ms json_dumps rx
               call_tool cc (Some store) query (Some id) in
  is_ok out.2 = false
  /\ exists store' e',
       out.1 = Some store'
       /\ store' !! AgentService.session_key id = Some e'
       /\ AgentService.ttl e' = 7200%Z
       /\ AgentService.sd_message_count (AgentService.payload e')
          = (AgentService.sd_message_count (AgentService.payload e) + 1)%Z
       /\ last (stored_history (AgentService.payload e'))
          = Some (AgentService.mkExchange query text now
                    (AgentService.ts_tool_results
                       (AgentService.run_tools call_tool (qa_tools qa)))).
Proof.
  intros Hqa Hcc Hid He. cbv zeta.
  unfold AgentService.process_query, AgentService.process_query_body,
    AgentService._analyze_query.
  rewrite Hqa. cbv beta iota zeta. rewrite Hcc.
  match goal with
  | |- context [match ?c with Ok _ => _ | Raise _ => _ end] =>
      assert (E : c = Ok (text, usage)) by reflexivity; rewrite E
  end.
  cbv beta iota. rewrite opt_truthy_some by exact Hid. cbn [default].
  rewrite full_generate_follow_ups_raises.
  cbn [mbind result_bind fst snd is_ok].
  split; [reflexivity |].
  destruct (full_update_step store id e
              (mkFullUpdate now query text
                 (AgentService.ts_tool_results
                    (AgentService.run_tools call_tool (qa_tools qa)))) He)
    as (store' & Hs & He').
  simpl in Hs. exists store'. eexists.
  split; [exact Hs |]. split; [exact He' |].
  split; [reflexivity |]. split; [reflexivity |].
  unfold stored_history at 1. simpl. apply last_n_snoc. lia.
Qed.

Lemma full_failed_request_updates_session_witness :
  exists store' e',
    (AgentService.process_query "0123456789abcdef" 9 1 (fun _ => "{}")
       (fun _ => None) fresh_manager_call cc_answer (Some one_entry)
       "what is the btc price" (Some "session_0123456789ab")).1 = Some store'
    /\ store' !! "session:session_0123456789ab" = Some e'
    /\ AgentService.sd_message_count (AgentService.payload e') = 1%Z.
Proof.
  destruct (full_failed_request_updates_session "0123456789abcdef" 9 1
              (fun _ => "{}") (fun _ => None) fresh_manager_call cc_answer
              one_entry "what is the btc price" "session_0123456789ab"
              (mkAnalysis PRICE_PREDICTION
                 [mkToolInfo "coingecko" "get_coin_price"
                    {[ "symbol" := VStr "bitcoin" ]}] (8 # 10))
              (VStr "answer") (VDict {[ "total_tokens" := VInt 12 ]})
              (AgentService.mkEntry 7200
                 (AgentService.mkData "session_0123456789ab" None
                    (AgentService.default_config "gemini-2.0-flash-exp")
                    "active" 0 0 (Some (AgentService.mkCtx None)) None)))
    as (_ & store' & e' & Hs & He & _ & Hc & _).
  - vm_compute. reflexivity.
  - intros messages. reflexivity.
  - discriminate.
  - vm_compute. reflexivity.
  - exists store', e'. split; [exact Hs |]. split; [exact He | exact Hc].
Defined.

(** ** Message conversion of the LLM client *)

Section Conversion.
Variable py_str : value -> string.

Abbreviation convert_loop := (GeminiConvert.convert_loop py_str).
Abbreviation convert := (GeminiConvert._convert_messages_to_gemini py_str).
Abbreviation not_system :=
  (fun m : message => negb (String.eqb (role m) "system")).

Lemma gemini_role_cases (r : string) :
  (GeminiConvert.gemini_role r = None /\ String.eqb r "system" = true)
  \/ (String.eqb r "system" = false
      /\ (GeminiConvert.gemini_role r = Some "model"
          \/ GeminiConvert.gemini_role r = Some "user")).
Proof.
  unfold GeminiConvert.gemini_role.
  destruct (String.eqb r "system"); [left; auto |].
  right. destruct (String.eqb r "assistant"); auto.
Qed.

Lemma convert_items_ok (items : list value) :
  Forall (fun v => match v with VDict _ => True | _ => False end) items ->
  is_ok (GeminiConvert.convert_items items) = true.
Proof.
  induction 1 as [| v items Hv _ IH]; [reflexivity |].
  destruct v; try contradiction. simpl.
  destruct (GeminiConvert.convert_items items); [| discriminate].
  simpl. destruct (GeminiConvert.type_is d "text"); reflexivity.
Qed.

Lemma convert_loop_ok (messages : list message) :
  Forall convertible messages -> is_ok (convert_loop messages) = true.
Proof.
  induction 1 as [| m rest Hm _ IH]; [reflexivity |]. simpl.
  destruct (GeminiConvert.gemini_role (role m)) as [r |]; [| exact IH].
  destruct (convert_loop rest) as [cs |]; [| discriminate].
  unfold convertible in Hm.
  destruct (content m) as [| | | | items |]; try reflexivity.
  apply convert_items_ok in Hm.
  destruct (GeminiConvert.convert_items items); [reflexivity | discriminate].
Qed.

(** System messages contribute nothing. *)
Lemma convert_loop_drops_system (messages : list message) :
  convert_loop (List.filter not_system messages) = convert_loop messages.
Proof.
  induction messages as [| m rest IH]; [reflexivity |]. simpl.
  destruct (gemini_role_cases (role m)) as [[Hr Hs] | [Hs Hr]]; rewrite Hs; simpl.
  - rewrite Hr. exact IH.
  - rewrite IH. reflexivity.
Qed.

Lemma convert_loop_shape (messages : list message) :
  forall cs,
    convert_loop messages = Ok cs ->
    Forall (fun c => GeminiConvert.g_role c = "user"
                     \/ GeminiConvert.g_role c = "model") cs
    /\ length cs = length (List.filter not_system messages).
Proof.
  induction messages as [| m rest IH]; intros cs H; simpl in H.
  - injection H as <-. split; [constructor | reflexivity].
  - simpl.
    destruct (gemini_role_cases (role m)) as [[Hr Hs] | [Hs Hr]]; rewrite Hs; simpl.
    + rewrite Hr in H. apply IH. exact H.
    + assert (Hrole : exists r, GeminiConvert.gemini_role (role m) = Some r
                                /\ (r = "user" \/ r = "model")).
      { destruct Hr as [-> | ->]; eauto. }
      destruct Hrole as (r & Er & Hr'). rewrite Er in H.
      destruct (convert_loop rest) as [cs' |] eqn:Erest.
      * destruct (IH cs' eq_refl) as [Hall Hlen].
        assert (Hc : exists parts, cs = GeminiConvert.mkContent r parts :: cs').
        { destruct (content m) as [| | | | items |]; simpl in H;
            try (injection H as <-; eauto).
          destruct (GeminiConvert.convert_items items); simpl in H;
            [injection H as <-; eauto | discriminate]. }
        destruct Hc as [parts ->]. split.
        -- constructor; [simpl; tauto | exact Hall].
        -- simpl. congruence.
      * exfalso.
        destruct (content m) as [| | | | items |]; simpl in H;
          try discriminate.
        destruct (GeminiConvert.convert_items items); simpl in H; discriminate.
Qed.

(** X19.  [_convert_messages_to_gemini] returns for every message list
    whose list contents hold only dictionaries.  Whenever it returns, the
    result is the same as for the list without its system messages, every
    role of the result is "user" or "model", a non-empty result starts
    with a "user" entry, and the result has at most one entry more than
    there are non-system messages. *)
Theorem gemini_conversion_shape (messages : list message) :
  (Forall convertible messages -> is_ok (convert messages) = true)
  /\ convert (List.filter not_system messages) = convert messages
  /\ forall out,
       convert messages = Ok out ->
       Forall (fun c => GeminiConvert.g_role c = "user"
                        \/ GeminiConvert.g_role c = "model") out
       /\ (forall c, head out = Some c -> GeminiConvert.g_role c = "user")
       /\ (length (List.filter not_system messages) <= length out
           <= S (length (List.filter not_system messages)))%nat.
Proof.
  unfold GeminiConvert._convert_messages_to_gemini.
  split; [| split].
  - intros H. apply convert_loop_ok in H.
    destruct (convert_loop messages) as [[| c cs] |]; try discriminate;
      simpl; [reflexivity |].
    destruct (negb _); reflexivity.
  - rewrite convert_loop_drops_system. reflexivity.
  - intros out H.
    destruct (convert_loop messages) as [cs |] eqn:E; [| discriminate].
    destruct (convert_loop_shape messages cs E) as [Hall Hlen].
    simpl in H. destruct cs as [| c cs].
    + injection H as <-. split; [constructor |].
      split; [discriminate | simpl in *; lia].
    + destruct (String.eqb_spec (GeminiConvert.g_role c) "user") as [Hu | Hu];
        simpl in H; injection H as <-.
      * split; [exact Hall |]. split; [| simpl in *; lia].
        intros c0 [= <-]. exact Hu.
      * split; [constructor; [left; reflexivity | exact Hall] |].
        split; [| simpl in *; lia].
        intros c0 [= <-]. reflexivity.
Qed.

End Conversion.

Lemma gemini_conversion_shape_witness :
  exists c out,
    GeminiConvert._convert_messages_to_gemini (fun _ => "")
      [mkMessage "system" (VStr "You are SpectraQ AI Agent");
       mkMessage "assistant" (VStr "hello")] = Ok (c :: out)
    /\ GeminiConvert.g_role c = "user".
Proof.
  destruct (gemini_conversion_shape (fun _ => "")
              [mkMessage "system" (VStr "You are SpectraQ AI Agent");
               mkMessage "assistant" (VStr "hello")]) as (Hok & _ & H).
  destruct (GeminiConvert._convert_messages_to_gemini _ _) as [[| c out] | e]
    eqn:E.
  - discriminate E.
  - exists c, out. split; [reflexivity |].
    destruct (H (c :: out) eq_refl) as (_ & Hh & _). apply Hh. reflexivity.
  - assert (Hfalse : false = true); [| discriminate Hfalse].
    apply Hok. repeat constructor.
Defined.

(** ** Query log and query endpoint *)

(** X20.  With a client, [log_query] puts the new entry first, keeps the
    older entries in their order, and bounds the log at 10001 entries:
    the log has [min(10001, n + 1)] entries afterwards.  Without a client
    it writes nothing. *)
Theorem log_query_bounded (now : Z)
    (store : gmap string AgentService.redis_entry)
    (logs : list QueryEndpoint.log_entry) (query resp : string)
    (sid uid : option string) :
  let entry := QueryEndpoint.mkLog query (String.length resp) sid uid now in
  let logs' := QueryEndpoint.log_query now (Some store) logs query resp sid uid in
  head logs' = Some entry
  /\ (Z.of_nat (length logs') = Z.min 10001 (Z.of_nat (length logs) + 1))%Z
  /\ (forall i, (Z.of_nat i < 10000)%Z -> logs' !! S i = logs !! i)
  /\ QueryEndpoint.log_query now None logs query resp sid uid = logs.
Proof.
  cbv zeta. unfold QueryEndpoint.log_query, QueryEndpoint.log_limit.
  replace (Z.to_nat 10001) with (S (Z.to_nat 10000)) by lia.
  rewrite firstn_cons.
  split; [reflexivity |]. split; [| split; [| reflexivity]].
  - cbn [length]. rewrite length_take. lia.
  - intros i Hi. cbn [lookup list_lookup]. apply lookup_take_lt. lia.
Qed.

Lemma log_query_bounded_witness :
  QueryEndpoint.log_query 5 (Some ∅) [QueryEndpoint.mkLog "eth?" 4 None None 1]
    "btc?" "up" None None !! 1%nat
  = Some (QueryEndpoint.mkLog "eth?" 4 None None 1).
Proof.
  destruct (log_query_bounded 5 ∅ [QueryEndpoint.mkLog "eth?" 4 None None 1]
              "btc?" "up" None None) as (_ & _ & H & _).
  rewrite (H 0%nat); [reflexivity | lia].
Defined.

(** X21.  The query endpoint of the Redis-backed service answers every
    request with status 400: [process_query] always raises
    [AgentSessionError], so no response is returned, nothing is written
    to the query log, and the 503 and 500 branches are never taken. *)
Theorem query_agent_always_400
    (uuid4_hex : string) (now elapsed_ms : Z)
    (json_dumps : gmap string value -> string)
    (rx : string -> option string)
    (call_tool : nat -> string -> string -> gmap string value -> result value)
    (cc : list message -> result value)
    (redis : option (gmap string AgentService.redis_entry))
    (logs : list QueryEndpoint.log_entry)
    (query : string) (sid uid : option string) :
  exists redis' detail,
    QueryEndpoint.query_agent uuid4_hex now elapsed_ms json_dumps rx call_tool
      cc redis logs query sid uid
    = (redis', logs, QueryEndpoint.HTTPException 400 detail).
Proof.
  unfold QueryEndpoint.query_agent.
  destruct (full_process_query_raises uuid4_hex now elapsed_ms json_dumps rx
              call_tool cc redis query sid) as [m Hm].
  destruct (AgentService.process_query _ _ _ _ _ _ _ _ _ _) as [redis' r].
  simpl in Hm. subst r. eexists _, _. reflexivity.
Qed.

(** ** Response conversion of the LLM client *)

Lemma text_reply_content (text : string) (finish p c t : value) :
  reply_content (GeminiReply.text_reply text finish p c t) = Ok (VStr text).
Proof. reflexivity. Qed.

Lemma text_reply_chunk (text : string) (finish p c t : value) :
  extract_chunk (GeminiReply.text_reply text finish p c t)
  = Ok (GeminiClient.stop_chunk (VStr text)
          (VDict {[ "prompt_tokens" := p; "completion_tokens" := c;
                    "total_tokens" := t ]})).
Proof. reflexivity. Qed.

Lemma convert_body_shape (resp reply : value) :
  GeminiReply.convert_body resp = Ok reply ->
  reply = GeminiReply.empty_reply
  \/ exists text finish p c t, reply = GeminiReply.text_reply text finish p c t.
Proof.
  unfold GeminiReply.convert_body.
  destruct (dict_get resp "candidates" (VList [])) as [cands | e]; [| discriminate].
  cbn [mbind result_bind].
  destruct (negb (truthy cands)).
  { intros [= <-]. now left. }
  destruct (getindex cands 0) as [cand | e]; [| discriminate].
  cbn [mbind result_bind].
  destruct (dict_get cand "content" (VDict ∅)) as [content | e]; [| discriminate].
  cbn [mbind result_bind].
  destruct (dict_get content "parts" (VList [])) as [parts | e]; [| discriminate].
  cbn [mbind result_bind].
  destruct (GeminiReply.text_of_parts parts) as [text | e]; [| discriminate].
  cbn [mbind result_bind].
  destruct (dict_get cand "finishReason" (VStr "stop")) as [finish | e]; [| discriminate].
  cbn [mbind result_bind].
  destruct (dict_get resp "usageMetadata" (VDict ∅)) as [usage | e]; [| discriminate].
  cbn [mbind result_bind].
  destruct (dict_get usage "promptTokenCount" (VInt 0)) as [p | e]; [| discriminate].
  cbn [mbind result_bind].
  destruct (dict_get usage "candidatesTokenCount" (VInt 0)) as [c | e]; [| discriminate].
  cbn [mbind result_bind].
  destruct (dict_get usage "totalTokenCount" (VInt 0)) as [t | e]; [| discriminate].
  cbn [mbind result_bind].
  intros [= <-]. right. now exists text, finish, p, c, t.
Qed.

(** X22. [_convert_gemini_to_openai_format] never raises, and whatever
    the decoded body of the HTTP response is (a dictionary of any shape, a
    list, a string, a number, null), the reply it returns can be read by
    its callers: [reply["choices"][0]["message"]["content"]] is a string.
    Hence [stream_completion] over a client whose HTTP call succeeded
    yields exactly one chunk, a "stop" chunk, never the error chunk, also
    when the body was unusable. *)
Theorem gemini_reply_always_readable (resp : value) (messages : list message) :
  exists text usage,
    reply_content (GeminiReply._convert_gemini_to_openai_format resp)
    = Ok (VStr text)
    /\ GeminiClient.stream_completion
         (fun _ => Ok (GeminiReply._convert_gemini_to_openai_format resp))
         messages
       = ([GeminiClient.stop_chunk (VStr text) usage], Ok tt).
Proof.
  rewrite stream_completion_unfold.
  unfold GeminiReply._convert_gemini_to_openai_format.
  destruct (GeminiReply.convert_body resp) as [reply | e] eqn:Hbody.
  - destruct (convert_body_shape _ _ Hbody) as [-> | (text & finish & p & c & t & ->)].
    + do 2 eexists. split; reflexivity.
    + do 2 eexists. split; reflexivity.
  - do 2 eexists. split; reflexivity.
Qed.

Lemma str_append_nil_r (s : string) : s +:+ "" = s.
Proof.
  induction s as [| a s IH]; [reflexivity |].
  change (String a (s +:+ "") = String a s). now rewrite IH.
Qed.

Lemma str_append_assoc (s t u : string) : (s +:+ t) +:+ u = s +:+ (t +:+ u).
Proof.
  induction s as [| a s IH]; [reflexivity |].
  change (String a ((s +:+ t) +:+ u) = String a (s +:+ (t +:+ u))).
  now rewrite IH.
Qed.

Lemma collect_text_texts (texts : list string) (acc : string) :
  GeminiReply.collect_text
    ((fun t => VDict {[ "text" := VStr t ]}) <$> texts) acc
  = Ok (acc +:+ foldr String.append "" texts).
Proof.
  revert acc. induction texts as [| t texts IH]; intros acc.
  - cbn [fmap list_fmap GeminiReply.collect_text foldr].
    now rewrite str_append_nil_r.
  - cbn [fmap list_fmap GeminiReply.collect_text foldr].
    rewrite lookup_singleton_eq. rewrite IH. now rewrite str_append_assoc.
Qed.

Lemma dict_get_singleton (k : string) (v dflt : value) :
  dict_get (VDict {[ k := v ]}) k dflt = Ok v.
Proof. unfold dict_get. now rewrite lookup_singleton_eq. Qed.

Lemma dict_get_singleton_ne (k k' : string) (v dflt : value) :
  k <> k' -> dict_get (VDict {[ k := v ]}) k' dflt = Ok dflt.
Proof. intros H. unfold dict_get. now rewrite lookup_singleton_ne. Qed.

Lemma dict_get_empty (k : string) (dflt : value) :
  dict_get (VDict ∅) k dflt = Ok dflt.
Proof. unfold dict_get. now rewrite lookup_empty. Qed.

(** X23. For a response whose first candidate carries text parts, the
    reply's content is the concatenation of the texts in order, the finish
    reason defaults to "stop" and the three token counts default to 0 when
    the response has no [usageMetadata]. *)
Theorem gemini_reply_concatenates_parts (texts : list string) :
  GeminiReply._convert_gemini_to_openai_format (gemini_response_of texts)
  = GeminiReply.text_reply (foldr String.append "" texts)
      (VStr "stop") (VInt 0) (VInt 0) (VInt 0).
Proof.
  unfold GeminiReply._convert_gemini_to_openai_format, GeminiReply.convert_body,
    gemini_response_of.
  rewrite dict_get_singleton.
  cbn [mbind result_bind truthy negb getindex lookup list_lookup].
  rewrite dict_get_singleton. cbn [mbind result_bind].
  rewrite dict_get_singleton. cbn [mbind result_bind GeminiReply.text_of_parts].
  rewrite collect_text_texts. cbn [mbind result_bind].
  rewrite dict_get_singleton_ne by discriminate. cbn [mbind result_bind].
  rewrite dict_get_singleton_ne by discriminate. cbn [mbind result_bind].
  rewrite !dict_get_empty. cbn [mbind result_bind mret result_ret].
  reflexivity.
Qed.

(** X24. A body that is not a JSON object (a list, a string, a number,
    null) is answered by the handler's reply: the content is "Error
    processing response" and the finish reason "error"; a JSON object
    without candidates, or with an empty list of them, gives "No response
    generated". *)
Theorem gemini_reply_degenerate (resp : value) :
  (forall d, resp <> VDict d) ->
  GeminiReply._convert_gemini_to_openai_format resp = GeminiReply.error_reply
  /\ (forall d, d !! "candidates" = None \/ d !! "candidates" = Some (VList []) ->
      GeminiReply._convert_gemini_to_openai_format (VDict d)
      = GeminiReply.empty_reply).
Proof.
  intros Hnd. split.
  - destruct resp as [| | | | | d]; try reflexivity. now destruct (Hnd d).
  - intros d [H | H];
      unfold GeminiReply._convert_gemini_to_openai_format, GeminiReply.convert_body;
      cbn [dict_get mbind result_bind]; rewrite H; reflexivity.
Qed.

Lemma gemini_reply_degenerate_witness :
  GeminiReply._convert_gemini_to_openai_format (VList [VStr "oops"])
  = GeminiReply.error_reply.
Proof.
  apply (gemini_reply_degenerate (VList [VStr "oops"])). intros d. discriminate.
Defined.

(** ** Fear and greed index of the MVP *)

(** X25. The label the mock manager stores with a fear and greed index
    and the interpretation the MVP report prints for the same index name
    the same sentiment for every index except 55 and 75, where the two
    sets of thresholds differ ([> 55] against [>= 55], [> 75] against
    [>= 75]): at 55 the report says "Neutral" and interprets "Greed", at
    75 it says "Greed" and interprets "Extreme Greed". *)
Theorem fear_greed_labels_agree (index : Z) :
  FearGreed.interprets (FearGreed.classification index)
    (FearGreed.interpretation index) = true
  <-> index <> 55%Z /\ index <> 75%Z.
Proof.
  unfold FearGreed.classification, FearGreed.interpretation.
  destruct (Z.ltb_spec index 25), (Z.ltb_spec index 45),
    (Z.ltb_spec 75 index), (Z.ltb_spec 55 index),
    (Z.leb_spec 75 index), (Z.leb_spec 55 index),
    (Z.leb_spec 45 index), (Z.leb_spec 25 index);
    try lia;
    (split; [intros Hs; first [lia | discriminate Hs]
            | intros [H55 H75]; first [reflexivity | lia]]).
Qed.
